(** * Sharded key-value lookup service: model and verified properties

    A shallow embedding of
    - [components/internal_server/sharded_lookup.cc] (the sharded lookup
      engine: bucketing, padding, fan-out, response assembly, [RunQuery]),
    - the OHTTP encryptors declared in
      [components/data_server/request_handler/ohttp_client_encryptor.h],
    - the V2 request handler exercised by
      [components/data_server/request_handler/get_values_v2_handler_test.cc].

    Conventions.  C++ integers are [Z] with the wrap-around of each
    conversion written out; [std::string] is [string]; protobuf maps and
    [absl::flat_hash_map] are [gmap]; [absl::flat_hash_set] is [gset], and a
    loop over such a set visits [elements] of it; metrics and calls on
    collaborators are recorded as a trace of [Event]s. *)

From Stdlib Require Import ZArith String Lia.
From stdpp Require Import base list strings gmap sets fin_maps.

Local Open Scope string_scope.
Local Open Scope list_scope.
Local Open Scope Z_scope.

(** * Part I: the model *)

(** ** absl::Status and absl::StatusOr *)

Module absl.

(** [absl::StatusCode] without [kOk]: the OK status is the constructor
    [OkStatus] of [Status] below, so that a failed [StatusOr] can never
    hold it. *)
Inductive StatusCode :=
| kCancelled | kUnknown | kInvalidArgument | kDeadlineExceeded | kNotFound
| kAlreadyExists | kPermissionDenied | kResourceExhausted
| kFailedPrecondition | kAborted | kOutOfRange | kUnimplemented | kInternal
| kUnavailable | kDataLoss | kUnauthenticated.

(** [static_cast<int>(code)]; gRPC uses the same numbering. *)
Definition raw_code (c : StatusCode) : Z :=
  match c with
  | kCancelled => 1 | kUnknown => 2 | kInvalidArgument => 3
  | kDeadlineExceeded => 4 | kNotFound => 5 | kAlreadyExists => 6
  | kPermissionDenied => 7 | kResourceExhausted => 8
  | kFailedPrecondition => 9 | kAborted => 10 | kOutOfRange => 11
  | kUnimplemented => 12 | kInternal => 13 | kUnavailable => 14
  | kDataLoss => 15 | kUnauthenticated => 16
  end.

Record Error := { code : StatusCode; message : string }.

Inductive Status :=
| OkStatus
| NotOk (e : Error).

Definition InternalError (msg : string) : Status :=
  NotOk {| code := kInternal; message := msg |}.
Definition InvalidArgumentError (msg : string) : Status :=
  NotOk {| code := kInvalidArgument; message := msg |}.

Inductive StatusOr (T : Type) :=
| Value (v : T)
| Failed (e : Error).
Arguments Value {T} v.
Arguments Failed {T} e.

Definition ok {T} (r : StatusOr T) : bool :=
  match r with Value _ => true | Failed _ => false end.

(** [x.status()] *)
Definition status {T} (r : StatusOr T) : Status :=
  match r with Value _ => OkStatus | Failed e => NotOk e end.

Definition kInvalidStatusCtorArg : string :=
  "An OK status is not a valid constructor argument to StatusOr<T>".

(** The converting constructor [StatusOr<T>::StatusOr(const Status&)],
    which every [return some_status;] out of a function returning
    [StatusOr<T>] goes through.  It requires a non-OK status; handed an OK
    one, [Helper::HandleInvalidStatusCtorArg] logs and stores
    [InternalError(kInvalidStatusCtorArg)] (optimised builds; a debug
    build aborts at the log statement instead). *)
Definition StatusOr_of_Status {T} (s : Status) : StatusOr T :=
  match s with
  | OkStatus =>
      Failed {| code := kInternal; message := kInvalidStatusCtorArg |}
  | NotOk e => Failed e
  end.

End absl.
Import absl.

(** ** Integer conversions *)

(** Conversion to [int32_t] (two's complement wrap-around). *)
Definition to_int32 (z : Z) : Z := (z + 2 ^ 31) mod 2 ^ 32 - 2 ^ 31.
(** Conversion to [size_t] (64 bits, unsigned). *)
Definition to_size_t (z : Z) : Z := z mod 2 ^ 64.
Definition INT32_MAX : Z := 2 ^ 31 - 1.

(** [s.size()] of a [std::string]. *)
Definition string_size (s : string) : Z := Z.of_nat (String.length s).

(** ** Protobuf messages of lookup.proto *)

(** [google.rpc.Status] as embedded in a [SingleLookupResult]. *)
Record RpcStatus := { rpc_code : Z; rpc_message : string }.

(** The oneof [single_lookup_result]. *)
Inductive SingleLookupResult :=
| kValue (value : string)
| kKeysetValues (values : list string)
| kUintsetValues (values : list N)
| kStatus (st : RpcStatus)
| SINGLE_LOOKUP_RESULT_NOT_SET.

Record InternalLookupResponse :=
  { kv_pairs : gmap string SingleLookupResult }.

Definition empty_response : InternalLookupResponse := {| kv_pairs := ∅ |}.

Record LogContext := { generation_id : string; adtech_debug_id : string }.
Record ConsentedDebugConfiguration :=
  { is_consented : bool; token : string }.

Record InternalLookupRequest :=
  { keys : list string;
    lookup_sets : bool;
    consented_debug_config : ConsentedDebugConfiguration;
    log_context : LogContext }.

Record InternalRunQueryResponse := { elements_ : list string }.
Record InternalRunSetQueryIntResponse := { int_elements : list N }.

(** What the engine reads of a [RequestContext]. *)
Record RequestContext :=
  { GetConsentedDebugConfiguration : ConsentedDebugConfiguration;
    GetLogContext : LogContext }.

(** ** Collaborators *)

(** The metrics the engine reports. *)
Inductive Metric :=
| kShardedLookupGetKeyValuesLatencyInMicros
| kShardedLookupGetKeyValueSetLatencyInMicros
| kShardedLookupRunQueryLatencyInMicros
| kShardedRunQueryEmptyQuery
| kShardedRunQueryParsingFailure
| kShardedRunQueryKeySetRetrievalFailure
| kShardedRunQueryMissingKeySet
| kShardedRunQueryFailure
| kLookupClientMissing
| kShardedKeyValueRequestFailure
| kShardedKeyValueSetRequestFailure
| kShardedKeyCollisionOnKeySetCollection
| kShardedGetKeyValueSetKeySetRetrievalFailure
| kShardedGetKeyValueSetKeySetNotFound.

(** Which local lookup [GetLocalLookupResponse<result_type>] performs. *)
Inductive SingleLookupResultCase :=
| case_kValue | case_kKeysetValues | case_kUintsetValues.

(** Observable actions of one request, in program order.  The asynchronous
    calls of a fan-out are launched and joined in shard order, and the
    outcome of each depends on its own arguments only, so the trace lists
    them in launch order. *)
Inductive Event :=
| LogUdfRequestErrorMetric (m : Metric)
| AccumulateKeyCountByShard (count : Z) (shard_num : Z)
| RecordLatency (m : Metric)
| ShardManagerGet (shard_num : Z)
| RemoteGetValues (shard_num : Z) (serialized_request : string) (padding : Z)
| LocalLookup (c : SingleLookupResultCase) (key_list : list string).

(** A computation that returns a value and appends to the trace. *)
Definition M (A : Type) : Type := A * list Event.
Definition ret {A} (a : A) : M A := (a, []).
Definition bind {A B} (m : M A) (f : A → M B) : M B :=
  let '(a, t) := m in let '(b, t') := f a in (b, t ++ t').
Definition emit (e : Event) : M unit := (tt, [e]).

Notation "'let*' x ':=' m 'in' k" := (bind m (λ x, k))
  (at level 10, x name, m at level 100, k at level 200, only parsing).

(** [ScopeLatencyMetricsRecorder]: reports when the scope is left. *)
Definition with_latency {A} (m : Metric) (body : M A) : M A :=
  let* a := body in let* _ := emit (RecordLatency m) in ret a.

(** The [Lookup] interface, as implemented by the local cache lookup. *)
Record Lookup :=
  { Lookup_GetKeyValues :
      RequestContext → gset string → StatusOr InternalLookupResponse;
    Lookup_GetKeyValueSet :
      RequestContext → gset string → StatusOr InternalLookupResponse;
    Lookup_GetUInt32ValueSet :
      RequestContext → gset string → StatusOr InternalLookupResponse }.

Record RemoteLookupClient :=
  { GetValues :
      RequestContext → string → Z → StatusOr InternalLookupResponse }.

(** [ShardManager::Get] returns a client or [nullptr]. *)
Record ShardManager := { Get : Z → option RemoteLookupClient }.

Record ShardingResult := { shard_num : Z; sharding_key : string }.

(** Modelled from the spec: [KeySharder] is declared in
    components/sharding/key_sharder.h, which is not among the sources.  Per
    section 4.1, if the configured extraction pattern matches the key the
    matched substring is the sharding key, else the whole key is; the
    (unsigned) hash of the sharding key is reduced modulo [num_shards]. *)
Record KeySharder :=
  { extract_sharding_key : string → option string;
    HashString : string → N }.

Definition GetShardNumForKey (ks : KeySharder) (key : string)
    (num_shards : Z) : ShardingResult :=
  let sk := default key (extract_sharding_key ks key) in
  {| shard_num := Z.of_N (HashString ks sk) mod num_shards;
     sharding_key := sk |}.

(** The query [Driver] with its scanner and parser (components/query/; the
    parser is generated and not among the sources).  [Parse] is [parse()]
    followed by [GetRootNode()]: [None] when [parse()] returns non-zero.
    [EvaluateQuery] calls back into the engine to resolve identifiers, so it
    runs in [M]. *)
Record Driver :=
  { Node : Type;
    Parse : string → option Node;
    Keys : Node → gset string;
    EvaluateQuery :
      Node → (string → M (gset string)) → M (StatusOr (gset string)) }.

(** The template parameter [SetElementType]: [std::string] or [uint32_t]. *)
Inductive SetElementType := elem_string | elem_uint32.

Definition elem (t : SetElementType) : Type :=
  match t with elem_string => string | elem_uint32 => N end.

#[global] Instance elem_eq_dec t : EqDecision (elem t).
Proof. destruct t; apply _. Defined.
#[global] Instance elem_countable t : Countable (elem t).
Proof. destruct t; apply _. Defined.

(** A loop whose body runs in [M]. *)
Fixpoint foldM {A B} (f : A → B → M A) (a : A) (l : list B) : M A :=
  match l with
  | [] => ret a
  | b :: l => let* a := f a b in foldM f a l
  end.

(** ** The engine *)

Record ShardLookupInput :=
  { sli_keys : list string;
    serialized_request : string;
    padding : Z }.

Definition add_key (key : string) (li : ShardLookupInput) : ShardLookupInput :=
  {| sli_keys := sli_keys li ++ [key];
     serialized_request := serialized_request li;
     padding := padding li |}.
Definition set_serialized_request (s : string) (li : ShardLookupInput) :=
  {| sli_keys := sli_keys li; serialized_request := s; padding := padding li |}.
Definition set_padding (p : Z) (li : ShardLookupInput) :=
  {| sli_keys := sli_keys li;
     serialized_request := serialized_request li;
     padding := p |}.

Module ShardedLookup.
Section Engine.

(** The members of [class ShardedLookup]. *)
Context (local_lookup_ : Lookup)
        (num_shards_ current_shard_num_ : Z)
        (shard_manager_ : ShardManager)
        (key_sharder_ : KeySharder).

(** [InternalLookupRequest::SerializeAsString] (protobuf). *)
Context (SerializeAsString : InternalLookupRequest → string).

(** What the member [padding] of the local [ShardLookupInput sli] of
    [BucketKeys] holds: the source declares [sli] without initialising it,
    so the [int32_t] member has an indeterminate value. *)
Context (indeterminate_padding : Z).

(** [BucketKeys].  Every entry of the vector is a copy of [sli]: no keys,
    the empty string, and the padding that [sli] happens to hold.
    [lookup_inputs[i].keys.emplace_back(key)] is [alter] at index [i]; an
    index outside the vector (undefined in C++) leaves the model's vector
    unchanged. *)
Definition BucketKeys (keys : gset string) : list ShardLookupInput :=
  let sli :=
    {| sli_keys := []; serialized_request := "";
       padding := indeterminate_padding |} in
  foldl
    (λ lookup_inputs key,
       let sharding_result := GetShardNumForKey key_sharder_ key num_shards_ in
       alter (add_key key) (Z.to_nat (shard_num sharding_result)) lookup_inputs)
    (replicate (Z.to_nat num_shards_) sli)
    (elements keys).

(** The [InternalLookupRequest] that [SerializeShardedRequests] builds for
    one bucket. *)
Definition bucket_request (request_context : RequestContext)
    (lookup_sets : bool) (lookup_input : ShardLookupInput)
    : InternalLookupRequest :=
  {| keys := sli_keys lookup_input;
     lookup_sets := lookup_sets;
     consented_debug_config := GetConsentedDebugConfiguration request_context;
     log_context := GetLogContext request_context |}.

Definition SerializeShardedRequests (request_context : RequestContext)
    (lookup_inputs : list ShardLookupInput) (lookup_sets : bool)
    : list ShardLookupInput :=
  (λ lookup_input,
     let request := bucket_request request_context lookup_sets lookup_input in
     set_serialized_request (SerializeAsString request) lookup_input)
  <$> lookup_inputs.

(** [ComputePadding].  [max_length] is an [int32_t]; the difference
    [max_length - serialized_request.size()] is computed in [size_t] and
    stored into the [int32_t] field [padding]. *)
Definition max_length_of (lookup_inputs : list ShardLookupInput) : Z :=
  foldl
    (λ max_length lookup_input,
       Z.max max_length (to_int32 (string_size (serialized_request lookup_input))))
    0 lookup_inputs.

Definition ComputePadding (lookup_inputs : list ShardLookupInput)
    : list ShardLookupInput :=
  let max_length := max_length_of lookup_inputs in
  (λ lookup_input,
     set_padding
       (to_int32
          (to_size_t
             (to_size_t max_length - string_size (serialized_request lookup_input))))
       lookup_input)
  <$> lookup_inputs.

Definition ShardKeys (request_context : RequestContext) (keys : gset string)
    (lookup_sets : bool) : list ShardLookupInput :=
  let lookup_inputs := BucketKeys keys in
  let lookup_inputs :=
    SerializeShardedRequests request_context lookup_inputs lookup_sets in
  ComputePadding lookup_inputs.

(** *** Free functions of the anonymous namespace *)

Definition not_found_result : SingleLookupResult :=
  kStatus {| rpc_code := raw_code kNotFound; rpc_message := "" |}.

(** [UpdateResponse].  [key_list] holds pairwise different keys (it comes from
    a set), so no entry of [kv_pairs] is read after it was moved from. *)
Definition UpdateResponse (key_list : list string)
    (kv_pairs : gmap string SingleLookupResult)
    (response : gmap string SingleLookupResult)
    : gmap string SingleLookupResult :=
  foldl
    (λ response key,
       match kv_pairs !! key with
       | None => <[key := not_found_result]> response
       | Some r => <[key := r]> response
       end)
    response key_list.

Definition request_failed_result : SingleLookupResult :=
  kStatus {| rpc_code := raw_code kInternal;
             rpc_message := "Data lookup failed" |}.

(** [SetRequestFailed] (its log line is not modelled). *)
Definition SetRequestFailed (key_list : list string)
    (response : gmap string SingleLookupResult)
    : gmap string SingleLookupResult :=
  foldl (λ response key, <[key := request_failed_result]> response)
        response key_list.

(** *** Fan-out *)

(** [GetLocalLookupResponse<result_type>] *)
Definition GetLocalLookupResponse (result_type : SingleLookupResultCase)
    (request_context : RequestContext) (key_list : list string)
    : M (StatusOr InternalLookupResponse) :=
  match key_list with
  | [] => ret (Value empty_response)
  | _ =>
      let keys : gset string := list_to_set key_list in
      let* _ := emit (LocalLookup result_type key_list) in
      ret (match result_type with
           | case_kValue => Lookup_GetKeyValues local_lookup_ request_context keys
           | case_kKeysetValues =>
               Lookup_GetKeyValueSet local_lookup_ request_context keys
           | case_kUintsetValues =>
               Lookup_GetUInt32ValueSet local_lookup_ request_context keys
           end)
  end.

(** The loop of [GetLookupFutures] from [shard_num] on, over the entries
    [shard_lookup_inputs[shard_num ..]].  A future is modelled by the result
    its [get()] will deliver.  On a missing client the function returns at
    once: the calls launched so far have run, but their results are
    dropped. *)
Fixpoint GetLookupFutures_from (request_context : RequestContext)
    (shard_num : Z) (shard_lookup_inputs : list ShardLookupInput)
    (get_local_future : list string → M (StatusOr InternalLookupResponse))
    : M (StatusOr (list (StatusOr InternalLookupResponse))) :=
  match shard_lookup_inputs with
  | [] => ret (Value [])
  | shard_lookup_input :: rest =>
      let* _ :=
        emit (AccumulateKeyCountByShard
                (to_int32 (Z.of_nat (length (sli_keys shard_lookup_input))))
                shard_num) in
      if decide (shard_num = current_shard_num_) then
        let* r := get_local_future (sli_keys shard_lookup_input) in
        let* responses :=
          GetLookupFutures_from request_context (shard_num + 1) rest
                                get_local_future in
        ret (match responses with
             | Value responses => Value (r :: responses)
             | Failed e => Failed e
             end)
      else
        let* _ := emit (ShardManagerGet shard_num) in
        match Get shard_manager_ shard_num with
        | None =>
            let* _ := emit (LogUdfRequestErrorMetric kLookupClientMissing) in
            ret (StatusOr_of_Status
                   (InternalError "Internal lookup client is unavailable."))
        | Some client =>
            let* _ :=
              emit (RemoteGetValues shard_num
                      (serialized_request shard_lookup_input)
                      (padding shard_lookup_input)) in
            let r :=
              GetValues client request_context
                        (serialized_request shard_lookup_input)
                        (padding shard_lookup_input) in
            let* responses :=
              GetLookupFutures_from request_context (shard_num + 1) rest
                                    get_local_future in
            ret (match responses with
                 | Value responses => Value (r :: responses)
                 | Failed e => Failed e
                 end)
        end
  end.

(** [GetLookupFutures]: [shard_lookup_inputs] has [num_shards_] entries (see
    [BucketKeys]), which the loop visits for [shard_num = 0 .. num_shards_ - 1]. *)
Definition GetLookupFutures (request_context : RequestContext)
    (shard_lookup_inputs : list ShardLookupInput)
    (get_local_future : list string → M (StatusOr InternalLookupResponse))
    : M (StatusOr (list (StatusOr InternalLookupResponse))) :=
  GetLookupFutures_from request_context 0 shard_lookup_inputs get_local_future.

(** *** Single-valued lookups *)

(** The "process responses" loop of [ProcessShardedKeys]: entry [shard_num]
    of the inputs is paired with entry [shard_num] of the responses. *)
Fixpoint process_responses (shard_lookup_inputs : list ShardLookupInput)
    (responses : list (StatusOr InternalLookupResponse))
    (response : gmap string SingleLookupResult)
    : M (gmap string SingleLookupResult) :=
  match shard_lookup_inputs, responses with
  | shard_lookup_input :: inputs, result :: responses =>
      match result with
      | Failed _ =>
          let* _ :=
            emit (LogUdfRequestErrorMetric kShardedKeyValueRequestFailure) in
          process_responses inputs responses
            (SetRequestFailed (sli_keys shard_lookup_input) response)
      | Value result =>
          process_responses inputs responses
            (UpdateResponse (sli_keys shard_lookup_input) (kv_pairs result)
                            response)
      end
  | _, _ => ret response
  end.

Definition ProcessShardedKeys (request_context : RequestContext)
    (keys : gset string) : M (StatusOr InternalLookupResponse) :=
  if decide (keys = ∅) then ret (Value empty_response)
  else
    let shard_lookup_inputs := ShardKeys request_context keys false in
    let* responses :=
      GetLookupFutures request_context shard_lookup_inputs
        (GetLocalLookupResponse case_kValue request_context) in
    match responses with
    | Failed e => ret (StatusOr_of_Status (NotOk e))
    | Value responses =>
        let* response := process_responses shard_lookup_inputs responses ∅ in
        ret (Value {| kv_pairs := response |})
    end.

(** *** Set-valued lookups *)

Definition value_set_of (t : SetElementType) (r : SingleLookupResult)
    : gset (elem t) :=
  match t return gset (elem t) with
  | elem_string =>
      match r with kKeysetValues vs => list_to_set vs | _ => ∅ end
  | elem_uint32 =>
      match r with kUintsetValues vs => list_to_set vs | _ => ∅ end
  end.

(** [CollectKeySets<SetElementType>] *)
Definition CollectKeySets (t : SetElementType)
    (key_sets : gmap string (gset (elem t)))
    (keysets_lookup_response : InternalLookupResponse)
    : M (gmap string (gset (elem t))) :=
  foldM
    (λ key_sets '(key, keyset_lookup_result),
       let value_set := value_set_of t keyset_lookup_result in
       if decide (value_set = ∅) then ret key_sets
       else
         let* _ :=
           match key_sets !! key with
           | Some _ =>
               emit (LogUdfRequestErrorMetric
                       kShardedKeyCollisionOnKeySetCollection)
           | None => ret tt
           end in
         ret (<[key := value_set]> key_sets))
    key_sets (map_to_list (kv_pairs keysets_lookup_response)).

Definition local_case (t : SetElementType) : SingleLookupResultCase :=
  match t with
  | elem_string => case_kKeysetValues
  | elem_uint32 => case_kUintsetValues
  end.

(** The "process responses" loop of [GetShardedKeyValueSet]. *)
Fixpoint collect_responses (t : SetElementType)
    (responses : list (StatusOr InternalLookupResponse))
    (key_sets : gmap string (gset (elem t)))
    : M (StatusOr (gmap string (gset (elem t)))) :=
  match responses with
  | [] => ret (Value key_sets)
  | result :: responses =>
      match result with
      | Failed e =>
          let* _ :=
            emit (LogUdfRequestErrorMetric kShardedKeyValueSetRequestFailure) in
          ret (StatusOr_of_Status (NotOk e))
      | Value result =>
          let* key_sets := CollectKeySets t key_sets result in
          collect_responses t responses key_sets
      end
  end.

(** [GetShardedKeyValueSet<SetElementType>] *)
Definition GetShardedKeyValueSet (t : SetElementType)
    (request_context : RequestContext) (key_set : gset string)
    : M (StatusOr (gmap string (gset (elem t)))) :=
  let shard_lookup_inputs := ShardKeys request_context key_set true in
  let* responses :=
    GetLookupFutures request_context shard_lookup_inputs
      (GetLocalLookupResponse (local_case t) request_context) in
  match responses with
  | Failed e =>
      let* _ := emit (LogUdfRequestErrorMetric kLookupClientMissing) in
      ret (StatusOr_of_Status (NotOk e))
  | Value responses => collect_responses t responses ∅
  end.

Definition set_result (t : SetElementType) : gset (elem t) → SingleLookupResult :=
  match t return gset (elem t) → SingleLookupResult with
  | elem_string => λ s, kKeysetValues (elements s)
  | elem_uint32 => λ s, kUintsetValues (elements s)
  end.

(** [GetKeyValueSets<SetElementType>] *)
Definition GetKeyValueSets (t : SetElementType)
    (request_context : RequestContext) (keys : gset string)
    : M (StatusOr InternalLookupResponse) :=
  with_latency kShardedLookupGetKeyValueSetLatencyInMicros
    (if decide (keys = ∅) then ret (Value empty_response)
     else
       let* get_key_value_set_result_maybe :=
         GetShardedKeyValueSet t request_context keys in
       match get_key_value_set_result_maybe with
       | Failed e =>
           let* _ :=
             emit (LogUdfRequestErrorMetric
                     kShardedGetKeyValueSetKeySetRetrievalFailure) in
           ret (StatusOr_of_Status (NotOk e))
       | Value key_sets =>
           let* response :=
             foldM
               (λ response key,
                  match key_sets !! key with
                  | None =>
                      let* _ :=
                        emit (LogUdfRequestErrorMetric
                                kShardedGetKeyValueSetKeySetNotFound) in
                      ret (<[key := not_found_result]> response)
                  | Some s => ret (<[key := set_result t s]> response)
                  end)
               ∅ (elements keys) in
           ret (Value {| kv_pairs := response |})
       end).

(** *** The [Lookup] interface of the engine *)

Definition GetKeyValues (request_context : RequestContext)
    (keys : gset string) : M (StatusOr InternalLookupResponse) :=
  with_latency kShardedLookupGetKeyValuesLatencyInMicros
    (ProcessShardedKeys request_context keys).

Definition GetKeyValueSet (request_context : RequestContext)
    (keys : gset string) : M (StatusOr InternalLookupResponse) :=
  GetKeyValueSets elem_string request_context keys.

Definition GetUInt32ValueSet (request_context : RequestContext)
    (key_set : gset string) : M (StatusOr InternalLookupResponse) :=
  GetKeyValueSets elem_uint32 request_context key_set.

Definition RunQuery (driver : Driver) (request_context : RequestContext)
    (query : string) : M (StatusOr InternalRunQueryResponse) :=
  with_latency kShardedLookupRunQueryLatencyInMicros
    (let response := {| elements_ := [] |} in
     if decide (query = "") then
       let* _ := emit (LogUdfRequestErrorMetric kShardedRunQueryEmptyQuery) in
       ret (Value response)
     else
       match Parse driver query with
       | None =>
           let* _ :=
             emit (LogUdfRequestErrorMetric kShardedRunQueryParsingFailure) in
           ret (StatusOr_of_Status (InvalidArgumentError "Parsing failure."))
       | Some root =>
           let* get_key_value_set_result_maybe :=
             GetShardedKeyValueSet elem_string request_context
                                   (Keys driver root) in
           match get_key_value_set_result_maybe with
           | Failed e =>
               let* _ :=
                 emit (LogUdfRequestErrorMetric
                         kShardedRunQueryKeySetRetrievalFailure) in
               ret (StatusOr_of_Status (NotOk e))
           | Value keysets =>
               let* result :=
                 EvaluateQuery driver root
                   (λ key,
                      match keysets !! key with
                      | None =>
                          let* _ :=
                            emit (LogUdfRequestErrorMetric
                                    kShardedRunQueryMissingKeySet) in
                          ret ∅
                      | Some s => ret s
                      end) in
               match result with
               | Failed e =>
                   let* _ :=
                     emit (LogUdfRequestErrorMetric kShardedRunQueryFailure) in
                   ret (StatusOr_of_Status (NotOk e))
               | Value result =>
                   ret (Value {| elements_ := elements result |})
               end
           end
       end).

(** [RunSetQueryInt]: the body is [return absl::OkStatus();]. *)
Definition RunSetQueryInt (request_context : RequestContext)
    (query : string) : M (StatusOr InternalRunSetQueryIntResponse) :=
  ret (StatusOr_of_Status OkStatus).

End Engine.
End ShardedLookup.

(** ** The V2 request handler *)

Module GetValuesV2Handler.

(** Messages of get_values_v2.proto, as far as the handler reads and
    writes them. *)
Record UDFArgument := { tags : list string; data : string }.

Record RequestPartition :=
  { id : Z;
    compression_group_id : Z;
    arguments : list UDFArgument;
    partition_metadata : gmap string string }.

Record GetValuesRequest :=
  { metadata : gmap string string;
    partitions : list RequestPartition }.

Record UDFExecutionMetadata :=
  { request_metadata : gmap string string;
    udf_partition_metadata : gmap string string }.

(** The oneof [output_type] of a [ResponsePartition]. *)
Inductive OutputType :=
| string_output (s : string)
| status_output (st : RpcStatus)
| OUTPUT_TYPE_NOT_SET.

Record ResponsePartition := { rp_id : Z; output_type : OutputType }.

Record CompressionGroup :=
  { cg_compression_group_id : Z; content : string }.

Record GetValuesResponse :=
  { single_partition : option ResponsePartition;
    compression_groups : list CompressionGroup }.

Definition empty_GetValuesResponse : GetValuesResponse :=
  {| single_partition := None; compression_groups := [] |}.

(** A JSON array of already serialized JSON values. *)
Definition json_array (outputs : list string) : string :=
  String.append "[" (String.append (String.concat "," outputs) "]").

(** In get_values_v2_handler_test.cc the requests whose metadata has
    [is_pas = "true"] are answered with [single_partition], the others with
    compression groups. *)
Definition IsSinglePartitionUseCase (request : GetValuesRequest) : bool :=
  bool_decide (metadata request !! "is_pas" = Some "true").

Section Handler.

(** The UDF client: [UdfClient::ExecuteCode], an external collaborator. *)
Context (ExecuteCode :
           UDFExecutionMetadata → list UDFArgument → StatusOr string).

(** Modelled from the spec: [GetValuesV2Handler] is defined in
    get_values_v2_handler.cc, which is not among the sources (its test is).
    Steps 2 and 3 of section 4.8 for one partition: invoke the UDF with
    [{request_metadata, partition_metadata}] and the partition's arguments;
    on success record [string_output]; on failure record the status
    [{code = Internal, message}] and report the failure. *)
Definition ProcessOnePartition (req_metadata : gmap string string)
    (req_partition : RequestPartition) : Status * ResponsePartition :=
  let udf_metadata :=
    {| request_metadata := req_metadata;
       udf_partition_metadata := partition_metadata req_partition |} in
  match ExecuteCode udf_metadata (arguments req_partition) with
  | Value output =>
      (OkStatus,
       {| rp_id := id req_partition; output_type := string_output output |})
  | Failed e =>
      (NotOk e,
       {| rp_id := id req_partition;
          output_type :=
            status_output {| rpc_code := raw_code kInternal;
                             rpc_message := message e |} |})
  end.

(** Modelled from the spec: step 4 of section 4.8.  The outputs of the
    partitions that succeeded are collected per [compression_group_id], in
    request order; a group is created by its first successful partition, so a
    group whose partitions all failed never exists. *)
Definition add_partition_output (req_metadata : gmap string string)
    (compression_group_map : gmap Z (list string))
    (partition : RequestPartition) : gmap Z (list string) :=
  match ProcessOnePartition req_metadata partition with
  | (OkStatus, {| output_type := string_output output |}) =>
      let group_id := compression_group_id partition in
      <[group_id := default [] (compression_group_map !! group_id)
                    ++ [output]]> compression_group_map
  | _ => compression_group_map
  end.

Definition group_partition_outputs (request : GetValuesRequest)
    : gmap Z (list string) :=
  foldl (add_partition_output (metadata request)) ∅ (partitions request).

(** Modelled from the spec: one [compression_group] per collected id, whose
    content is the JSON array of the outputs; when no partition yielded a
    result the request fails as a whole.  The specification names the code
    [Internal] for that error, while the handler's test
    [AllPartitionsFail_ReturnError] asserts the response code 3
    ([InvalidArgument]); the model follows the test.  The message of the
    error is not fixed by either. *)
Definition ProcessMultiplePartitions (request : GetValuesRequest)
    : Status * list CompressionGroup :=
  let groups :=
    (λ '(group_id, outputs),
       {| cg_compression_group_id := group_id;
          content := json_array outputs |})
    <$> map_to_list (group_partition_outputs request) in
  match groups with
  | [] => (InvalidArgumentError "", [])
  | _ => (OkStatus, groups)
  end.

(** Modelled from the spec: [GetValuesV2Handler::GetValues], called by the
    test as [GetValues(factory, request, &response, execution_metadata,
    single_partition_use_case)].  Step 1 rejects a request without
    partitions with [Internal("no partition")].  The single-partition path
    emits [single_partition] for the first partition without compression
    groups and succeeds whether or not the UDF did (what it does with
    further partitions is not specified).  Otherwise the partitions are
    processed into compression groups. *)
Definition GetValues (request : GetValuesRequest)
    (single_partition_use_case : bool) : Status * GetValuesResponse :=
  match partitions request with
  | [] => (InternalError "no partition", empty_GetValuesResponse)
  | partition :: _ =>
      if single_partition_use_case then
        let '(_, resp_partition) :=
          ProcessOnePartition (metadata request) partition in
        (OkStatus,
         {| single_partition := Some resp_partition;
            compression_groups := [] |})
      else
        let '(status, groups) := ProcessMultiplePartitions request in
        (status,
         {| single_partition := None; compression_groups := groups |})
  end.

(** *** Vocabulary of the handler's properties *)

(** The UDF's output for a partition, if its invocation succeeds. *)
Definition partition_output (request : GetValuesRequest)
    (p : RequestPartition) : option string :=
  match ExecuteCode {| request_metadata := metadata request;
                       udf_partition_metadata := partition_metadata p |}
                    (arguments p) with
  | Value output => Some output
  | Failed _ => None
  end.

Definition partition_fails (request : GetValuesRequest)
    (p : RequestPartition) : Prop :=
  partition_output request p = None.

(** The outputs of the successful partitions of one compression group, in
    request order. *)
Definition group_outputs (request : GetValuesRequest) (group_id : Z)
    : list string :=
  omap
    (λ p, if decide (compression_group_id p = group_id)
          then partition_output request p else None)
    (partitions request).

End Handler.

(** *** The requests of the handler's tests *)

(** [s] between double quotes. *)
Definition quoted (s : string) : string :=
  String (Ascii.ascii_of_nat 34)
    (String.append s (String (Ascii.ascii_of_nat 34) EmptyString)).

Definition arg1 : UDFArgument :=
  {| tags := ["structured"; "groupNames"];
     data := json_array [quoted "hello"] |}.
Definition arg2 : UDFArgument :=
  {| tags := ["custom"; "keys"]; data := json_array [quoted "key1"] |}.
Definition arg3 : UDFArgument :=
  {| tags := ["custom"; "keys"]; data := json_array [quoted "key2"] |}.

(** Three partitions across two compression groups. *)
Definition multiple_partitions_request : GetValuesRequest :=
  {| metadata := {[ "hostname" := "example.com" ]};
     partitions :=
       [ {| id := 0; compression_group_id := 0; arguments := [arg1];
            partition_metadata := ∅ |};
         {| id := 1; compression_group_id := 1; arguments := [arg2];
            partition_metadata := ∅ |};
         {| id := 2; compression_group_id := 0; arguments := [arg3];
            partition_metadata := ∅ |} ] |}.

(** The request of [UdfFailureForOnePartition]. *)
Definition one_partition_request : GetValuesRequest :=
  {| metadata := {[ "is_pas" := "true" ]};
     partitions :=
       [ {| id := 0; compression_group_id := 0; arguments := [];
            partition_metadata := ∅ |} ] |}.

Definition udf_error : Error :=
  {| code := kInternal; message := "UDF execution error" |}.

(** The output of the test UDF for an argument list. *)
Definition test_output (args : list UDFArgument) : string :=
  String.append "{"
    (String.append (quoted "out")
       (String.append ":" (String.append (json_array (data <$> args)) "}"))).

(** A UDF that fails on the partitions whose argument lists are in
    [failing] and returns [test_output] otherwise. *)
Definition test_udf (failing : list (list UDFArgument))
    (_ : UDFExecutionMetadata) (args : list UDFArgument) : StatusOr string :=
  if bool_decide (Exists (λ f, data <$> f = data <$> args) failing)
  then Failed udf_error
  else Value (test_output args).

End GetValuesV2Handler.

(** ** The OHTTP envelope *)

Module Ohttp.

Section Encryptors.

(** The OHTTP library (quiche), an external collaborator.  A client is
    created from the key configuration; it wraps a payload into an
    encapsulated request and a context, and the context opens the response.
    A gateway opens an encapsulated request into the plaintext and a
    context that seals the response. *)
Context {ObliviousHttpClient ClientContext ObliviousHttpResponse : Type}.
Context {ObliviousHttpGateway ServerContext : Type}.
Context (CreateClient : StatusOr ObliviousHttpClient)
        (CreateObliviousHttpRequest :
           ObliviousHttpClient → string → StatusOr (string * ClientContext))
        (DecryptObliviousHttpResponse :
           ObliviousHttpClient → string → ClientContext →
           StatusOr ObliviousHttpResponse).
Context (CreateGateway : StatusOr ObliviousHttpGateway)
        (DecryptObliviousHttpRequest :
           ObliviousHttpGateway → string → StatusOr (string * ServerContext))
        (CreateObliviousHttpResponse :
           ObliviousHttpGateway → string → ServerContext → StatusOr string).

(** The data members of [OhttpClientEncryptor], as its header declares
    them (the test key and key id are constants and part of
    [CreateClient]). *)
Record OhttpClientEncryptor :=
  { http_client_ : option ObliviousHttpClient;
    http_request_context_ : option ClientContext }.

(** A newly constructed client encryptor. *)
Definition new_client : OhttpClientEncryptor :=
  {| http_client_ := None; http_request_context_ := None |}.

(** Modelled from the spec: the member functions of [OhttpClientEncryptor]
    are defined in ohttp_client_encryptor.cc, which is not among the
    sources.  Per section 4.6, [EncryptRequest] creates the client and keeps
    the request context for the response. *)
Definition EncryptRequest (this : OhttpClientEncryptor) (payload : string)
    : StatusOr string * OhttpClientEncryptor :=
  match CreateClient with
  | Failed e => (Failed e, this)
  | Value client =>
      let this :=
        {| http_client_ := Some client;
           http_request_context_ := http_request_context_ this |} in
      match CreateObliviousHttpRequest client payload with
      | Failed e => (Failed e, this)
      | Value (serialized, context) =>
          (Value serialized,
           {| http_client_ := Some client;
              http_request_context_ := Some context |})
      end
  end.

Definition kClientOrderViolation : string :=
  "Emtpy `http_client_` or `http_request_context_`. You should call `ClientEncryptRequest` first".

(** Modelled from the spec: [DecryptResponse] must follow [EncryptRequest];
    called first it fails with the fixed message that
    [OhttpEncryptorTest.ClientDecryptResponseFails] compares against (kind
    [Internal], section 7). *)
Definition DecryptResponse (this : OhttpClientEncryptor)
    (encrypted_payload : string)
    : StatusOr ObliviousHttpResponse * OhttpClientEncryptor :=
  match http_client_ this, http_request_context_ this with
  | Some client, Some context =>
      (DecryptObliviousHttpResponse client encrypted_payload context, this)
  | _, _ => (StatusOr_of_Status (InternalError kClientOrderViolation), this)
  end.

(** Modelled from the spec: [OhttpServerEncryptor]
    (ohttp_server_encryptor.h and .cc) is not among the sources.  Its state
    is named by the message that [ServerEncryptResponseFails] compares
    against: the gateway and the decrypted request. *)
Record OhttpServerEncryptor :=
  { ohttp_gateway_ : option ObliviousHttpGateway;
    decrypted_request_ : option ServerContext }.

Definition new_server : OhttpServerEncryptor :=
  {| ohttp_gateway_ := None; decrypted_request_ := None |}.

Definition DecryptRequest (this : OhttpServerEncryptor)
    (encrypted_payload : string) : StatusOr string * OhttpServerEncryptor :=
  match CreateGateway with
  | Failed e => (Failed e, this)
  | Value gateway =>
      let this :=
        {| ohttp_gateway_ := Some gateway;
           decrypted_request_ := decrypted_request_ this |} in
      match DecryptObliviousHttpRequest gateway encrypted_payload with
      | Failed e => (Failed e, this)
      | Value (plaintext, context) =>
          (Value plaintext,
           {| ohttp_gateway_ := Some gateway;
              decrypted_request_ := Some context |})
      end
  end.

Definition kServerOrderViolation : string :=
  "Emtpy `ohttp_gateway_` or `decrypted_request_`. You should call `ServerDecryptRequest` first".

Definition EncryptResponse (this : OhttpServerEncryptor) (payload : string)
    : StatusOr string * OhttpServerEncryptor :=
  match ohttp_gateway_ this, decrypted_request_ this with
  | Some gateway, Some context =>
      (CreateObliviousHttpResponse gateway payload context, this)
  | _, _ => (StatusOr_of_Status (InternalError kServerOrderViolation), this)
  end.

End Encryptors.

End Ohttp.

(** ** Test fixtures

    The collaborators that the tests of
    [sharded_lookup_server_impl_test.cc] set up, for evaluating the engine
    on the scenarios of the specification. *)

Module Fixture.

(** The shard of each test key, as the comments of [ReturnsKeysFromCachePadding]
    list them (reduced modulo 2 this is the assignment of [ReturnsKeysFromCache]:
    [key4] on shard 0, [key1] and [key5] on shard 1). *)
Definition test_hash (k : string) : N :=
  if decide (k ∈ ["key4"; "verylongkey2"]) then 0%N
  else if decide (k ∈ ["key1"; "key2"; "key3"; "key5"]) then 1%N
  else if decide (k = "randomkey5") then 2%N
  else 3%N.

Definition test_sharder : KeySharder :=
  {| extract_sharding_key := λ _, None; HashString := test_hash |}.

(** A value for the member [padding] that [BucketKeys] leaves
    uninitialised; no result depends on it. *)
Definition stale_padding : Z := 1515870810.

(** Protobuf wire format of a request whose contexts are empty and whose
    keys are shorter than 128 bytes: per key the tag byte 0x0A, the length
    and the bytes; then tag 0x10 and 1 when [lookup_sets] is set. *)
Fixpoint wire_keys (ks : list string) : string :=
  match ks with
  | [] => ""
  | k :: ks =>
      String (Ascii.ascii_of_nat 10)
        (String (Ascii.ascii_of_nat (String.length k))
           (String.append k (wire_keys ks)))
  end.

Definition wire_SerializeAsString (r : InternalLookupRequest) : string :=
  String.append (wire_keys (keys r))
    (if lookup_sets r
     then String (Ascii.ascii_of_nat 16) (String (Ascii.ascii_of_nat 1) "")
     else "").

Definition test_context : RequestContext :=
  {| GetConsentedDebugConfiguration := {| is_consented := false; token := "" |};
     GetLogContext := {| generation_id := ""; adtech_debug_id := "" |} |}.

Definition key_not_found : SingleLookupResult :=
  kStatus {| rpc_code := 5; rpc_message := "Key not found" |}.

(** A local lookup over a cache of strings and a cache of string sets. *)
Definition cache_lookup (cache : gmap string string)
    (set_cache : gmap string (list string)) : Lookup :=
  {| Lookup_GetKeyValues := λ _ ks,
       Value {| kv_pairs :=
                  set_to_map (λ k, (k, from_option kValue key_not_found
                                          (cache !! k))) ks |};
     Lookup_GetKeyValueSet := λ _ ks,
       Value {| kv_pairs :=
                  set_to_map (λ k, (k, from_option kKeysetValues key_not_found
                                          (set_cache !! k))) ks |};
     Lookup_GetUInt32ValueSet := λ _ ks,
       Value {| kv_pairs := set_to_map (λ k, (k, key_not_found)) ks |} |}.

(** A remote client that answers every call with [r]. *)
Definition const_client (r : StatusOr InternalLookupResponse)
    : RemoteLookupClient :=
  {| GetValues := λ _ _ _, r |}.

(** A shard manager with the given clients, by shard number. *)
Definition manager_of (clients : list (option RemoteLookupClient))
    : ShardManager :=
  {| Get := λ shard_num,
       if decide (0 ≤ shard_num) then mjoin (clients !! Z.to_nat shard_num)
       else None |}.

Definition response_of (l : list (string * SingleLookupResult))
    : InternalLookupResponse :=
  {| kv_pairs := list_to_map l |}.

Definition deadline_exceeded : Error :=
  {| code := kDeadlineExceeded; message := "" |}.

(** The eight keys of [ReturnsKeysFromCachePadding]. *)
Definition padding_keys : gset string :=
  {[ "key4"; "verylongkey2"; "key1"; "key2"; "key3"; "randomkey5";
     "longkey1"; "randomkey3" ]}.

(** Scenarios S1 to S3: two shards, the local one is shard 0, [key4] is in the
    local cache and [key1] and [key5] belong to the peer shard 1. *)
Definition s1_local : Lookup := cache_lookup {[ "key4" := "value4" ]} ∅.
Definition s1_keys : gset string := {[ "key1"; "key4" ]}.

(** S1: the peer answers [key1 → value1]. *)
Definition s1_manager : ShardManager :=
  manager_of
    [ Some (const_client (Value empty_response));
      Some (const_client (Value (response_of [("key1", kValue "value1")]))) ].
Definition s1_response : InternalLookupResponse :=
  response_of [("key1", kValue "value1"); ("key4", kValue "value4")].

(** S2: [key5] is requested as well, and the peer reports both of its keys
    as not found. *)
Definition s2_keys : gset string := {[ "key1"; "key4"; "key5" ]}.
Definition s2_manager : ShardManager :=
  manager_of
    [ Some (const_client (Value empty_response));
      Some (const_client
              (Value (response_of [ ("key1", key_not_found);
                                    ("key5", key_not_found) ]))) ].
Definition s2_response : InternalLookupResponse :=
  response_of [ ("key1", key_not_found); ("key4", kValue "value4");
                ("key5", key_not_found) ].

(** S3: the call to the peer fails with deadline-exceeded. *)
Definition s3_manager : ShardManager :=
  manager_of
    [ Some (const_client (Value empty_response));
      Some (const_client (Failed deadline_exceeded)) ].
Definition s3_response : InternalLookupResponse :=
  response_of
    [ ("key1", kStatus {| rpc_code := 13; rpc_message := "Data lookup failed" |});
      ("key4", kValue "value4") ].

(** No client for the peer shard. *)
Definition no_peer_manager : ShardManager :=
  manager_of [ Some (const_client (Value empty_response)); None ].

(** No client for any shard. *)
Definition no_client_manager : ShardManager := manager_of [].

End Fixture.

(** ** A query driver for the scenarios *)

Module Query.

(** Modelled from the spec: the set-query DSL of section 4.3, whose scanner
    and parser (components/query/) are not among the sources.  Grammar:
    [expr := term (('|' | '-') term)*], [term := factor ('&' factor)*],
    [factor := IDENT | '(' expr ')']; [&] binds tighter than [|] and [-],
    which associate to the left. *)
Inductive Token :=
| TVar (name : string) | TUnion | TIntersection | TDifference
| TLParen | TRParen.

Inductive Ast :=
| VarNode (name : string)
| UnionNode (l r : Ast)
| IntersectionNode (l r : Ast)
| DifferenceNode (l r : Ast).

Inductive CharClass := CIdent | CSpace | COp (t : Token) | CBad.

Definition classify (c : Ascii.ascii) : CharClass :=
  let n := Ascii.nat_of_ascii c in
  if bool_decide (48 ≤ n ≤ 57 ∨ 65 ≤ n ≤ 90 ∨ 97 ≤ n ≤ 122 ∨ n = 95)%nat
  then CIdent
  else if bool_decide (n = 32)%nat then CSpace
  else if bool_decide (n = 124)%nat then COp TUnion
  else if bool_decide (n = 38)%nat then COp TIntersection
  else if bool_decide (n = 45)%nat then COp TDifference
  else if bool_decide (n = 40)%nat then COp TLParen
  else if bool_decide (n = 41)%nat then COp TRParen
  else CBad.

Definition flush (cur : string) (ts : list Token) : list Token :=
  if decide (cur = "") then ts else TVar cur :: ts.

Fixpoint lex (s : string) (cur : string) : option (list Token) :=
  match s with
  | EmptyString => Some (flush cur [])
  | String c s' =>
      match classify c with
      | CIdent => lex s' (String.append cur (String c ""))
      | CSpace => flush cur <$> lex s' ""
      | COp t => (λ ts, flush cur (t :: ts)) <$> lex s' ""
      | CBad => None
      end
  end.

Fixpoint parse_expr (fuel : nat) (ts : list Token) : option (Ast * list Token) :=
  match fuel with
  | O => None
  | S fuel =>
      match parse_term fuel ts with
      | Some (l, ts) => parse_expr_rest fuel l ts
      | None => None
      end
  end
with parse_expr_rest (fuel : nat) (l : Ast) (ts : list Token)
    : option (Ast * list Token) :=
  match fuel with
  | O => None
  | S fuel =>
      match ts with
      | TUnion :: ts =>
          match parse_term fuel ts with
          | Some (r, ts) => parse_expr_rest fuel (UnionNode l r) ts
          | None => None
          end
      | TDifference :: ts =>
          match parse_term fuel ts with
          | Some (r, ts) => parse_expr_rest fuel (DifferenceNode l r) ts
          | None => None
          end
      | _ => Some (l, ts)
      end
  end
with parse_term (fuel : nat) (ts : list Token) : option (Ast * list Token) :=
  match fuel with
  | O => None
  | S fuel =>
      match parse_factor fuel ts with
      | Some (l, ts) => parse_term_rest fuel l ts
      | None => None
      end
  end
with parse_term_rest (fuel : nat) (l : Ast) (ts : list Token)
    : option (Ast * list Token) :=
  match fuel with
  | O => None
  | S fuel =>
      match ts with
      | TIntersection :: ts =>
          match parse_factor fuel ts with
          | Some (r, ts) => parse_term_rest fuel (IntersectionNode l r) ts
          | None => None
          end
      | _ => Some (l, ts)
      end
  end
with parse_factor (fuel : nat) (ts : list Token) : option (Ast * list Token) :=
  match fuel with
  | O => None
  | S fuel =>
      match ts with
      | TVar name :: ts => Some (VarNode name, ts)
      | TLParen :: ts =>
          match parse_expr fuel ts with
          | Some (e, TRParen :: ts) => Some (e, ts)
          | _ => None
          end
      | _ => None
      end
  end.

(** [None] on any syntactic failure (for the empty text too). *)
Definition parse (text : string) : option Ast :=
  match lex text "" with
  | Some ts =>
      match parse_expr (4 * length ts + 4) ts with
      | Some (e, []) => Some e
      | _ => None
      end
  | None => None
  end.

Fixpoint keys_of (n : Ast) : gset string :=
  match n with
  | VarNode name => {[ name ]}
  | UnionNode l r | IntersectionNode l r | DifferenceNode l r =>
      keys_of l ∪ keys_of r
  end.

Fixpoint evaluate (n : Ast) (resolver : string → M (gset string))
    : M (gset string) :=
  match n with
  | VarNode name => resolver name
  | UnionNode l r =>
      let* a := evaluate l resolver in
      let* b := evaluate r resolver in ret (a ∪ b)
  | IntersectionNode l r =>
      let* a := evaluate l resolver in
      let* b := evaluate r resolver in ret (a ∩ b)
  | DifferenceNode l r =>
      let* a := evaluate l resolver in
      let* b := evaluate r resolver in ret (a ∖ b)
  end.

Definition driver : Driver :=
  {| Node := Ast;
     Parse := parse;
     Keys := keys_of;
     EvaluateQuery := λ n resolver,
       let* result := evaluate n resolver in ret (Value result) |}.

(** Scenario S7: three key sets, all owned by the local shard 0 of 2. *)
Definition s7_local : Lookup :=
  Fixture.cache_lookup ∅
    {[ "A" := ["1"; "2"; "3"]; "B" := ["2"; "3"; "4"]; "C" := ["3"] ]}.
Definition s7_sharder : KeySharder :=
  {| extract_sharding_key := λ _, None; HashString := λ _, 0%N |}.

End Query.

(** ** The V1 request handler

    components/data_server/request_handler/get_values_handler.cc.  The
    tracing spans and the log lines of the handler are not modelled. *)

Module GetValuesHandler.

(** [grpc::Status]: the constructor [grpc::Status(code, error_message,
    error_details)]; [grpc::Status()] and [grpc::Status::OK] are [OK] with
    empty strings. *)
Inductive StatusCode := OK | INVALID_ARGUMENT | INTERNAL.

Record Status :=
  { error_code : StatusCode;
    error_message : string;
    error_details : string }.

Definition Status_OK : Status :=
  {| error_code := OK; error_message := ""; error_details := "" |}.

Definition ok (s : Status) : bool :=
  match error_code s with OK => true | _ => false end.

(** [v1::GetValuesRequest] *)
Record GetValuesRequest :=
  { keys : list string;
    subkey : string;
    render_urls : list string;
    ad_component_render_urls : list string;
    kv_internal : list string }.

(** What the handler asks of its collaborators: the cache for the values of
    a list of keys, the metrics recorder to count an event. *)
Inductive Call :=
| GetKeyValuePairs (key_list : list string)
| IncrementEventCounter (event : string).

Definition CACHE_KEY_HIT : string := "CacheKeyHit".
Definition CACHE_KEY_MISS : string := "CacheKeyMiss".

(** [absl::StrSplit(text, d)] with a single character as delimiter: the
    pieces between the occurrences of [d], empty pieces included; the empty
    text has the one piece [""]. *)
Fixpoint StrSplit (text : string) (d : Ascii.ascii) : list string :=
  match text with
  | EmptyString => [EmptyString]
  | String c rest =>
      if decide (c = d) then EmptyString :: StrSplit rest d
      else
        match StrSplit rest d with
        | piece :: pieces => String c piece :: pieces
        | [] => [String c EmptyString]
        end
  end.

(** [google::api::HttpBody]; the handler reads and sets [data] only. *)
Record HttpBody := { content_type : string; data : string }.

(** [v1::BinaryHttpGetValuesRequest] *)
Record BinaryHttpGetValuesRequest := { raw_body : HttpBody }.

Section Handler.

(** [google::protobuf::Value] with [set_string_value], which makes the
    value a string whatever it was. *)
Context {Value : Type} (string_value : string → Value).

(** The fields of a [google::protobuf::Struct]. *)
Definition Struct : Type := gmap string Value.

(** [v1::GetValuesResponse]: four optional [Struct]s. *)
Record GetValuesResponse :=
  { response_keys : option Struct;
    response_render_urls : option Struct;
    response_ad_component_render_urls : option Struct;
    response_kv_internal : option Struct }.

(** A new message, and a message after [Clear()]. *)
Definition cleared : GetValuesResponse :=
  {| response_keys := None;
     response_render_urls := None;
     response_ad_component_render_urls := None;
     response_kv_internal := None |}.

(** The members of [class GetValuesHandler]: the cache, read through
    [Cache::GetKeyValuePairs], and the mode. *)
Context (cache_ : list string → gmap string string) (dsp_mode_ : bool).

(** [kQueryArgDelimiter] of public/constants.h. *)
Context (kQueryArgDelimiter : Ascii.ascii).

(** [DeserializeBHttpToProto] and [SerializeProtoToBHttp] of
    infrastructure/communication/bhttp_utils.h. *)
Context (DeserializeBHttpToProto : string → StatusOr GetValuesRequest)
        (SerializeProtoToBHttp : GetValuesResponse → Z → StatusOr string).

Definition ValidateDSPRequest (request : GetValuesRequest) : Status :=
  if decide (keys request = []) then
    {| error_code := INVALID_ARGUMENT; error_message := "";
       error_details := "Missing field 'keys'" |}
  else if decide (ad_component_render_urls request ≠ []) then
    {| error_code := INVALID_ARGUMENT; error_message := "";
       error_details := "Invalid field 'adComponentRenderUrls'" |}
  else if decide (render_urls request ≠ []) then
    {| error_code := INVALID_ARGUMENT; error_message := "";
       error_details := "Invalid field 'renderUrls'" |}
  else Status_OK.

Definition ValidateSSPRequest (request : GetValuesRequest) : Status :=
  if decide (render_urls request = []) then
    {| error_code := INVALID_ARGUMENT; error_message := "";
       error_details := "Missing field 'renderUrls'" |}
  else if decide (keys request ≠ []) then
    {| error_code := INVALID_ARGUMENT; error_message := "";
       error_details := "Invalid field 'keys'" |}
  else if decide (subkey request ≠ "") then
    {| error_code := INVALID_ARGUMENT; error_message := "";
       error_details := "Invalid field 'subkey'" |}
  else Status_OK.

Definition GetKeys (keys : list string) : list string :=
  foldl
    (λ key_list key, key_list ++ StrSplit key kQueryArgDelimiter)
    [] keys.

(** [ProcessKeys]: the result [Struct] after the call, and the calls made.
    The loop visits the pairs of the hash map in an unspecified order. *)
Definition ProcessKeys (keys : list string) (result_struct : Struct)
    : Struct * list Call :=
  match keys with
  | [] => (result_struct, [])
  | _ =>
      let key_list := GetKeys keys in
      let kv_pairs := cache_ key_list in
      let counted :=
        if decide (kv_pairs = ∅) then CACHE_KEY_MISS else CACHE_KEY_HIT in
      (foldl (λ fields '(k, v), <[k := string_value v]> fields)
             result_struct (map_to_list kv_pairs),
       [GetKeyValuePairs key_list; IncrementEventCounter counted])
  end.

Definition ValidateRequest (request : GetValuesRequest) : Status :=
  if decide (kv_internal request ≠ []) then Status_OK
  else if dsp_mode_ then ValidateDSPRequest request
       else ValidateSSPRequest request.

(** [GetValues]: the status, the response message after the call, and the
    calls made.  [mutable_x()] makes the field present. *)
Definition GetValues (request : GetValuesRequest)
    (response : GetValuesResponse)
    : Status * GetValuesResponse * list Call :=
  let status := ValidateRequest request in
  if negb (ok status) then (status, response, [])
  else
    let '(response, calls_internal) :=
      if decide (kv_internal request ≠ []) then
        let '(fields, calls) :=
          ProcessKeys (kv_internal request)
                      (default ∅ (response_kv_internal response)) in
        ({| response_keys := response_keys response;
            response_render_urls := response_render_urls response;
            response_ad_component_render_urls :=
              response_ad_component_render_urls response;
            response_kv_internal := Some fields |}, calls)
      else (response, []) in
    if dsp_mode_ then
      let '(fields, calls) :=
        ProcessKeys (keys request) (default ∅ (response_keys response)) in
      (Status_OK,
       {| response_keys := Some fields;
          response_render_urls := response_render_urls response;
          response_ad_component_render_urls :=
            response_ad_component_render_urls response;
          response_kv_internal := response_kv_internal response |},
       calls_internal ++ calls)
    else
      let '(fields_urls, calls_urls) :=
        ProcessKeys (render_urls request)
                    (default ∅ (response_render_urls response)) in
      let '(fields_components, calls_components) :=
        ProcessKeys (ad_component_render_urls request)
                    (default ∅ (response_ad_component_render_urls response)) in
      (Status_OK,
       {| response_keys := response_keys response;
          response_render_urls := Some fields_urls;
          response_ad_component_render_urls := Some fields_components;
          response_kv_internal := response_kv_internal response |},
       calls_internal ++ calls_urls ++ calls_components).

(** [BinaryHttpGetValues]: the status, the message [bhttp_response] after
    the call, and the calls made.  [GetValues] fills a new response. *)
Definition BinaryHttpGetValues (bhttp_request : BinaryHttpGetValuesRequest)
    (bhttp_response : HttpBody) : Status * HttpBody * list Call :=
  match DeserializeBHttpToProto (data (raw_body bhttp_request)) with
  | Failed e =>
      ({| error_code := INTERNAL; error_message := message e;
          error_details := "" |}, bhttp_response, [])
  | absl.Value request =>
      let '(get_values_status, response, calls) := GetValues request cleared in
      let '(response, status_code) :=
        if negb (ok get_values_status) then (cleared, 500)
        else (response, 200) in
      match SerializeProtoToBHttp response status_code with
      | Failed e =>
          ({| error_code := INTERNAL; error_message := message e;
              error_details := "" |}, bhttp_response, calls)
      | absl.Value serialized =>
          (Status_OK,
           {| content_type := content_type bhttp_response;
              data := serialized |}, calls)
      end
  end.

End Handler.

End GetValuesHandler.

(** ** The getValues hook of the UDF

    components/udf/get_values_hook.cc *)

Module GetValuesHook.

(** [LookupClient::GetValues] of this hook takes the keys. *)
Record LookupClient :=
  { GetValues : list string → StatusOr InternalLookupResponse }.

(** A [nlohmann::json] value, as far as the hook builds one. *)
Inductive json :=
| json_number (n : Z)
| json_string (s : string)
| json_object (members : list (string * json)).

(** The members of [GetValuesHookImpl].  [supplier_calls] is not in the
    code: it counts the invocations of [lookup_client_supplier_]. *)
Record GetValuesHookImpl :=
  { lookup_client_ : option LookupClient;
    supplier_calls : nat }.

(** The hook that [GetValuesHook::Create] returns. *)
Definition Create : GetValuesHookImpl :=
  {| lookup_client_ := None; supplier_calls := 0 |}.

Section Hook.

(** [lookup_client_supplier_] is an [absl::AnyInvocable]: what it returns
    may depend on how often it has been invoked; [None] is [nullptr]. *)
Context (lookup_client_supplier_ : nat → option LookupClient).

(** [nlohmann::json::dump] and [MessageToJsonString] (the string it leaves
    in its output argument; its status is not looked at). *)
Context (dump : json → string)
        (MessageToJsonString : InternalLookupResponse → string).

(** [operator()]: [None] when [lookup_client_] is still [nullptr] at the
    call through it, which is undefined. *)
Definition call (hook : GetValuesHookImpl) (input : list string)
    : option string * GetValuesHookImpl :=
  let hook :=
    match lookup_client_ hook with
    | None =>
        {| lookup_client_ := lookup_client_supplier_ (supplier_calls hook);
           supplier_calls := S (supplier_calls hook) |}
    | Some _ => hook
    end in
  match lookup_client_ hook with
  | None => (None, hook)
  | Some lookup_client =>
      let response_or_status := GetValues lookup_client input in
      (Some
         match response_or_status with
         | Failed e =>
             dump (json_object [ ("code", json_number (raw_code (code e)));
                                 ("message", json_string (message e)) ])
         | Value response => MessageToJsonString response
         end,
       hook)
  end.

(** A sequence of calls of the same hook. *)
Fixpoint calls (hook : GetValuesHookImpl) (inputs : list (list string))
    : list (option string) * GetValuesHookImpl :=
  match inputs with
  | [] => ([], hook)
  | input :: inputs =>
      let '(output, hook) := call hook input in
      let '(outputs, hook) := calls hook inputs in
      (output :: outputs, hook)
  end.

End Hook.

End GetValuesHook.

(** ** Parameter names

    components/data_server/server/parameter_fetcher.cc *)

Module ParameterFetcher.

Section Fetcher.

(** [kServiceName] of public/constants.h, and the member [environment_]. *)
Context (kServiceName : string) (environment_ : string).

(** [absl::StrJoin(v, "-")] is [String.concat]. *)
Definition GetParamName (parameter_suffix : string) : string :=
  let v := [kServiceName; environment_; parameter_suffix] in
  String.concat "-" v.

End Fetcher.

End ParameterFetcher.

(** ** The UDF delta file tester

    tools/udf/udf_tester/udf_delta_file_tester.cc *)

Module UdfDeltaFileTester.

(** [DeltaMutationType] is a FlatBuffers enum over a byte with the values
    [Update] and [Delete]; a record can hold any other byte. *)
Inductive DeltaMutationType := Update | Delete | other_mutation (v : Z).

Record DeltaFileRecordStruct :=
  { mutation_type : DeltaMutationType;
    logical_commit_time : Z;
    key : string;
    value : string }.

(** The two members of [CodeConfig] that the tester writes. *)
Record CodeConfig := { js : string; udf_handler_name : string }.

(** What [DeltaRecordStreamReader::ReadRecords] does with a callback that
    always returns [OkStatus]: it hands the records it can read to the
    callback, in the order of the file, and returns its own status.  A file
    is given by these records and this status. *)
Record DeltaFile :=
  { records : list DeltaFileRecordStruct;
    read_status : Status }.

(** The result of a call that can raise a C++ exception. *)
Inductive Outcome (A : Type) := Returns (a : A) | Throws.
Arguments Returns {A} a.
Arguments Throws {A}.

Section Tester.

(** [kUdfHandlerNameKey] and [kUdfCodeSnippetKey] of public/udf/constants.h. *)
Context (kUdfHandlerNameKey kUdfCodeSnippetKey : string).

(** The callback of [ReadCodeConfigFromFile]; its status is always
    [OkStatus]. *)
Definition record_callback (code_config : CodeConfig)
    (record : DeltaFileRecordStruct) : CodeConfig :=
  match mutation_type record with
  | Update =>
      let code_config :=
        if decide (key record = kUdfHandlerNameKey) then
          {| js := js code_config; udf_handler_name := value record |}
        else code_config in
      if decide (key record = kUdfCodeSnippetKey) then
        {| js := value record;
           udf_handler_name := udf_handler_name code_config |}
      else code_config
  | _ => code_config
  end.

(** [ReadCodeConfigFromFile]: the status, and [code_config] after the
    call. *)
Definition ReadCodeConfigFromFile (delta_file : DeltaFile)
    (code_config : CodeConfig) : Status * CodeConfig :=
  let code_config := foldl record_callback code_config (records delta_file) in
  match read_status delta_file with
  | NotOk e => (NotOk e, code_config)
  | OkStatus =>
      if decide (udf_handler_name code_config = "") then
        (InvalidArgumentError "Missing `udf_handler_name` key in delta file.",
         code_config)
      else if decide (js code_config = "") then
        (InvalidArgumentError "Missing `udf_code_snippet` key in delta file.",
         code_config)
      else (OkStatus, code_config)
  end.

(** [nlohmann::json::parse(text)] with its default arguments raises
    [parse_error] on malformed text ([None]); [is_discarded] is a query on
    the value it returns. *)
Context {Json : Type}
        (json_parse : string → option Json)
        (is_discarded : Json → bool).

Definition ParseUdfResult (result : string) : Outcome Status :=
  match json_parse result with
  | None => Throws
  | Some result_json =>
      if is_discarded result_json then
        Returns (InvalidArgumentError "Invalid JSON format of UDF output.")
      else Returns OkStatus
  end.

End Tester.

(** The value that the [Update] records of [records] leave under [k]: the
    value of the last of them with this key. *)
Definition last_update (k : string) (records : list DeltaFileRecordStruct)
    : option string :=
  last
    (omap
       (λ record,
          match mutation_type record with
          | Update => if decide (key record = k) then Some (value record) else None
          | _ => None
          end)
       records).

End UdfDeltaFileTester.

(** ** Telemetry definitions

    components/telemetry/server_definition.h *)

Module Telemetry.

(** The boundaries of the latency histograms (doubles with integral
    values). *)
Definition kLatencyInMicroSecondsBoundaries : list Z :=
  [ 160; 220; 280; 320; 640; 1200; 2500;
    5000; 10000; 20000; 40000; 80000; 160000; 320000;
    640000; 1000000; 1300000; 2600000; 5000000; 10000000000 ].

(** The partitions of the status counters. *)
Definition kAbslStatusStrings : list string :=
  [ "";
    "ABORTED";
    "ALREADY_EXISTS";
    "CANCELLED";
    "DATA_LOSS";
    "DEADLINE_EXCEEDED";
    "FAILED_PRECONDITION";
    "INTERNAL";
    "INVALID_ARGUMENT";
    "NOT_FOUND";
    "OK";
    "OUT_OF_RANGE";
    "PERMISSION_DENIED";
    "RESOURCE_EXHAUSTED";
    "UNAUTHENTICATED";
    "UNAVAILABLE";
    "UNIMPLEMENTED";
    "UNKNOWN" ].

(** [status.code()]; [None] is [absl::StatusCode::kOk]. *)
Definition code_of (status : Status) : option StatusCode :=
  match status with OkStatus => None | NotOk e => Some (code e) end.

(** [absl::StatusCodeToString], which the comment on [kAbslStatusStrings]
    refers to. *)
Definition StatusCodeToString (c : option StatusCode) : string :=
  match c with
  | None => "OK"
  | Some kCancelled => "CANCELLED"
  | Some kUnknown => "UNKNOWN"
  | Some kInvalidArgument => "INVALID_ARGUMENT"
  | Some kDeadlineExceeded => "DEADLINE_EXCEEDED"
  | Some kNotFound => "NOT_FOUND"
  | Some kAlreadyExists => "ALREADY_EXISTS"
  | Some kPermissionDenied => "PERMISSION_DENIED"
  | Some kResourceExhausted => "RESOURCE_EXHAUSTED"
  | Some kFailedPrecondition => "FAILED_PRECONDITION"
  | Some kAborted => "ABORTED"
  | Some kOutOfRange => "OUT_OF_RANGE"
  | Some kUnimplemented => "UNIMPLEMENTED"
  | Some kInternal => "INTERNAL"
  | Some kUnavailable => "UNAVAILABLE"
  | Some kDataLoss => "DATA_LOSS"
  | Some kUnauthenticated => "UNAUTHENTICATED"
  end.

(** The callback of [LogStatusSafeMetricsFn]: the partitioned value that it
    hands to [LogUpDownCounter].  ([LogIfError] only writes a log line when
    that call fails.) *)
Definition LogStatusSafeMetricsFn (status : Status) (count : Z)
    : list (string * Z) :=
  [(StatusCodeToString (code_of status), count)].

(** Every element is below the next one. *)
Fixpoint increasing {A} (lt : A → A → bool) (l : list A) : bool :=
  match l with
  | x :: (y :: _) as rest => lt x y && increasing lt rest
  | _ => true
  end.

End Telemetry.

(** ** The instance client on GCP

    components/cloud_config/instance_client_gcp.cc *)

Module GcpInstanceClient.

(** The two members that the client caches. *)
Record State := { instance_id_ : string; environment_ : string }.

(** [InstanceInfo] with the one member that the client sets; the others
    keep their default values. *)
Record InstanceInfo := { id : string }.

(** [google::scp::core::ExecutionResult] *)
Record ExecutionResult := { Successful : bool; status_code : Z }.

(** A call of the SDK that takes a callback: the result that the call
    itself returns, and the arguments with which the callback is invoked,
    if it ever is.  The client waits for the callback on an
    [absl::Notification]. *)
Record AsyncCall (Response : Type) :=
  { returned : ExecutionResult;
    called_back : option (ExecutionResult * Response) }.
Arguments returned {Response} _.
Arguments called_back {Response} _.

(** [response.instance_details()] *)
Record InstanceDetails :=
  { instance_id : string; labels : gmap string string }.

(** [InstanceClientInterface] of the SDK; the response of
    [GetCurrentInstanceResourceName] is its [instance_resource_name]. *)
Record InstanceClientInterface :=
  { GetCurrentInstanceResourceName : AsyncCall string;
    GetInstanceDetailsByResourceName : string → AsyncCall InstanceDetails }.

Definition kEnvironment : string := "environment".

Definition kEnvironmentLabelNotFound : Error :=
  {| code := kUnavailable; message := "Environment label not found." |}.

Section Client.

(** The member [instance_client_], [GetErrorMessage] of the SDK and the
    flag [shard_num]. *)
Context (instance_client_ : InstanceClientInterface)
        (GetErrorMessage : Z → string)
        (FLAGS_shard_num : string).

(** [GetResourceName]; [None] when it does not return, because it waits for
    a callback that never comes. *)
Definition GetResourceName : option (StatusOr string) :=
  let result := GetCurrentInstanceResourceName instance_client_ in
  if negb (Successful (returned result)) then
    Some (StatusOr_of_Status
            (InternalError (GetErrorMessage (status_code (returned result)))))
  else
    match called_back result with
    | None => None
    | Some (callback_result, response) =>
        let resource_name :=
          if Successful callback_result then response else "" in
        if decide (resource_name = "") then
          Some (StatusOr_of_Status
                  (InternalError "Failed to fetch instance resource name."))
        else Some (Value resource_name)
    end.

(** [GetInstanceDetails]: its status and the client after the call; [None]
    when it does not return: it waits for the callback whatever the call
    returned, and [labels().at(kEnvironment)] is fatal without such a
    label. *)
Definition GetInstanceDetails (client : State) : option (Status * State) :=
  match GetResourceName with
  | None => None
  | Some (Failed e) => Some (NotOk e, client)
  | Some (Value resource_name) =>
      let result :=
        GetInstanceDetailsByResourceName instance_client_ resource_name in
      match called_back result with
      | None => None
      | Some (callback_result, response) =>
          let after_callback :=
            if Successful callback_result then
              match labels response !! kEnvironment with
              | None => None
              | Some environment =>
                  Some {| instance_id_ := instance_id response;
                          environment_ := environment |}
              end
            else Some client in
          match after_callback with
          | None => None
          | Some client =>
              Some (if Successful (returned result) then OkStatus
                    else InternalError
                           (GetErrorMessage (status_code (returned result))),
                    client)
          end
      end
  end.

Definition GetEnvironmentTag (client : State)
    : option (StatusOr string * State) :=
  let finish (client : State) :=
    if decide (environment_ client = "") then
      (StatusOr_of_Status (NotOk kEnvironmentLabelNotFound), client)
    else (Value (environment_ client), client) in
  if decide (environment_ client = "") then
    match GetInstanceDetails client with
    | None => None
    | Some (NotOk e, client) => Some (StatusOr_of_Status (NotOk e), client)
    | Some (OkStatus, client) => Some (finish client)
    end
  else Some (finish client).

Definition GetShardNumTag (client : State) : StatusOr string * State :=
  (Value FLAGS_shard_num, client).

Definition GetInstanceId (client : State)
    : option (StatusOr string * State) :=
  let finish (client : State) :=
    if decide (instance_id_ client = "") then
      (StatusOr_of_Status (NotOk kEnvironmentLabelNotFound), client)
    else (Value (instance_id_ client), client) in
  if decide (instance_id_ client = "") then
    match GetInstanceDetails client with
    | None => None
    | Some (NotOk e, client) => Some (StatusOr_of_Status (NotOk e), client)
    | Some (OkStatus, client) => Some (finish client)
    end
  else Some (finish client).

Definition DescribeInstances (instance_ids : gset string) (client : State)
    : option (StatusOr (list InstanceInfo) * State) :=
  match GetInstanceId client with
  | None => None
  | Some (Failed e, client) => Some (StatusOr_of_Status (NotOk e), client)
  | Some (Value id, client) => Some (Value [{| id := id |}], client)
  end.

Definition DescribeInstanceGroupInstances (instance_groups : gset string)
    (client : State) : option (StatusOr (list InstanceInfo) * State) :=
  match GetInstanceId client with
  | None => None
  | Some (_, client) => DescribeInstances ∅ client
  end.

End Client.

End GcpInstanceClient.

(** ** Vocabulary of the statements *)

(** All keys held by the buckets of a fan-out. *)
Definition bucket_keys (v : list ShardLookupInput) : list string :=
  concat (sli_keys <$> v).

(** Writing [g key] under every [key] of a list, in order. *)
Definition insert_all {V} (g : string → V) (l : list string)
    (m : gmap string V) : gmap string V :=
  foldl (λ m key, <[key := g key]> m) m l.

(** What the aggregated response holds for a key of a shard, given the
    outcome of that shard's sub-request. *)
Definition per_key_result (result : StatusOr InternalLookupResponse)
    (key : string) : SingleLookupResult :=
  match result with
  | Failed _ => ShardedLookup.request_failed_result
  | Value r => default ShardedLookup.not_found_result (kv_pairs r !! key)
  end.

(** The error of a fan-out that finds no client for a shard. *)
Definition client_unavailable : Error :=
  {| code := kInternal; message := "Internal lookup client is unavailable." |}.

(** The keys of a list that the sharder assigns to the shard of index [i],
    in the order of the list. *)
Definition keys_of_shard (key_sharder : KeySharder) (num_shards : Z)
    (i : nat) (l : list string) : list string :=
  filter
    (λ key,
       Z.to_nat (shard_num (GetShardNumForKey key_sharder key num_shards)) = i)
    l.

(** Projections of a trace: the error metrics, the calls to remote shards
    and the calls to the local lookup, each in program order. *)
Definition error_metrics (t : list Event) : list Metric :=
  omap (λ e, match e with LogUdfRequestErrorMetric m => Some m | _ => None end) t.

Definition remote_calls (t : list Event) : list (Z * string * Z) :=
  omap (λ e, match e with
             | RemoteGetValues shard_num request padding =>
                 Some (shard_num, request, padding)
             | _ => None
             end) t.


(** Events that only report: error metrics and latencies. *)
Definition is_report (e : Event) : Prop :=
  match e with
  | LogUdfRequestErrorMetric _ | RecordLatency _ => True
  | _ => False
  end.

(** The remote calls that a fan-out over [inputs] owes: one per entry other
    than the engine's own, numbered from [first]. *)
Fixpoint expected_remote_calls (current_shard_num first : Z)
    (inputs : list ShardLookupInput) : list (Z * string * Z) :=
  match inputs with
  | [] => []
  | li :: inputs =>
      (if decide (first = current_shard_num) then []
       else [(first, serialized_request li, padding li)])
      ++ expected_remote_calls current_shard_num (first + 1) inputs
  end.


(** * Part II: properties *)

(** ** Properties of bucketing and padding *)

Lemma to_int32_small z : 0 ≤ z ≤ INT32_MAX → to_int32 z = z.
Proof.
  unfold to_int32, INT32_MAX. intros Hz.
  rewrite Z.mod_small by lia. lia.
Qed.

Lemma to_size_t_small z : 0 ≤ z ≤ INT32_MAX → to_size_t z = z.
Proof.
  unfold to_size_t, INT32_MAX. intros Hz. apply Z.mod_small. lia.
Qed.

Lemma string_size_nonneg s : 0 ≤ string_size s.
Proof. unfold string_size. lia. Qed.

Lemma sli_keys_set_padding p li : sli_keys (set_padding p li) = sli_keys li.
Proof. reflexivity. Qed.

Lemma sli_keys_set_serialized_request s li :
  sli_keys (set_serialized_request s li) = sli_keys li.
Proof. reflexivity. Qed.

Section Padding.

Context (num_shards_ : Z) (key_sharder_ : KeySharder).
Context (SerializeAsString : InternalLookupRequest → string).
Context (indeterminate_padding : Z).

Abbreviation BucketKeys :=
  (ShardedLookup.BucketKeys num_shards_ key_sharder_ indeterminate_padding).
Abbreviation ShardKeys :=
  (ShardedLookup.ShardKeys num_shards_ key_sharder_ SerializeAsString
     indeterminate_padding).
Abbreviation max_length_of := ShardedLookup.max_length_of.
Abbreviation ComputePadding := ShardedLookup.ComputePadding.

Lemma length_bucket_fold (l : list string) (v : list ShardLookupInput) :
  length
    (foldl
       (λ lookup_inputs key,
          alter (add_key key)
            (Z.to_nat (shard_num (GetShardNumForKey key_sharder_ key num_shards_)))
            lookup_inputs)
       v l) = length v.
Proof.
  revert v. induction l as [|k l IH]; intros v; simpl; [done|].
  rewrite IH. apply length_alter.
Qed.

Lemma length_BucketKeys keys :
  length (BucketKeys keys) = Z.to_nat num_shards_.
Proof.
  unfold ShardedLookup.BucketKeys. rewrite length_bucket_fold.
  apply length_replicate.
Qed.

(** The running maximum of [ComputePadding], started from [a]. *)
Lemma max_length_fold (l : list ShardLookupInput) (a : Z) :
  0 ≤ a ≤ INT32_MAX →
  (∀ li, li ∈ l → string_size (serialized_request li) ≤ INT32_MAX) →
  let m :=
    foldl (λ max_length lookup_input,
             Z.max max_length (to_int32 (string_size (serialized_request lookup_input))))
          a l in
  a ≤ m ≤ INT32_MAX ∧
  (∀ li, li ∈ l → string_size (serialized_request li) ≤ m) ∧
  (m = a ∨ ∃ li, li ∈ l ∧ string_size (serialized_request li) = m).
Proof.
  revert a. induction l as [|x l IH]; intros a Ha Hl; simpl.
  - split; [lia|]. split; [|by left]. intros li Hli. by apply elem_of_nil in Hli.
  - assert (Hx : string_size (serialized_request x) ≤ INT32_MAX)
      by (apply Hl; left).
    pose proof (string_size_nonneg (serialized_request x)) as Hx0.
    rewrite to_int32_small by lia.
    destruct (IH (Z.max a (string_size (serialized_request x)))) as (Hm & Hub & Hatt).
    { lia. }
    { intros li Hli. apply Hl. by right. }
    split; [lia|]. split.
    + intros li [->|Hli]%elem_of_cons; [lia|by apply Hub].
    + destruct Hatt as [Heq|(li & Hli & Heq)].
      * destruct (Z.max_spec a (string_size (serialized_request x))) as [[_ E]|[_ E]].
        -- right. exists x. split; [left|]. lia.
        -- left. lia.
      * right. exists li. split; [by right|done].
Qed.

Lemma max_length_of_spec (l : list ShardLookupInput) :
  l ≠ [] →
  (∀ li, li ∈ l → string_size (serialized_request li) ≤ INT32_MAX) →
  0 ≤ max_length_of l ≤ INT32_MAX ∧
  (∀ li, li ∈ l → string_size (serialized_request li) ≤ max_length_of l) ∧
  (∃ li, li ∈ l ∧ string_size (serialized_request li) = max_length_of l).
Proof.
  intros Hne Hl. unfold max_length_of.
  destruct (max_length_fold l 0) as (Hm & Hub & Hatt);
    [unfold INT32_MAX; lia|done|].
  split; [lia|]. split; [done|].
  destruct Hatt as [Heq|?]; [|done].
  destruct l as [|x l]; [done|]. exists x. split; [left|].
  pose proof (Hub x ltac:(left)). pose proof (string_size_nonneg (serialized_request x)).
  lia.
Qed.

Lemma ComputePadding_spec (l : list ShardLookupInput) :
  l ≠ [] →
  (∀ li, li ∈ l → string_size (serialized_request li) ≤ INT32_MAX) →
  ∀ li, li ∈ ComputePadding l →
    string_size (serialized_request li) + padding li = max_length_of l ∧
    0 ≤ padding li.
Proof.
  intros Hne Hl li Hli.
  destruct (max_length_of_spec l Hne Hl) as (Hm & Hub & _).
  unfold ComputePadding in Hli.
  apply list_elem_of_fmap in Hli as (li0 & -> & Hli0).
  simpl.
  pose proof (Hub _ Hli0). pose proof (string_size_nonneg (serialized_request li0)).
  rewrite (to_size_t_small (max_length_of l)) by done.
  rewrite to_size_t_small by lia.
  rewrite to_int32_small by lia. lia.
Qed.

Lemma ComputePadding_serialized (l : list ShardLookupInput) :
  serialized_request <$> ComputePadding l = serialized_request <$> l.
Proof.
  unfold ComputePadding. rewrite <- list_fmap_compose. by apply list_fmap_ext.
Qed.

Lemma ShardKeys_length request_context keys lookup_sets :
  length (ShardKeys request_context keys lookup_sets) = Z.to_nat num_shards_.
Proof.
  unfold ShardedLookup.ShardKeys, ComputePadding,
    ShardedLookup.SerializeShardedRequests.
  rewrite !length_fmap. apply length_BucketKeys.
Qed.

Lemma ShardKeys_elem request_context keys lookup_sets li :
  li ∈ ShardKeys request_context keys lookup_sets →
  ∃ li0, li0 ∈ BucketKeys keys ∧
    sli_keys li = sli_keys li0 ∧
    serialized_request li =
      SerializeAsString
        (ShardedLookup.bucket_request request_context lookup_sets li0).
Proof.
  unfold ShardedLookup.ShardKeys, ShardedLookup.ComputePadding,
    ShardedLookup.SerializeShardedRequests.
  intros (li1 & -> & (li0 & -> & Hli0)%list_elem_of_fmap)%list_elem_of_fmap.
  by exists li0.
Qed.

(** C2.  For the fan-out that [ShardKeys] prepares for any key set, any
    [lookup_sets] flag and [num_shards_ > 1] (each serialized sub-request
    being at most [INT32_MAX] bytes, the limit of a protobuf message): there
    is one bucket per shard, empty ones included; [max_len] is the maximum
    of the serialized lengths over all buckets (an upper bound that some
    bucket attains); and each bucket holds the serialization of its own
    request and satisfies
    [serialized_request.size() + padding == max_len] with a non-negative
    padding, so that all padded sub-requests have the same length. *)
Theorem ShardKeys_equal_padded_length request_context keys lookup_sets :
  1 < num_shards_ →
  Forall
    (λ li0,
       string_size (SerializeAsString
               (ShardedLookup.bucket_request request_context lookup_sets li0))
       ≤ INT32_MAX)
    (BucketKeys keys) →
  let lookup_inputs := ShardKeys request_context keys lookup_sets in
  ∃ max_len,
    length lookup_inputs = Z.to_nat num_shards_ ∧
    (∀ li, li ∈ lookup_inputs → string_size (serialized_request li) ≤ max_len) ∧
    (∃ li, li ∈ lookup_inputs ∧ string_size (serialized_request li) = max_len) ∧
    (∀ li, li ∈ lookup_inputs →
       serialized_request li =
         SerializeAsString
           (ShardedLookup.bucket_request request_context lookup_sets li) ∧
       string_size (serialized_request li) + padding li = max_len ∧
       0 ≤ padding li).
Proof.
  intros Hn Hsize lookup_inputs.
  set (l := ShardedLookup.SerializeShardedRequests SerializeAsString
              request_context (BucketKeys keys) lookup_sets).
  assert (Hlen : length l = Z.to_nat num_shards_).
  { unfold l, ShardedLookup.SerializeShardedRequests.
    rewrite length_fmap. apply length_BucketKeys. }
  assert (Hne : l ≠ []).
  { intros E. rewrite E in Hlen. simpl in Hlen. lia. }
  assert (Hl : ∀ li, li ∈ l → string_size (serialized_request li) ≤ INT32_MAX).
  { intros li (li0 & -> & Hli0)%list_elem_of_fmap. simpl.
    rewrite Forall_forall in Hsize. by apply Hsize. }
  destruct (max_length_of_spec l Hne Hl) as (_ & Hub & (lm & Hlm & Hatt)).
  exists (max_length_of l).
  split; [apply ShardKeys_length|].
  assert (Hback : ∀ li, li ∈ lookup_inputs →
            ∃ li1, li1 ∈ l ∧ serialized_request li = serialized_request li1).
  { intros li (li1 & -> & Hli1)%list_elem_of_fmap. by exists li1. }
  split; [|split].
  - intros li (li1 & Hli1 & ->)%Hback. by apply Hub.
  - exists (set_padding
              (to_int32 (to_size_t (to_size_t (max_length_of l)
                                    - string_size (serialized_request lm)))) lm).
    split; [|done].
    unfold lookup_inputs, ShardedLookup.ShardKeys, ShardedLookup.ComputePadding.
    fold l. apply list_elem_of_fmap. by exists lm.
  - intros li Hli. split.
    + unfold lookup_inputs, ShardedLookup.ShardKeys,
        ShardedLookup.ComputePadding in Hli. fold l in Hli.
      apply list_elem_of_fmap in Hli as (li1 & -> & Hli1).
      unfold l in Hli1.
      apply list_elem_of_fmap in Hli1 as (li0 & -> & Hli0). done.
    + by apply (ComputePadding_spec l Hne Hl).
Qed.

End Padding.

(** Scenario S4 ([ReturnsKeysFromCachePadding]): four shards, and all four
    sub-requests have the padded length 22.  (Within a bucket the keys come
    in the iteration order of the key set.) *)
Example ShardKeys_padding_scenario :
  (λ li, (sli_keys li, string_size (serialized_request li), padding li))
    <$> ShardedLookup.ShardKeys 4 Fixture.test_sharder
          Fixture.wire_SerializeAsString Fixture.stale_padding Fixture.test_context
          Fixture.padding_keys false
  = [ (["key4"; "verylongkey2"], 20, 2);
      (["key3"; "key1"; "key2"], 18, 4);
      (["randomkey5"], 12, 10);
      (["randomkey3"; "longkey1"], 22, 0) ].
Proof. vm_compute. reflexivity. Qed.

(** The theorem above at the fan-out of scenario S4. *)
Lemma ShardKeys_equal_padded_length_witness :
  let lookup_inputs :=
    ShardedLookup.ShardKeys 4 Fixture.test_sharder
      Fixture.wire_SerializeAsString Fixture.stale_padding Fixture.test_context
      Fixture.padding_keys false in
  ∃ max_len,
    length lookup_inputs = Z.to_nat 4 ∧
    (∀ li, li ∈ lookup_inputs → string_size (serialized_request li) ≤ max_len) ∧
    (∃ li, li ∈ lookup_inputs ∧ string_size (serialized_request li) = max_len) ∧
    (∀ li, li ∈ lookup_inputs →
       serialized_request li =
         Fixture.wire_SerializeAsString
           (ShardedLookup.bucket_request Fixture.test_context false li) ∧
       string_size (serialized_request li) + padding li = max_len ∧
       0 ≤ padding li).
Proof.
  apply (ShardKeys_equal_padded_length 4 Fixture.test_sharder
           Fixture.wire_SerializeAsString Fixture.stale_padding Fixture.test_context
           Fixture.padding_keys false).
  - lia.
  - by apply (bool_decide_unpack _); vm_compute.
Defined.

(** ** Properties of response assembly *)

Lemma bucket_keys_alter (k : string) (v : list ShardLookupInput) (i : nat) :
  (i < length v)%nat →
  ∀ k', k' ∈ bucket_keys (alter (add_key k) i v) ↔ k' = k ∨ k' ∈ bucket_keys v.
Proof.
  unfold bucket_keys. revert i.
  induction v as [|x v IH]; intros i Hi k'; simpl in Hi; [lia|].
  destruct i as [|i]; simpl.
  - rewrite !elem_of_app, list_elem_of_singleton. tauto.
  - rewrite !elem_of_app, (IH i) by lia. tauto.
Qed.

Lemma elem_of_bucket_keys (v : list ShardLookupInput) (k : string) :
  k ∈ bucket_keys v ↔ ∃ li, li ∈ v ∧ k ∈ sli_keys li.
Proof.
  unfold bucket_keys. induction v as [|x v IH].
  - split; [by intros ?%elem_of_nil|]. by intros (li & ?%elem_of_nil & _).
  - rewrite fmap_cons, concat_cons, elem_of_app, IH. split.
    + intros [Hk|(li & Hli & Hk)].
      * exists x. split; [left|done].
      * exists li. split; [by right|done].
    + intros (li & [->|Hli]%elem_of_cons & Hk); [by left|].
      right. by exists li.
Qed.

Lemma bucket_keys_replicate (n : nat) (li : ShardLookupInput) :
  sli_keys li = [] → bucket_keys (replicate n li) = [].
Proof.
  intros E. unfold bucket_keys.
  induction n as [|n IH]; [done|].
  change (replicate (S n) li) with (li :: replicate n li).
  rewrite fmap_cons, concat_cons, E. exact IH.
Qed.

Lemma insert_all_dom {V} (g : string → V) l (m : gmap string V) :
  dom (insert_all g l m) = dom m ∪ list_to_set l.
Proof.
  unfold insert_all. revert m.
  induction l as [|k l IH]; intros m; simpl; [set_solver|].
  rewrite IH, dom_insert_L. set_solver.
Qed.

Lemma insert_all_lookup_notin {V} (g : string → V) l (m : gmap string V) k :
  k ∉ l → insert_all g l m !! k = m !! k.
Proof.
  unfold insert_all. revert m.
  induction l as [|x l IH]; intros m Hk; simpl; [done|].
  rewrite IH by set_solver. apply lookup_insert_ne. set_solver.
Qed.

Lemma insert_all_lookup_in {V} (g : string → V) l (m : gmap string V) k :
  k ∈ l → insert_all g l m !! k = Some (g k).
Proof.
  unfold insert_all. revert m.
  induction l as [|x l IH]; intros m Hk; simpl.
  - by apply elem_of_nil in Hk.
  - destruct (decide (k ∈ l)) as [Hin|Hnin]; [by apply IH|].
    apply elem_of_cons in Hk as [->|?]; [|done].
    fold (insert_all g l (<[x := g x]> m)).
    rewrite insert_all_lookup_notin by done. apply lookup_insert_eq.
Qed.

Lemma foldM_fst {A B} (f : A → B → M A) (g : A → B → A) (a : A) (l : list B) :
  (∀ a b, (f a b).1 = g a b) → (foldM f a l).1 = foldl g a l.
Proof.
  intros Hfg. revert a. induction l as [|b l IH]; intros a; simpl; [done|].
  unfold bind. specialize (Hfg a b). destruct (f a b) as [a' t]. simpl in Hfg.
  subst a'. specialize (IH (g a b)). destruct (foldM f (g a b) l). by simpl in *.
Qed.

Lemma UpdateResponse_insert_all key_list
    (kv_pairs response : gmap string SingleLookupResult) :
  ShardedLookup.UpdateResponse key_list kv_pairs response
  = insert_all (λ key, default ShardedLookup.not_found_result (kv_pairs !! key))
      key_list response.
Proof.
  unfold ShardedLookup.UpdateResponse, insert_all. revert response.
  induction key_list as [|k l IH]; intros response; simpl; [done|].
  rewrite <- IH. by destruct (kv_pairs !! k).
Qed.

Lemma UpdateResponse_dom (key_list : list string)
    (kv_pairs response : gmap string SingleLookupResult) :
  dom (ShardedLookup.UpdateResponse key_list kv_pairs response)
  = dom response ∪ list_to_set key_list.
Proof.
  unfold ShardedLookup.UpdateResponse. revert response.
  induction key_list as [|k l IH]; intros response; simpl.
  - set_solver.
  - rewrite IH. destruct (kv_pairs !! k); rewrite dom_insert_L; set_solver.
Qed.

Lemma SetRequestFailed_dom (key_list : list string)
    (response : gmap string SingleLookupResult) :
  dom (ShardedLookup.SetRequestFailed key_list response)
  = dom response ∪ list_to_set key_list.
Proof.
  unfold ShardedLookup.SetRequestFailed. revert response.
  induction key_list as [|k l IH]; intros response; simpl.
  - set_solver.
  - rewrite IH, dom_insert_L. set_solver.
Qed.

Lemma process_responses_dom (inputs : list ShardLookupInput)
    (responses : list (StatusOr InternalLookupResponse))
    (response : gmap string SingleLookupResult) :
  length responses = length inputs →
  dom (ShardedLookup.process_responses inputs responses response).1
  = dom response ∪ list_to_set (bucket_keys inputs).
Proof.
  revert responses response.
  induction inputs as [|li inputs IH]; intros [|r responses] response Hlen;
    simpl in *; try lia.
  - unfold bucket_keys. simpl. set_solver.
  - unfold bucket_keys in *. simpl. rewrite list_to_set_app_L.
    destruct r as [result|e]; unfold bind, emit; simpl.
    + rewrite IH by lia. rewrite UpdateResponse_dom. set_solver.
    + destruct (ShardedLookup.process_responses inputs responses _)
        as [m t] eqn:E.
      simpl. change m with (m, t).1. rewrite <- E.
      rewrite IH by lia. rewrite SetRequestFailed_dom. set_solver.
Qed.

Section Assembly.

Context (local_lookup_ : Lookup)
        (num_shards_ current_shard_num_ : Z)
        (shard_manager_ : ShardManager)
        (key_sharder_ : KeySharder).
Context (SerializeAsString : InternalLookupRequest → string).
Context (indeterminate_padding : Z).

Abbreviation BucketKeys :=
  (ShardedLookup.BucketKeys num_shards_ key_sharder_ indeterminate_padding).
Abbreviation ShardKeys :=
  (ShardedLookup.ShardKeys num_shards_ key_sharder_ SerializeAsString
     indeterminate_padding).
Abbreviation GetLookupFutures_from :=
  (ShardedLookup.GetLookupFutures_from current_shard_num_ shard_manager_).
Abbreviation GetLookupFutures :=
  (ShardedLookup.GetLookupFutures current_shard_num_ shard_manager_).
Abbreviation ProcessShardedKeys :=
  (ShardedLookup.ProcessShardedKeys local_lookup_ num_shards_
     current_shard_num_ shard_manager_ key_sharder_ SerializeAsString
     indeterminate_padding).
Abbreviation GetShardedKeyValueSet :=
  (ShardedLookup.GetShardedKeyValueSet local_lookup_ num_shards_
     current_shard_num_ shard_manager_ key_sharder_ SerializeAsString
     indeterminate_padding).
Abbreviation GetKeyValueSets :=
  (ShardedLookup.GetKeyValueSets local_lookup_ num_shards_
     current_shard_num_ shard_manager_ key_sharder_ SerializeAsString
     indeterminate_padding).
Abbreviation GetKeyValues :=
  (ShardedLookup.GetKeyValues local_lookup_ num_shards_
     current_shard_num_ shard_manager_ key_sharder_ SerializeAsString
     indeterminate_padding).
Abbreviation GetKeyValueSet :=
  (ShardedLookup.GetKeyValueSet local_lookup_ num_shards_
     current_shard_num_ shard_manager_ key_sharder_ SerializeAsString
     indeterminate_padding).
Abbreviation GetUInt32ValueSet :=
  (ShardedLookup.GetUInt32ValueSet local_lookup_ num_shards_
     current_shard_num_ shard_manager_ key_sharder_ SerializeAsString
     indeterminate_padding).

(** The shard number of a key is a valid index into the bucket vector. *)
Lemma shard_num_in_range (key : string) :
  0 < num_shards_ →
  (Z.to_nat (shard_num (GetShardNumForKey key_sharder_ key num_shards_))
   < Z.to_nat num_shards_)%nat.
Proof.
  intros Hn. unfold GetShardNumForKey. simpl.
  pose proof (Z.mod_pos_bound
                (Z.of_N (HashString key_sharder_
                           (default key (extract_sharding_key key_sharder_ key))))
                num_shards_ Hn).
  lia.
Qed.

Lemma bucket_fold_keys (l : list string) (v : list ShardLookupInput) :
  0 < num_shards_ →
  length v = Z.to_nat num_shards_ →
  ∀ k,
    k ∈ bucket_keys
          (foldl
             (λ lookup_inputs key,
                alter (add_key key)
                  (Z.to_nat
                     (shard_num (GetShardNumForKey key_sharder_ key num_shards_)))
                  lookup_inputs)
             v l)
    ↔ k ∈ l ∨ k ∈ bucket_keys v.
Proof.
  intros Hn. revert v.
  induction l as [|x l IH]; intros v Hv k; simpl.
  - rewrite elem_of_nil. tauto.
  - rewrite IH by (by rewrite length_alter).
    rewrite bucket_keys_alter by (rewrite Hv; by apply shard_num_in_range).
    rewrite elem_of_cons. tauto.
Qed.

(** Bucketing neither loses nor invents keys. *)
Lemma BucketKeys_keys (keys : gset string) :
  0 < num_shards_ →
  list_to_set (bucket_keys (BucketKeys keys)) = keys.
Proof.
  intros Hn. apply set_eq. intros k.
  rewrite elem_of_list_to_set. unfold ShardedLookup.BucketKeys.
  rewrite bucket_fold_keys by (done || apply length_replicate).
  rewrite bucket_keys_replicate by done.
  rewrite elem_of_elements, elem_of_nil. tauto.
Qed.

Lemma ShardKeys_keys request_context keys lookup_sets :
  bucket_keys (ShardKeys request_context keys lookup_sets)
  = bucket_keys (BucketKeys keys).
Proof.
  unfold bucket_keys, ShardedLookup.ShardKeys, ShardedLookup.ComputePadding,
    ShardedLookup.SerializeShardedRequests.
  rewrite <- !list_fmap_compose. f_equal.
Qed.

(** A fan-out that succeeds delivers one future per bucket. *)
Lemma GetLookupFutures_from_length request_context shard_num inputs
    get_local_future responses :
  (GetLookupFutures_from request_context shard_num inputs get_local_future).1
  = Value responses →
  length responses = length inputs.
Proof.
  revert shard_num responses.
  induction inputs as [|li inputs IH]; intros n responses; simpl.
  - by intros [= <-].
  - unfold bind, emit, ret. simpl.
    destruct (decide (n = current_shard_num_)) as [_|_].
    + destruct (get_local_future (sli_keys li)) as [r t].
      destruct (GetLookupFutures_from request_context (n + 1) inputs
                  get_local_future) as [[rs|e] t'] eqn:E; simpl; [|done].
      intros [= <-]. simpl. f_equal. eapply IH. by rewrite E.
    + destruct (Get shard_manager_ n) as [client|]; simpl; [|done].
      destruct (GetLookupFutures_from request_context (n + 1) inputs
                  get_local_future) as [[rs|e] t'] eqn:E; simpl; [|done].
      intros [= <-]. simpl. f_equal. eapply IH. by rewrite E.
Qed.

Lemma ProcessShardedKeys_dom request_context keys response :
  0 < num_shards_ →
  (ProcessShardedKeys request_context keys).1 = Value response →
  dom (kv_pairs response) = keys.
Proof.
  intros Hn. unfold ShardedLookup.ProcessShardedKeys.
  destruct (decide (keys = ∅)) as [->|Hne]; simpl.
  - intros [= <-]. simpl. set_solver.
  - unfold bind, ret. fold GetLookupFutures.
    destruct (GetLookupFutures request_context
                (ShardKeys request_context keys false) _)
      as [[responses|e] t] eqn:E; simpl; [|done].
    destruct (ShardedLookup.process_responses _ responses ∅) as [m t'] eqn:P.
    simpl. intros [= <-]. simpl.
    change m with (m, t').1. rewrite <- P.
    rewrite process_responses_dom.
    + rewrite ShardKeys_keys, BucketKeys_keys by done. set_solver.
    + unfold ShardedLookup.GetLookupFutures in E.
      eapply GetLookupFutures_from_length. by rewrite E.
Qed.

Lemma with_latency_fst {A} (m : Metric) (body : M A) :
  (with_latency m body).1 = body.1.
Proof. unfold with_latency, bind, emit, ret. by destruct body. Qed.

Lemma with_latency_snd {A} (m : Metric) (body : M A) :
  (with_latency m body).2 = body.2 ++ [RecordLatency m].
Proof. unfold with_latency, bind, emit, ret. by destruct body. Qed.

(** The response that [GetKeyValueSets] assembles from the collected sets. *)
Lemma GetKeyValueSets_response t request_context keys response :
  (GetKeyValueSets t request_context keys).1 = Value response →
  dom (kv_pairs response) = keys ∧
  ∀ k r, kv_pairs response !! k = Some r →
    r = ShardedLookup.not_found_result ∨ ∃ s, r = ShardedLookup.set_result t s.
Proof.
  unfold ShardedLookup.GetKeyValueSets. rewrite with_latency_fst.
  destruct (decide (keys = ∅)) as [->|Hne]; simpl.
  - intros [= <-]. simpl. split; [set_solver|]. intros k r.
    by rewrite lookup_empty.
  - unfold bind at 1.
    destruct (GetShardedKeyValueSet t request_context keys)
      as [[key_sets|e] tr]; simpl; [|done].
    unfold bind at 1.
    match goal with
    | |- context [foldM ?f ∅ (elements keys)] =>
        assert (Hfg : ∀ a b,
                  (f a b).1
                  = <[b := from_option (ShardedLookup.set_result t)
                             ShardedLookup.not_found_result (key_sets !! b)]> a)
          by (intros a b; cbv beta; destruct (key_sets !! b); reflexivity);
        pose proof (foldM_fst f _ ∅ (elements keys) Hfg) as Hf;
        destruct (foldM f ∅ (elements keys)) as [m tr']
    end.
    simpl in Hf. subst m. simpl. intros [= <-]. simpl.
    fold (insert_all
            (λ key, from_option (ShardedLookup.set_result t)
                      ShardedLookup.not_found_result (key_sets !! key))
            (elements keys) ∅).
    split.
    + rewrite insert_all_dom. set_solver.
    + intros k r Hk.
      destruct (decide (k ∈ elements keys)) as [Hin|Hnin].
      * rewrite insert_all_lookup_in in Hk by done.
        injection Hk as <-. destruct (key_sets !! k); simpl; eauto.
      * rewrite insert_all_lookup_notin in Hk by done.
        by rewrite lookup_empty in Hk.
Qed.

(** C1.  For every key set [keys] (empty or not) and [num_shards_ > 1], a
    sharded lookup ([GetKeyValues], [GetKeyValueSet] or [GetUInt32ValueSet])
    that succeeds returns a response whose set of keys is exactly [keys]:
    the response is a map, so it holds one [SingleLookupResult] per key;
    every requested key has one, and no other key has. *)
Theorem sharded_lookup_response_keys request_context keys response trace :
  1 < num_shards_ →
  GetKeyValues request_context keys = (Value response, trace)
  ∨ GetKeyValueSet request_context keys = (Value response, trace)
  ∨ GetUInt32ValueSet request_context keys = (Value response, trace) →
  dom (kv_pairs response) = keys ∧
  (∀ k, k ∈ keys → ∃ r, kv_pairs response !! k = Some r) ∧
  (∀ k r, kv_pairs response !! k = Some r → k ∈ keys).
Proof.
  intros Hn H.
  assert (Hdom : dom (kv_pairs response) = keys).
  { destruct H as [H|[H|H]].
    - unfold ShardedLookup.GetKeyValues in H.
      apply (ProcessShardedKeys_dom request_context); [lia|].
      by rewrite <- with_latency_fst
        with (m := kShardedLookupGetKeyValuesLatencyInMicros), H.
    - apply (GetKeyValueSets_response elem_string request_context).
      unfold ShardedLookup.GetKeyValueSet in H. by rewrite H.
    - apply (GetKeyValueSets_response elem_uint32 request_context).
      unfold ShardedLookup.GetUInt32ValueSet in H. by rewrite H. }
  split; [done|]. split.
  - intros k Hk. rewrite <- Hdom in Hk. by apply elem_of_dom in Hk.
  - intros k r Hk. rewrite <- Hdom. apply elem_of_dom. by exists r.
Qed.

End Assembly.

(** Scenario S1 ([ReturnsKeysFromCache]): the local value and the peer's
    value are merged. *)
Example GetKeyValues_scenario_S1 :
  ShardedLookup.GetKeyValues Fixture.s1_local 2 0 Fixture.s1_manager
    Fixture.test_sharder Fixture.wire_SerializeAsString Fixture.stale_padding Fixture.test_context
    Fixture.s1_keys
  = (Value Fixture.s1_response,
     [ AccumulateKeyCountByShard 1 0;
       LocalLookup case_kValue ["key4"];
       AccumulateKeyCountByShard 1 1;
       ShardManagerGet 1;
       RemoteGetValues 1
         (Fixture.wire_SerializeAsString
            {| keys := ["key1"]; lookup_sets := false;
               consented_debug_config :=
                 GetConsentedDebugConfiguration Fixture.test_context;
               log_context := GetLogContext Fixture.test_context |}) 0;
       RecordLatency kShardedLookupGetKeyValuesLatencyInMicros ]).
Proof. vm_compute. reflexivity. Qed.

(** Scenario S2 ([MissingKeyFromCache]): the peer's per-key statuses are
    copied into the response. *)
Example GetKeyValues_scenario_S2 :
  (ShardedLookup.GetKeyValues Fixture.s1_local 2 0 Fixture.s2_manager
     Fixture.test_sharder Fixture.wire_SerializeAsString Fixture.stale_padding Fixture.test_context
     Fixture.s2_keys).1
  = Value Fixture.s2_response.
Proof. vm_compute. reflexivity. Qed.

(** The theorem above at scenario S1. *)
Lemma sharded_lookup_response_keys_witness :
  dom (kv_pairs Fixture.s1_response) = Fixture.s1_keys ∧
  (∀ k, k ∈ Fixture.s1_keys → ∃ r, kv_pairs Fixture.s1_response !! k = Some r) ∧
  (∀ k r, kv_pairs Fixture.s1_response !! k = Some r → k ∈ Fixture.s1_keys).
Proof.
  eapply (sharded_lookup_response_keys Fixture.s1_local 2 0 Fixture.s1_manager
            Fixture.test_sharder Fixture.wire_SerializeAsString Fixture.stale_padding
            Fixture.test_context).
  - lia.
  - left. vm_compute. reflexivity.
Defined.

(** ** Shard failures *)

Lemma bind_fst {A B} (m : M A) (f : A → M B) : (bind m f).1 = (f m.1).1.
Proof. unfold bind. destruct m as [a t]. simpl. by destruct (f a). Qed.

Lemma bind_snd {A B} (m : M A) (f : A → M B) :
  (bind m f).2 = m.2 ++ (f m.1).2.
Proof. unfold bind. destruct m as [a t]. simpl. by destruct (f a). Qed.

#[global] Arguments bind {A B} m f : simpl never.

Lemma SetRequestFailed_insert_all key_list
    (response : gmap string SingleLookupResult) :
  ShardedLookup.SetRequestFailed key_list response
  = insert_all (λ _, ShardedLookup.request_failed_result) key_list response.
Proof. reflexivity. Qed.

Lemma process_responses_cons li inputs r responses response :
  (ShardedLookup.process_responses (li :: inputs) (r :: responses) response).1
  = (ShardedLookup.process_responses inputs responses
       (insert_all (per_key_result r) (sli_keys li) response)).1.
Proof.
  simpl. destruct r as [result|e]; simpl.
  - by rewrite UpdateResponse_insert_all.
  - by rewrite bind_fst.
Qed.

Lemma process_responses_lookup_notin inputs responses response k :
  k ∉ bucket_keys inputs →
  (ShardedLookup.process_responses inputs responses response).1 !! k
  = response !! k.
Proof.
  revert responses response.
  induction inputs as [|li inputs IH]; intros [|r responses] response Hk;
    try done.
  unfold bucket_keys in Hk. rewrite fmap_cons, concat_cons in Hk.
  apply not_elem_of_app in Hk as [Hk1 Hk2].
  rewrite process_responses_cons, IH by done.
  by apply insert_all_lookup_notin.
Qed.

Lemma process_responses_lookup inputs responses response i li r k :
  NoDup (bucket_keys inputs) →
  inputs !! i = Some li →
  responses !! i = Some r →
  k ∈ sli_keys li →
  (ShardedLookup.process_responses inputs responses response).1 !! k
  = Some (per_key_result r k).
Proof.
  revert responses response i.
  induction inputs as [|li0 inputs IH]; intros [|r0 responses] response i
    Hnd Hli Hr Hk; try done.
  unfold bucket_keys in Hnd. rewrite fmap_cons, concat_cons in Hnd.
  apply NoDup_app in Hnd as (_ & Hdisj & Hnd).
  rewrite process_responses_cons.
  destruct i as [|i]; simpl in Hli, Hr.
  - injection Hli as ->. injection Hr as ->.
    rewrite process_responses_lookup_notin by (by apply Hdisj).
    by apply insert_all_lookup_in.
  - by eapply IH.
Qed.

Lemma bucket_keys_alter_perm (k : string) (v : list ShardLookupInput) (i : nat) :
  (i < length v)%nat →
  bucket_keys (alter (add_key k) i v) ≡ₚ k :: bucket_keys v.
Proof.
  unfold bucket_keys. revert i.
  induction v as [|x v IH]; intros i Hi; simpl in Hi; [lia|].
  destruct i as [|i].
  - change (alter (add_key k) 0%nat (x :: v)) with (add_key k x :: v).
    rewrite !fmap_cons, !concat_cons. simpl.
    rewrite <- app_assoc. simpl. symmetry. apply Permutation_middle.
  - change (alter (add_key k) (S i) (x :: v))
      with (x :: alter (add_key k) i v).
    rewrite !fmap_cons, !concat_cons, (IH i) by lia.
    symmetry. apply Permutation_middle.
Qed.

(** The first failed sub-request decides the outcome of a set-valued
    collection. *)
Lemma collect_responses_failed (t : SetElementType)
    (responses : list (StatusOr InternalLookupResponse))
    (key_sets : gmap string (gset (elem t))) e0 :
  Failed e0 ∈ responses →
  ∃ e, Failed e ∈ responses ∧
    (ShardedLookup.collect_responses t responses key_sets).1 = Failed e.
Proof.
  revert key_sets. induction responses as [|r responses IH]; intros key_sets Hin.
  - by apply elem_of_nil in Hin.
  - destruct r as [result|e]; simpl.
    + apply elem_of_cons in Hin as [?|Hin]; [done|].
      rewrite bind_fst.
      destruct (IH (ShardedLookup.CollectKeySets t key_sets result).1 Hin)
        as (e & He & ->).
      exists e. split; [by right|done].
    + exists e. split; [left|done].
Qed.

Section ShardFailure.

Context (local_lookup_ : Lookup)
        (num_shards_ current_shard_num_ : Z)
        (shard_manager_ : ShardManager)
        (key_sharder_ : KeySharder).
Context (SerializeAsString : InternalLookupRequest → string).
Context (indeterminate_padding : Z).

Abbreviation BucketKeys :=
  (ShardedLookup.BucketKeys num_shards_ key_sharder_ indeterminate_padding).
Abbreviation ShardKeys :=
  (ShardedLookup.ShardKeys num_shards_ key_sharder_ SerializeAsString
     indeterminate_padding).
Abbreviation GetLocalLookupResponse :=
  (ShardedLookup.GetLocalLookupResponse local_lookup_).
Abbreviation GetLookupFutures :=
  (ShardedLookup.GetLookupFutures current_shard_num_ shard_manager_).
Abbreviation GetKeyValueSets :=
  (ShardedLookup.GetKeyValueSets local_lookup_ num_shards_
     current_shard_num_ shard_manager_ key_sharder_ SerializeAsString
     indeterminate_padding).
Abbreviation GetKeyValues :=
  (ShardedLookup.GetKeyValues local_lookup_ num_shards_
     current_shard_num_ shard_manager_ key_sharder_ SerializeAsString
     indeterminate_padding).

Lemma bucket_fold_perm (l : list string) (v : list ShardLookupInput) :
  0 < num_shards_ →
  length v = Z.to_nat num_shards_ →
  bucket_keys
    (foldl
       (λ lookup_inputs key,
          alter (add_key key)
            (Z.to_nat
               (shard_num (GetShardNumForKey key_sharder_ key num_shards_)))
            lookup_inputs)
       v l)
  ≡ₚ l ++ bucket_keys v.
Proof.
  intros Hn. revert v.
  induction l as [|x l IH]; intros v Hv; simpl; [done|].
  rewrite IH by (by rewrite length_alter).
  rewrite bucket_keys_alter_perm
    by (rewrite Hv; by apply shard_num_in_range).
  symmetry. apply Permutation_middle.
Qed.

(** No key is put into two buckets, or twice into one. *)
Lemma BucketKeys_NoDup (keys : gset string) :
  0 < num_shards_ → NoDup (bucket_keys (BucketKeys keys)).
Proof.
  intros Hn. unfold ShardedLookup.BucketKeys.
  rewrite bucket_fold_perm by (done || apply length_replicate).
  rewrite bucket_keys_replicate by done.
  rewrite app_nil_r. apply NoDup_elements.
Qed.

Lemma ProcessShardedKeys_after_dispatch request_context keys responses :
  keys ≠ ∅ →
  (GetLookupFutures request_context (ShardKeys request_context keys false)
     (GetLocalLookupResponse case_kValue request_context)).1
  = Value responses →
  (GetKeyValues request_context keys).1
  = Value {| kv_pairs :=
               (ShardedLookup.process_responses
                  (ShardKeys request_context keys false) responses ∅).1 |}.
Proof.
  intros Hne E. unfold ShardedLookup.GetKeyValues.
  rewrite with_latency_fst. unfold ShardedLookup.ProcessShardedKeys.
  destruct (decide (keys = ∅)) as [?|_]; [done|].
  rewrite bind_fst, E. by rewrite bind_fst.
Qed.

Lemma GetKeyValueSets_after_dispatch t request_context keys responses :
  keys ≠ ∅ →
  (GetLookupFutures request_context (ShardKeys request_context keys true)
     (GetLocalLookupResponse (ShardedLookup.local_case t) request_context)).1
  = Value responses →
  ∀ e, (ShardedLookup.collect_responses t responses ∅).1 = Failed e →
  (GetKeyValueSets t request_context keys).1 = Failed e.
Proof.
  intros Hne E e C. unfold ShardedLookup.GetKeyValueSets.
  rewrite with_latency_fst.
  destruct (decide (keys = ∅)) as [?|_]; [done|].
  rewrite bind_fst. unfold ShardedLookup.GetShardedKeyValueSet.
  rewrite bind_fst, E, C. by rewrite bind_fst.
Qed.

(** C3 (amended).  Once dispatch has succeeded ([GetLookupFutures] returned
    the futures [responses]):
    - the single-valued lookup [GetKeyValues] returns a response and no
      request-level error; every key that the engine assigned to a shard
      whose sub-request failed is mapped to the status
      [Internal, "Data lookup failed"], and every key of a shard whose
      sub-request succeeded is mapped to what that shard returned for it
      ([NotFound] if it returned nothing);
    - the set-valued lookups ([GetKeyValueSets], behind [GetKeyValueSet] and
      [GetUInt32ValueSet]) over a non-empty key set fail as a whole when a
      sub-request failed, with the status of a failed sub-request. *)
Theorem shard_failure_handling request_context keys :
  1 < num_shards_ →
  (∀ responses,
     (GetLookupFutures request_context (ShardKeys request_context keys false)
        (GetLocalLookupResponse case_kValue request_context)).1
     = Value responses →
     ∃ response,
       (GetKeyValues request_context keys).1 = Value response ∧
       ∀ i li k,
         ShardKeys request_context keys false !! i = Some li →
         k ∈ sli_keys li →
         (∀ e, responses !! i = Some (Failed e) →
            kv_pairs response !! k
            = Some (kStatus {| rpc_code := 13;
                               rpc_message := "Data lookup failed" |})) ∧
         (∀ r, responses !! i = Some (Value r) →
            kv_pairs response !! k
            = Some (default ShardedLookup.not_found_result (kv_pairs r !! k))))
  ∧
  (∀ t responses e0,
     keys ≠ ∅ →
     (GetLookupFutures request_context (ShardKeys request_context keys true)
        (GetLocalLookupResponse (ShardedLookup.local_case t) request_context)).1
     = Value responses →
     Failed e0 ∈ responses →
     ∃ e, Failed e ∈ responses ∧
       (GetKeyValueSets t request_context keys).1 = Failed e).
Proof.
  intros Hn. split.
  - intros responses E.
    destruct (decide (keys = ∅)) as [->|Hne].
    + exists empty_response. split.
      * unfold ShardedLookup.GetKeyValues. rewrite with_latency_fst.
        unfold ShardedLookup.ProcessShardedKeys. by rewrite decide_True.
      * intros i li k Hli Hk. exfalso.
        assert (Hin : k ∈ (list_to_set
                             (bucket_keys (ShardKeys request_context ∅ false))
                           : gset string)).
        { apply elem_of_list_to_set, elem_of_bucket_keys.
          exists li. split; [|done]. by eapply list_elem_of_lookup_2. }
        rewrite ShardKeys_keys, BucketKeys_keys in Hin by lia. set_solver.
    + eexists. split; [by apply ProcessShardedKeys_after_dispatch|].
      intros i li k Hli Hk. simpl.
      assert (Hnd : NoDup (bucket_keys (ShardKeys request_context keys false))).
      { rewrite ShardKeys_keys. apply BucketKeys_NoDup. lia. }
      split.
      * intros e Hr.
        by rewrite (process_responses_lookup _ _ _ i li (Failed e) k).
      * intros r Hr.
        by rewrite (process_responses_lookup _ _ _ i li (Value r) k).
  - intros t responses e0 Hne E Hin.
    destruct (collect_responses_failed t responses ∅ e0 Hin) as (e & He & C).
    exists e. split; [done|].
    by apply (GetKeyValueSets_after_dispatch t request_context keys responses).
Qed.

End ShardFailure.

(** Scenario S3: the peer's sub-request fails, the request succeeds. *)
Example GetKeyValues_scenario_S3 :
  (ShardedLookup.GetKeyValues Fixture.s1_local 2 0 Fixture.s3_manager
     Fixture.test_sharder Fixture.wire_SerializeAsString Fixture.stale_padding Fixture.test_context
     Fixture.s1_keys).1
  = Value Fixture.s3_response.
Proof. vm_compute. reflexivity. Qed.

(** C3 as stated fails: in the setting of S3 the set-valued lookup dispatches
    both sub-requests, the one to shard 1 fails, and [GetKeyValueSet] returns
    that failure as the status of the whole request instead of a response
    with per-key statuses. *)
Lemma set_lookup_shard_failure_fails_request :
  (ShardedLookup.GetLookupFutures 0 Fixture.s3_manager Fixture.test_context
     (ShardedLookup.ShardKeys 2 Fixture.test_sharder
        Fixture.wire_SerializeAsString Fixture.stale_padding Fixture.test_context Fixture.s1_keys
        true)
     (ShardedLookup.GetLocalLookupResponse Fixture.s1_local case_kKeysetValues
        Fixture.test_context)).1
  = Value [ Value (Fixture.response_of [("key4", Fixture.key_not_found)]);
            Failed Fixture.deadline_exceeded ]
  ∧
  (ShardedLookup.GetKeyValueSet Fixture.s1_local 2 0 Fixture.s3_manager
     Fixture.test_sharder Fixture.wire_SerializeAsString Fixture.stale_padding Fixture.test_context
     Fixture.s1_keys).1
  = Failed Fixture.deadline_exceeded.
Proof. split; vm_compute; reflexivity. Qed.

(** The theorem above at scenario S3, for the single-valued and for the
    set-valued lookup. *)
Lemma shard_failure_handling_witness :
  (∃ response,
     (ShardedLookup.GetKeyValues Fixture.s1_local 2 0 Fixture.s3_manager
        Fixture.test_sharder Fixture.wire_SerializeAsString Fixture.stale_padding
        Fixture.test_context Fixture.s1_keys).1 = Value response ∧
     kv_pairs response !! "key1"
     = Some (kStatus {| rpc_code := 13; rpc_message := "Data lookup failed" |}) ∧
     kv_pairs response !! "key4" = Some (kValue "value4"))
  ∧
  (∃ e,
     (ShardedLookup.GetKeyValueSets Fixture.s1_local 2 0 Fixture.s3_manager
        Fixture.test_sharder Fixture.wire_SerializeAsString Fixture.stale_padding elem_string
        Fixture.test_context Fixture.s1_keys).1 = Failed e).
Proof.
  destruct (shard_failure_handling Fixture.s1_local 2 0 Fixture.s3_manager
              Fixture.test_sharder Fixture.wire_SerializeAsString Fixture.stale_padding
              Fixture.test_context Fixture.s1_keys ltac:(lia)) as [H1 H2].
  split.
  - destruct (H1 [ Value (Fixture.response_of [("key4", kValue "value4")]);
                   Failed Fixture.deadline_exceeded ] eq_refl)
      as (response & Hr & Hk).
    exists response. split; [done|]. split.
    + by apply (proj1 (Hk 1%nat
                  {| sli_keys := ["key1"];
                     serialized_request :=
                       Fixture.wire_SerializeAsString
                         (ShardedLookup.bucket_request Fixture.test_context false
                            {| sli_keys := ["key1"]; serialized_request := "";
                               padding := Fixture.stale_padding |});
                     padding := 0 |} "key1" eq_refl ltac:(left))
                  Fixture.deadline_exceeded).
    + by apply (proj2 (Hk 0%nat
                  {| sli_keys := ["key4"];
                     serialized_request :=
                       Fixture.wire_SerializeAsString
                         (ShardedLookup.bucket_request Fixture.test_context false
                            {| sli_keys := ["key4"]; serialized_request := "";
                               padding := Fixture.stale_padding |});
                     padding := 0 |} "key4" eq_refl ltac:(left))
                  (Fixture.response_of [("key4", kValue "value4")])).
  - destruct (H2 elem_string
                [ Value (Fixture.response_of [("key4", Fixture.key_not_found)]);
                  Failed Fixture.deadline_exceeded ]
                Fixture.deadline_exceeded) as (e & _ & He).
    + set_solver.
    + vm_compute. reflexivity.
    + right. left.
    + by exists e.
Defined.

(** ** Missing clients, empty inputs, queries *)

Section Dispatch.

Context (local_lookup_ : Lookup)
        (num_shards_ current_shard_num_ : Z)
        (shard_manager_ : ShardManager)
        (key_sharder_ : KeySharder).
Context (SerializeAsString : InternalLookupRequest → string).
Context (indeterminate_padding : Z).

Abbreviation ShardKeys :=
  (ShardedLookup.ShardKeys num_shards_ key_sharder_ SerializeAsString
     indeterminate_padding).
Abbreviation GetLookupFutures_from :=
  (ShardedLookup.GetLookupFutures_from current_shard_num_ shard_manager_).
Abbreviation GetLookupFutures :=
  (ShardedLookup.GetLookupFutures current_shard_num_ shard_manager_).
Abbreviation GetKeyValueSets :=
  (ShardedLookup.GetKeyValueSets local_lookup_ num_shards_
     current_shard_num_ shard_manager_ key_sharder_ SerializeAsString
     indeterminate_padding).
Abbreviation GetKeyValues :=
  (ShardedLookup.GetKeyValues local_lookup_ num_shards_
     current_shard_num_ shard_manager_ key_sharder_ SerializeAsString
     indeterminate_padding).
Abbreviation GetKeyValueSet :=
  (ShardedLookup.GetKeyValueSet local_lookup_ num_shards_
     current_shard_num_ shard_manager_ key_sharder_ SerializeAsString
     indeterminate_padding).
Abbreviation GetUInt32ValueSet :=
  (ShardedLookup.GetUInt32ValueSet local_lookup_ num_shards_
     current_shard_num_ shard_manager_ key_sharder_ SerializeAsString
     indeterminate_padding).
Abbreviation RunQuery :=
  (ShardedLookup.RunQuery local_lookup_ num_shards_
     current_shard_num_ shard_manager_ key_sharder_ SerializeAsString
     indeterminate_padding).

(** The fan-out loop fails as soon as one of the remote shards it visits has
    no client. *)
Lemma GetLookupFutures_from_missing request_context first inputs
    get_local_future (missing : Z) :
  first ≤ missing < first + Z.of_nat (length inputs) →
  missing ≠ current_shard_num_ →
  Get shard_manager_ missing = None →
  (GetLookupFutures_from request_context first inputs get_local_future).1
  = Failed client_unavailable.
Proof.
  revert first. induction inputs as [|li inputs IH]; intros first Hr Hne Hg.
  - simpl in Hr. lia.
  - cbn [ShardedLookup.GetLookupFutures_from]. rewrite bind_fst.
    assert (Hrec : first ≠ missing →
              (GetLookupFutures_from request_context (first + 1) inputs
                 get_local_future).1 = Failed client_unavailable).
    { intros ?. apply IH; [|done..]. simpl in Hr. lia. }
    destruct (decide (first = current_shard_num_)) as [->|Hremote].
    + rewrite !bind_fst, Hrec by done. done.
    + rewrite bind_fst.
      destruct (Get shard_manager_ first) as [client|] eqn:Hc.
      * assert (first ≠ missing) by congruence.
        rewrite !bind_fst, Hrec by done. done.
      * by rewrite bind_fst.
Qed.

Lemma GetLookupFutures_missing request_context keys lookup_sets
    get_local_future (missing : Z) :
  0 ≤ missing < num_shards_ →
  missing ≠ current_shard_num_ →
  Get shard_manager_ missing = None →
  (GetLookupFutures request_context
     (ShardKeys request_context keys lookup_sets) get_local_future).1
  = Failed client_unavailable.
Proof.
  intros Hr Hne Hg. unfold ShardedLookup.GetLookupFutures.
  apply (GetLookupFutures_from_missing _ _ _ _ missing); [|done..].
  rewrite ShardKeys_length. lia.
Qed.

(** C6 (amended).  For every sharded lookup ([GetKeyValues],
    [GetKeyValueSet], [GetUInt32ValueSet]) over a non-empty key set: if the
    shard manager has no client for some remote shard (a shard number in
    [0, num_shards_) other than the engine's own), the request fails with the
    request-level error [Internal] whose message is
    "Internal lookup client is unavailable.", and no response is produced. *)
Theorem missing_client_fails_request request_context keys (missing : Z) :
  keys ≠ ∅ →
  0 ≤ missing < num_shards_ →
  missing ≠ current_shard_num_ →
  Get shard_manager_ missing = None →
  (GetKeyValues request_context keys).1
  = Failed {| code := kInternal;
              message := "Internal lookup client is unavailable." |} ∧
  (GetKeyValueSet request_context keys).1
  = Failed {| code := kInternal;
              message := "Internal lookup client is unavailable." |} ∧
  (GetUInt32ValueSet request_context keys).1
  = Failed {| code := kInternal;
              message := "Internal lookup client is unavailable." |}.
Proof.
  intros Hk Hr Hne Hg.
  assert (Hsets : ∀ t,
            (GetKeyValueSets t request_context keys).1
            = Failed client_unavailable).
  { intros t. unfold ShardedLookup.GetKeyValueSets.
    rewrite with_latency_fst.
    destruct (decide (keys = ∅)) as [?|_]; [done|].
    rewrite bind_fst. unfold ShardedLookup.GetShardedKeyValueSet.
    rewrite bind_fst.
    rewrite (GetLookupFutures_missing _ _ _ _ missing) by done.
    by rewrite !bind_fst. }
  split; [|split]; [|apply (Hsets elem_string)|apply (Hsets elem_uint32)].
  unfold ShardedLookup.GetKeyValues. rewrite with_latency_fst.
  unfold ShardedLookup.ProcessShardedKeys.
  destruct (decide (keys = ∅)) as [?|_]; [done|].
  rewrite bind_fst.
  by rewrite (GetLookupFutures_missing _ _ _ _ missing) by done.
Qed.

(** C10.  For the empty key set each of [GetKeyValues], [GetKeyValueSet] and
    [GetUInt32ValueSet] returns a successful empty response at once: the
    only action is the latency report of the scope, so nothing is bucketed
    or serialized and the shard manager is not consulted.  This holds for
    every shard manager, hence also when no shard has a client. *)
Theorem empty_key_set_returns_empty request_context :
  GetKeyValues request_context ∅
  = (Value {| kv_pairs := ∅ |},
     [RecordLatency kShardedLookupGetKeyValuesLatencyInMicros]) ∧
  GetKeyValueSet request_context ∅
  = (Value {| kv_pairs := ∅ |},
     [RecordLatency kShardedLookupGetKeyValueSetLatencyInMicros]) ∧
  GetUInt32ValueSet request_context ∅
  = (Value {| kv_pairs := ∅ |},
     [RecordLatency kShardedLookupGetKeyValueSetLatencyInMicros]).
Proof.
  unfold ShardedLookup.GetKeyValues, ShardedLookup.GetKeyValueSet,
    ShardedLookup.GetUInt32ValueSet, ShardedLookup.GetKeyValueSets,
    ShardedLookup.ProcessShardedKeys.
  by rewrite !decide_True.
Qed.

(** C7.  [RunQuery] on the empty query string returns a successful empty
    result; it reports the metric [kShardedRunQueryEmptyQuery] (and its
    latency) and does nothing else, so no shard is touched.  On a non-empty
    query string that the parser rejects it returns
    [InvalidArgument "Parsing failure."]; it reports
    [kShardedRunQueryParsingFailure] (and its latency) and performs no
    lookup. *)
Theorem RunQuery_empty_or_invalid (driver : Driver) request_context :
  RunQuery driver request_context ""
  = (Value {| elements_ := [] |},
     [ LogUdfRequestErrorMetric kShardedRunQueryEmptyQuery;
       RecordLatency kShardedLookupRunQueryLatencyInMicros ]) ∧
  ∀ query,
    query ≠ "" →
    Parse driver query = None →
    RunQuery driver request_context query
    = (Failed {| code := kInvalidArgument; message := "Parsing failure." |},
       [ LogUdfRequestErrorMetric kShardedRunQueryParsingFailure;
         RecordLatency kShardedLookupRunQueryLatencyInMicros ]).
Proof.
  split.
  - reflexivity.
  - intros query Hq Hp. unfold ShardedLookup.RunQuery.
    rewrite decide_False by done. by rewrite Hp.
Qed.

End Dispatch.

(** C9.  [RunSetQueryInt] hands [absl::OkStatus()] to the constructor of
    [StatusOr<InternalRunSetQueryIntResponse>]; for every query the caller
    therefore receives the status [Internal] with the message of
    [kInvalidStatusCtorArg], not an OK result. *)
Theorem RunSetQueryInt_returns_internal_error request_context query :
  ShardedLookup.RunSetQueryInt request_context query
  = (Failed
       {| code := kInternal;
          message :=
            "An OK status is not a valid constructor argument to StatusOr<T>" |},
     []) ∧
  ok (ShardedLookup.RunSetQueryInt request_context query).1 = false.
Proof. split; reflexivity. Qed.

(** Scenario S7: the query [(A & B) - C] over [A = {1,2,3}], [B = {2,3,4}],
    [C = {3}] yields [{2}]. *)
Example RunQuery_scenario_S7 :
  (ShardedLookup.RunQuery Query.s7_local 2 0 Fixture.s1_manager
     Query.s7_sharder Fixture.wire_SerializeAsString Fixture.stale_padding Query.driver
     Fixture.test_context "(A & B) - C").1
  = Value {| elements_ := ["2"] |}.
Proof. vm_compute. reflexivity. Qed.

(** The theorem above with the scenario driver: the empty query, and a query
    that ends in an operator. *)
Lemma RunQuery_empty_or_invalid_witness :
  ShardedLookup.RunQuery Fixture.s1_local 2 0 Fixture.no_client_manager
    Fixture.test_sharder Fixture.wire_SerializeAsString Fixture.stale_padding Query.driver
    Fixture.test_context ""
  = (Value {| elements_ := [] |},
     [ LogUdfRequestErrorMetric kShardedRunQueryEmptyQuery;
       RecordLatency kShardedLookupRunQueryLatencyInMicros ]) ∧
  ShardedLookup.RunQuery Fixture.s1_local 2 0 Fixture.no_client_manager
    Fixture.test_sharder Fixture.wire_SerializeAsString Fixture.stale_padding Query.driver
    Fixture.test_context "(A & B) - "
  = (Failed {| code := kInvalidArgument; message := "Parsing failure." |},
     [ LogUdfRequestErrorMetric kShardedRunQueryParsingFailure;
       RecordLatency kShardedLookupRunQueryLatencyInMicros ]).
Proof.
  destruct (RunQuery_empty_or_invalid Fixture.s1_local 2 0
              Fixture.no_client_manager Fixture.test_sharder
              Fixture.wire_SerializeAsString Fixture.stale_padding Query.driver
              Fixture.test_context) as [Hempty Hinvalid].
  split; [exact Hempty|].
  apply Hinvalid; [discriminate|reflexivity].
Defined.

(** C6 as stated fails on the message: with no client for the peer shard the
    request fails with code [Internal], but the message of the error is not
    "lookup client unavailable". *)
Lemma missing_client_message_differs :
  ∃ e,
    (ShardedLookup.GetKeyValues Fixture.s1_local 2 0 Fixture.no_peer_manager
       Fixture.test_sharder Fixture.wire_SerializeAsString Fixture.stale_padding
       Fixture.test_context Fixture.s1_keys).1 = Failed e ∧
    code e = kInternal ∧
    message e = "Internal lookup client is unavailable." ∧
    message e ≠ "lookup client unavailable".
Proof.
  exists client_unavailable. split; [vm_compute; reflexivity|].
  split; [done|]. split; [done|]. discriminate.
Qed.

(** The theorem above at scenario S1 without a client for shard 1. *)
Lemma missing_client_fails_request_witness :
  (ShardedLookup.GetKeyValues Fixture.s1_local 2 0 Fixture.no_peer_manager
     Fixture.test_sharder Fixture.wire_SerializeAsString Fixture.stale_padding
     Fixture.test_context Fixture.s1_keys).1
  = Failed {| code := kInternal;
              message := "Internal lookup client is unavailable." |} ∧
  (ShardedLookup.GetKeyValueSet Fixture.s1_local 2 0 Fixture.no_peer_manager
     Fixture.test_sharder Fixture.wire_SerializeAsString Fixture.stale_padding
     Fixture.test_context Fixture.s1_keys).1
  = Failed {| code := kInternal;
              message := "Internal lookup client is unavailable." |} ∧
  (ShardedLookup.GetUInt32ValueSet Fixture.s1_local 2 0 Fixture.no_peer_manager
     Fixture.test_sharder Fixture.wire_SerializeAsString Fixture.stale_padding
     Fixture.test_context Fixture.s1_keys).1
  = Failed {| code := kInternal;
              message := "Internal lookup client is unavailable." |}.
Proof.
  apply (missing_client_fails_request Fixture.s1_local 2 0
           Fixture.no_peer_manager Fixture.test_sharder
           Fixture.wire_SerializeAsString Fixture.stale_padding Fixture.test_context
           Fixture.s1_keys 1).
  - set_solver.
  - lia.
  - lia.
  - reflexivity.
Defined.

(** ** Properties of the request handler *)

Section HandlerProperties.

Import GetValuesV2Handler.

Context (ExecuteCode :
           UDFExecutionMetadata → list UDFArgument → StatusOr string).

Abbreviation partition_output :=
  (GetValuesV2Handler.partition_output ExecuteCode).
Abbreviation partition_fails :=
  (GetValuesV2Handler.partition_fails ExecuteCode).
Abbreviation group_outputs := (GetValuesV2Handler.group_outputs ExecuteCode).

Lemma group_fold_lookup (request : GetValuesRequest)
    (l : list RequestPartition) (group_id : Z) :
  foldl (add_partition_output ExecuteCode (metadata request)) ∅ l !! group_id
  = match omap (λ p, if decide (compression_group_id p = group_id)
                     then partition_output request p else None) l with
    | [] => None
    | outputs => Some outputs
    end.
Proof.
  induction l as [|p l IH] using rev_ind; [done|].
  rewrite foldl_app, omap_app. simpl.
  set (m := foldl (add_partition_output ExecuteCode (metadata request)) ∅ l)
    in *.
  unfold add_partition_output, ProcessOnePartition, partition_output at 2.
  destruct (ExecuteCode _ (arguments p)) as [output|e]; simpl.
  - destruct (decide (compression_group_id p = group_id)) as [->|Hne].
    + rewrite lookup_insert_eq, IH.
      by destruct (omap _ l).
    + rewrite lookup_insert_ne, IH by done. by rewrite app_nil_r.
  - rewrite IH. destruct (decide _); by rewrite app_nil_r.
Qed.

Lemma group_partition_outputs_lookup (request : GetValuesRequest)
    (group_id : Z) (outputs : list string) :
  group_partition_outputs ExecuteCode request !! group_id = Some outputs
  ↔ group_outputs request group_id ≠ [] ∧
    outputs = group_outputs request group_id.
Proof.
  unfold group_partition_outputs, group_outputs.
  rewrite group_fold_lookup.
  destruct (omap _ (partitions request)) as [|o os]; split.
  - done.
  - by intros [? _].
  - by intros [= <-].
  - by intros [_ ->].
Qed.

Lemma group_outputs_nonempty (request : GetValuesRequest) :
  (∃ group_id, group_outputs request group_id ≠ [])
  ↔ ∃ p, p ∈ partitions request ∧ ¬ partition_fails request p.
Proof.
  unfold group_outputs, partition_fails. split.
  - intros (g & Hg).
    destruct (omap _ (partitions request)) as [|o os] eqn:E; [done|].
    assert (Ho : o ∈ omap
                   (λ p, if decide (compression_group_id p = g)
                         then partition_output request p else None)
                   (partitions request)) by (rewrite E; left).
    apply list_elem_of_omap in Ho as (p & Hp & Hout).
    exists p. split; [done|]. destruct (decide _); congruence.
  - intros (p & Hp & Hok).
    exists (compression_group_id p).
    destruct (partition_output request p) as [o|] eqn:E; [|done].
    intros Hnil.
    assert (Ho : o ∈ omap
                   (λ p0, if decide (compression_group_id p0
                                     = compression_group_id p)
                          then partition_output request p0 else None)
                   (partitions request)).
    { apply list_elem_of_omap. exists p. split; [done|].
      by rewrite decide_True. }
    rewrite Hnil in Ho. by apply elem_of_nil in Ho.
Qed.



Lemma ProcessMultiplePartitions_status (request : GetValuesRequest) :
  ((ProcessMultiplePartitions ExecuteCode request).1 = OkStatus
   ∧ ∃ p, p ∈ partitions request ∧ ¬ partition_fails request p)
  ∨ ((ProcessMultiplePartitions ExecuteCode request).1 = InvalidArgumentError ""
     ∧ (ProcessMultiplePartitions ExecuteCode request).2 = []
     ∧ ∀ p, p ∈ partitions request → partition_fails request p).
Proof.
  unfold ProcessMultiplePartitions.
  destruct (map_to_list (group_partition_outputs ExecuteCode request))
    as [|[g outs] l] eqn:E; simpl.
  - right. split; [done|]. split; [done|].
    apply map_to_list_empty_iff in E.
    intros p Hp.
    destruct (decide (partition_fails request p)) as [|Hok]; [done|].
    exfalso.
    destruct (proj2 (group_outputs_nonempty request)) as (g & Hg);
      [by exists p|].
    assert (Hl : group_partition_outputs ExecuteCode request !! g
                 = Some (group_outputs request g))
      by (by apply group_partition_outputs_lookup).
    by rewrite E, lookup_empty in Hl.
  - left. split; [done|].
    apply group_outputs_nonempty. exists g.
    assert (Hin : (g, outs)
                  ∈ map_to_list (group_partition_outputs ExecuteCode request))
      by (rewrite E; left).
    apply elem_of_map_to_list, group_partition_outputs_lookup in Hin.
    tauto.
Qed.


(** C4 (amended).  [GetValues] returns a request-level error in exactly two
    cases.  A request without partitions is rejected with code [Internal].
    On the multi-partition path the request fails if and only if every
    partition fails, and then the single aggregate error has code
    [InvalidArgument] (3) and the response is empty; whenever at least one
    partition succeeds the request returns successfully, with compression
    groups.  On the single-partition path the request returns successfully
    even when its partition fails: the result of the partition, be it the
    output or the status with code [Internal] (13) and the UDF's message, is
    returned in [single_partition]. *)
Theorem GetValues_request_level_error (request : GetValuesRequest) :
  (partitions request = [] →
   ∀ single_partition_use_case,
     GetValues ExecuteCode request single_partition_use_case
     = (InternalError "no partition", empty_GetValuesResponse)) ∧
  ((GetValues ExecuteCode request false).1 ≠ OkStatus
   ↔ ∀ p, p ∈ partitions request → partition_fails request p) ∧
  (partitions request ≠ [] →
   (∀ p, p ∈ partitions request → partition_fails request p) →
   ∃ e, GetValues ExecuteCode request false
        = (NotOk e, empty_GetValuesResponse) ∧
        code e = kInvalidArgument) ∧
  ((GetValues ExecuteCode request false).1 = OkStatus →
   single_partition (GetValues ExecuteCode request false).2 = None ∧
   compression_groups (GetValues ExecuteCode request false).2 ≠ []) ∧
  (∀ p ps,
     partitions request = p :: ps →
     (GetValues ExecuteCode request true).1 = OkStatus ∧
     compression_groups (GetValues ExecuteCode request true).2 = [] ∧
     ∃ resp_partition,
       single_partition (GetValues ExecuteCode request true).2
       = Some resp_partition ∧
       rp_id resp_partition = id p ∧
       match ExecuteCode
               {| request_metadata := metadata request;
                  udf_partition_metadata := partition_metadata p |}
               (arguments p) with
       | Value output => output_type resp_partition = string_output output
       | Failed e =>
           output_type resp_partition
           = status_output {| rpc_code := 13; rpc_message := message e |}
       end).
Proof.
  split; [|split; [|split; [|split]]].
  - intros Hp single. unfold GetValues. by rewrite Hp.
  - unfold GetValues.
    destruct (partitions request) as [|p0 ps] eqn:Hp.
    + simpl. split; [|done]. by intros _ p ?%elem_of_nil.
    + rewrite <- Hp.
      pose proof (ProcessMultiplePartitions_status request) as Hs.
      destruct (ProcessMultiplePartitions ExecuteCode request)
        as [status groups].
      simpl in *. destruct Hs as [[-> (p & Hin & Hok)]|(-> & _ & Hall)].
      * split; [done|]. intros Hall. by destruct Hok; apply Hall.
      * done.
  - intros Hne Hall. unfold GetValues.
    destruct (partitions request) as [|p0 ps] eqn:Hp; [done|].
    rewrite <- Hp in Hall.
    pose proof (ProcessMultiplePartitions_status request) as Hs.
    destruct (ProcessMultiplePartitions ExecuteCode request)
      as [status groups].
    simpl in *. destruct Hs as [[-> (p & Hin & Hok)]|(-> & -> & _)].
    + by destruct Hok; apply Hall.
    + by eexists.
  - unfold GetValues.
    destruct (partitions request) as [|p0 ps] eqn:Hp; [done|].
    unfold ProcessMultiplePartitions. cbv zeta.
    by destruct (_ <$> map_to_list _).
  - intros p ps Hp. unfold GetValues. rewrite Hp.
    unfold ProcessOnePartition.
    destruct (ExecuteCode _ (arguments p)) as [output|e]; simpl.
    + split; [done|]. split; [done|]. by eexists.
    + split; [done|]. split; [done|]. by eexists.
Qed.

End HandlerProperties.

(** Scenario S5 ([SinglePartitionUDFFails_IgnorePartition]): the third of
    three partitions fails; both compression groups are emitted and the
    failed partition is missing from the content of group 0.  (The order of
    the groups in the response is that of the map's iteration.) *)
Example GetValues_scenario_S5 :
  GetValuesV2Handler.GetValues
    (GetValuesV2Handler.test_udf [[GetValuesV2Handler.arg3]])
    GetValuesV2Handler.multiple_partitions_request false
  = (OkStatus,
     {| GetValuesV2Handler.single_partition := None;
        GetValuesV2Handler.compression_groups :=
          [ {| GetValuesV2Handler.cg_compression_group_id := 1;
               GetValuesV2Handler.content :=
                 GetValuesV2Handler.json_array
                   [ GetValuesV2Handler.test_output
                       [GetValuesV2Handler.arg2] ] |};
            {| GetValuesV2Handler.cg_compression_group_id := 0;
               GetValuesV2Handler.content :=
                 GetValuesV2Handler.json_array
                   [ GetValuesV2Handler.test_output
                       [GetValuesV2Handler.arg1] ] |} ] |}).
Proof. vm_compute. reflexivity. Qed.

(** C4 as stated fails in two respects.  On the single-partition path
    ([UdfFailureForOnePartition]) every partition of the request fails, yet
    the request returns successfully with the failure in
    [single_partition.status].  And when every partition of a
    multi-partition request fails (scenario S6,
    [AllPartitionsFail_ReturnError]) the code of the aggregate error is 3
    ([InvalidArgument]), not [Internal]. *)
Lemma GetValues_failure_not_as_claimed :
  (∀ p,
     p ∈ GetValuesV2Handler.partitions GetValuesV2Handler.one_partition_request →
     GetValuesV2Handler.partition_fails (GetValuesV2Handler.test_udf [[]])
       GetValuesV2Handler.one_partition_request p) ∧
  GetValuesV2Handler.GetValues (GetValuesV2Handler.test_udf [[]])
    GetValuesV2Handler.one_partition_request
    (GetValuesV2Handler.IsSinglePartitionUseCase
       GetValuesV2Handler.one_partition_request)
  = (OkStatus,
     {| GetValuesV2Handler.single_partition :=
          Some {| GetValuesV2Handler.rp_id := 0;
                  GetValuesV2Handler.output_type :=
                    GetValuesV2Handler.status_output
                      {| rpc_code := 13;
                         rpc_message := "UDF execution error" |} |};
        GetValuesV2Handler.compression_groups := [] |}) ∧
  ∃ e,
    GetValuesV2Handler.GetValues
      (GetValuesV2Handler.test_udf
         [ [GetValuesV2Handler.arg1]; [GetValuesV2Handler.arg2];
           [GetValuesV2Handler.arg3] ])
      GetValuesV2Handler.multiple_partitions_request false
    = (NotOk e, GetValuesV2Handler.empty_GetValuesResponse) ∧
    raw_code (code e) = 3 ∧
    code e ≠ kInternal.
Proof.
  split; [|split].
  - intros p Hp. apply list_elem_of_singleton in Hp as ->. reflexivity.
  - vm_compute. reflexivity.
  - eexists. split; [vm_compute; reflexivity|]. split; [done|discriminate].
Qed.

(** The theorem above at the requests of the tests: scenario S6 (every
    partition fails) ends in the aggregate error, scenario S5 (one of three
    partitions fails) does not, and the failed partition of
    [UdfFailureForOnePartition] is returned with the message of the UDF. *)
Lemma GetValues_request_level_error_witness :
  (∃ e,
     GetValuesV2Handler.GetValues
       (GetValuesV2Handler.test_udf
          [ [GetValuesV2Handler.arg1]; [GetValuesV2Handler.arg2];
            [GetValuesV2Handler.arg3] ])
       GetValuesV2Handler.multiple_partitions_request false
     = (NotOk e, GetValuesV2Handler.empty_GetValuesResponse) ∧
     code e = kInvalidArgument) ∧
  (GetValuesV2Handler.GetValues
     (GetValuesV2Handler.test_udf [[GetValuesV2Handler.arg3]])
     GetValuesV2Handler.multiple_partitions_request false).1 = OkStatus ∧
  (∃ resp_partition,
     GetValuesV2Handler.single_partition
       (GetValuesV2Handler.GetValues (GetValuesV2Handler.test_udf [[]])
          GetValuesV2Handler.one_partition_request true).2
     = Some resp_partition ∧
     GetValuesV2Handler.output_type resp_partition
     = GetValuesV2Handler.status_output
         {| rpc_code := 13; rpc_message := "UDF execution error" |}).
Proof.
  split; [|split].
  - apply (GetValues_request_level_error
             (GetValuesV2Handler.test_udf
                [ [GetValuesV2Handler.arg1]; [GetValuesV2Handler.arg2];
                  [GetValuesV2Handler.arg3] ])
             GetValuesV2Handler.multiple_partitions_request).
    + discriminate.
    + intros p Hp.
      repeat (apply elem_of_cons in Hp as [->|Hp]; [reflexivity|]).
      by apply elem_of_nil in Hp.
  - destruct (GetValues_request_level_error
                (GetValuesV2Handler.test_udf [[GetValuesV2Handler.arg3]])
                GetValuesV2Handler.multiple_partitions_request)
      as (_ & [Herr _] & _).
    destruct (GetValuesV2Handler.GetValues _ _ false).1 as [|e]; [done|].
    specialize (Herr ltac:(discriminate)
                  {| GetValuesV2Handler.id := 0;
                     GetValuesV2Handler.compression_group_id := 0;
                     GetValuesV2Handler.arguments := [GetValuesV2Handler.arg1];
                     GetValuesV2Handler.partition_metadata := ∅ |}
                  ltac:(left)).
    discriminate Herr.
  - destruct (GetValues_request_level_error (GetValuesV2Handler.test_udf [[]])
                GetValuesV2Handler.one_partition_request)
      as (_ & _ & _ & _ & Hsingle).
    destruct (Hsingle _ _ eq_refl) as (_ & _ & resp_partition & Hr & _ & Ho).
    exists resp_partition. split; [exact Hr|exact Ho].
Defined.

(** [GetValuesHandlerMultiplePartitionsTest.Success]: group 0 holds the
    outputs of partitions 0 and 2, in request order. *)
Example GetValues_scenario_success :
  GetValuesV2Handler.GetValues (GetValuesV2Handler.test_udf [])
    GetValuesV2Handler.multiple_partitions_request false
  = (OkStatus,
     {| GetValuesV2Handler.single_partition := None;
        GetValuesV2Handler.compression_groups :=
          [ {| GetValuesV2Handler.cg_compression_group_id := 1;
               GetValuesV2Handler.content :=
                 GetValuesV2Handler.json_array
                   [ GetValuesV2Handler.test_output
                       [GetValuesV2Handler.arg2] ] |};
            {| GetValuesV2Handler.cg_compression_group_id := 0;
               GetValuesV2Handler.content :=
                 GetValuesV2Handler.json_array
                   [ GetValuesV2Handler.test_output
                       [GetValuesV2Handler.arg1];
                     GetValuesV2Handler.test_output
                       [GetValuesV2Handler.arg3] ] |} ] |}).
Proof. vm_compute. reflexivity. Qed.

(** ** Properties of the OHTTP envelope *)

Section OhttpOrder.

Context {ObliviousHttpClient ClientContext ObliviousHttpResponse : Type}.
Context {ObliviousHttpGateway ServerContext : Type}.
Context (DecryptObliviousHttpResponse :
           ObliviousHttpClient → string → ClientContext →
           StatusOr ObliviousHttpResponse).
Context (CreateObliviousHttpResponse :
           ObliviousHttpGateway → string → ServerContext → StatusOr string).

Context (CreateClient : StatusOr ObliviousHttpClient)
        (CreateObliviousHttpRequest :
           ObliviousHttpClient → string → StatusOr (string * ClientContext)).
Context (CreateGateway : StatusOr ObliviousHttpGateway)
        (DecryptObliviousHttpRequest :
           ObliviousHttpGateway → string → StatusOr (string * ServerContext)).

(** After a successful [EncryptRequest] the response is handed to the
    library together with the retained client and context. *)
Lemma DecryptResponse_after_EncryptRequest (this : Ohttp.OhttpClientEncryptor)
    (payload encrypted response : string) this' :
  Ohttp.EncryptRequest CreateClient CreateObliviousHttpRequest this payload
  = (Value encrypted, this') →
  ∃ client context,
    CreateClient = Value client ∧
    CreateObliviousHttpRequest client payload = Value (encrypted, context) ∧
    Ohttp.DecryptResponse DecryptObliviousHttpResponse this' response
    = (DecryptObliviousHttpResponse client response context, this').
Proof.
  unfold Ohttp.EncryptRequest.
  destruct CreateClient as [client|e]; [|done].
  destruct (CreateObliviousHttpRequest client payload)
    as [[serialized context]|e] eqn:E; [|done].
  intros [= <- <-]. by exists client, context.
Qed.

(** After a successful [DecryptRequest] the response is sealed by the
    library with the retained gateway and context. *)
Lemma EncryptResponse_after_DecryptRequest (this : Ohttp.OhttpServerEncryptor)
    (encrypted plaintext response : string) this' :
  Ohttp.DecryptRequest CreateGateway DecryptObliviousHttpRequest this encrypted
  = (Value plaintext, this') →
  ∃ gateway context,
    CreateGateway = Value gateway ∧
    DecryptObliviousHttpRequest gateway encrypted = Value (plaintext, context) ∧
    Ohttp.EncryptResponse CreateObliviousHttpResponse this' response
    = (CreateObliviousHttpResponse gateway response context, this').
Proof.
  unfold Ohttp.DecryptRequest.
  destruct CreateGateway as [gateway|e]; [|done].
  destruct (DecryptObliviousHttpRequest gateway encrypted)
    as [[text context]|e] eqn:E; [|done].
  intros [= <- <-]. by exists gateway, context.
Qed.

(** C8.  On a client encryptor on which [EncryptRequest] has not been
    called, [DecryptResponse] fails, for every payload, with the fixed
    message "Emtpy `http_client_` or `http_request_context_`. You should
    call `ClientEncryptRequest` first"; on a server encryptor on which
    [DecryptRequest] has not been called, [EncryptResponse] fails with the
    fixed message "Emtpy `ohttp_gateway_` or `decrypted_request_`. You
    should call `ServerDecryptRequest` first".  Both errors have the code
    [Internal], and the encryptor is left as it was. *)
Theorem response_before_request_fails (payload : string) :
  Ohttp.DecryptResponse DecryptObliviousHttpResponse Ohttp.new_client payload
  = (Failed
       {| code := kInternal;
          message :=
            "Emtpy `http_client_` or `http_request_context_`. You should call `ClientEncryptRequest` first" |},
     Ohttp.new_client) ∧
  Ohttp.EncryptResponse CreateObliviousHttpResponse Ohttp.new_server payload
  = (Failed
       {| code := kInternal;
          message :=
            "Emtpy `ohttp_gateway_` or `decrypted_request_`. You should call `ServerDecryptRequest` first" |},
     Ohttp.new_server).
Proof. split; reflexivity. Qed.

End OhttpOrder.

(** ** Placement of keys in buckets *)

Lemma alter_fmap_seq {A} (g : A → A) (F : nat → A) (i n : nat) :
  alter g i (F <$> seq 0 n)
  = (λ j, if decide (j = i) then g (F j) else F j) <$> seq 0 n.
Proof.
  apply list_eq. intros j. destruct (decide (j = i)) as [->|Hne].
  - rewrite list_lookup_alter_eq, !list_lookup_fmap.
    destruct (seq 0 n !! i) as [x|] eqn:E; simpl; [|done].
    apply lookup_seq in E as [-> _]. simpl. by rewrite decide_True.
  - rewrite list_lookup_alter_ne by done. rewrite !list_lookup_fmap.
    destruct (seq 0 n !! j) as [x|] eqn:E; simpl; [|done].
    apply lookup_seq in E as [-> _]. simpl. by rewrite decide_False.
Qed.

Lemma replicate_fmap_seq {A} (x : A) (n : nat) :
  replicate n x = (λ _, x) <$> seq 0 n.
Proof.
  apply list_eq. intros j. rewrite list_lookup_fmap.
  destruct (decide (j < n)%nat) as [Hlt|Hge].
  - rewrite lookup_replicate_2 by done.
    by rewrite (lookup_seq_lt _ _ _ Hlt).
  - rewrite (proj1 (lookup_replicate_None _ _ _)) by lia.
    by rewrite lookup_seq_ge by lia.
Qed.

Section Placement.

Context (num_shards_ : Z) (key_sharder_ : KeySharder).
Context (SerializeAsString : InternalLookupRequest → string).
Context (indeterminate_padding : Z).

Abbreviation BucketKeys :=
  (ShardedLookup.BucketKeys num_shards_ key_sharder_ indeterminate_padding).
Abbreviation ShardKeys :=
  (ShardedLookup.ShardKeys num_shards_ key_sharder_ SerializeAsString
     indeterminate_padding).

Lemma bucket_fold_by_shard (l : list string) (pre : nat → list string)
    (n : nat) (p : Z) :
  foldl
    (λ lookup_inputs key,
       alter (add_key key)
         (Z.to_nat (shard_num (GetShardNumForKey key_sharder_ key num_shards_)))
         lookup_inputs)
    ((λ i, {| sli_keys := pre i; serialized_request := ""; padding := p |})
       <$> seq 0 n)
    l
  = (λ i, {| sli_keys := pre i ++ keys_of_shard key_sharder_ num_shards_ i l;
             serialized_request := ""; padding := p |}) <$> seq 0 n.
Proof.
  revert pre. induction l as [|k l IH]; intros pre; cbn [foldl].
  - apply list_fmap_ext. intros i x _. unfold keys_of_shard.
    by rewrite filter_nil, app_nil_r.
  - rewrite alter_fmap_seq.
    set (ik := Z.to_nat (shard_num (GetShardNumForKey key_sharder_ k num_shards_))).
    rewrite (list_fmap_ext _
               (λ i, {| sli_keys := if decide (i = ik) then pre i ++ [k] else pre i;
                        serialized_request := ""; padding := p |}) (seq 0 n)).
    2:{ intros i x _. by destruct (decide (x = ik)). }
    rewrite IH. apply list_fmap_ext. intros i x _. f_equal.
    unfold keys_of_shard. rewrite filter_cons. fold ik.
    destruct (decide (x = ik)) as [->|Hne].
    + rewrite decide_True by done. by rewrite <- app_assoc.
    + by rewrite decide_False by done.
Qed.

(** The buckets in closed form, for any value of the uninitialised
    member. *)
Lemma BucketKeys_closed_form (p : Z) (keys : gset string) :
  ShardedLookup.BucketKeys num_shards_ key_sharder_ p keys
  = (λ i, {| sli_keys := keys_of_shard key_sharder_ num_shards_ i (elements keys);
             serialized_request := ""; padding := p |})
    <$> seq 0 (Z.to_nat num_shards_).
Proof.
  unfold ShardedLookup.BucketKeys. rewrite replicate_fmap_seq.
  apply (bucket_fold_by_shard (elements keys) (λ _, [])).
Qed.

Lemma max_length_of_ext (l1 l2 : list ShardLookupInput) :
  serialized_request <$> l1 = serialized_request <$> l2 →
  ShardedLookup.max_length_of l1 = ShardedLookup.max_length_of l2.
Proof.
  assert (Hfold : ∀ l a,
            foldl
              (λ max_length lookup_input,
                 Z.max max_length
                   (to_int32 (string_size (serialized_request lookup_input))))
              a l
            = foldl (λ max_length s, Z.max max_length (to_int32 (string_size s)))
                a (serialized_request <$> l)).
  { induction l as [|li l IH]; intros a; [done|]. simpl. apply IH. }
  intros H. unfold ShardedLookup.max_length_of. by rewrite !Hfold, H.
Qed.

(** [ShardKeys] in closed form: the uninitialised member does not occur. *)
Lemma ShardKeys_closed_form (p : Z) request_context keys lookup_sets :
  ShardedLookup.ShardKeys num_shards_ key_sharder_ SerializeAsString p
    request_context keys lookup_sets
  = (λ i,
       let key_list := keys_of_shard key_sharder_ num_shards_ i (elements keys) in
       let request :=
         SerializeAsString
           {| keys := key_list;
              lookup_sets := lookup_sets;
              consented_debug_config :=
                GetConsentedDebugConfiguration request_context;
              log_context := GetLogContext request_context |} in
       {| sli_keys := key_list;
          serialized_request := request;
          padding :=
            to_int32
              (to_size_t
                 (to_size_t
                    (ShardedLookup.max_length_of
                       (ShardedLookup.SerializeShardedRequests SerializeAsString
                          request_context
                          (ShardedLookup.BucketKeys num_shards_ key_sharder_ 0
                             keys)
                          lookup_sets))
                  - string_size request)) |})
    <$> seq 0 (Z.to_nat num_shards_).
Proof.
  set (M0 := ShardedLookup.max_length_of
               (ShardedLookup.SerializeShardedRequests SerializeAsString
                  request_context
                  (ShardedLookup.BucketKeys num_shards_ key_sharder_ 0 keys)
                  lookup_sets)).
  assert (HM : ShardedLookup.max_length_of
                 (ShardedLookup.SerializeShardedRequests SerializeAsString
                    request_context
                    (ShardedLookup.BucketKeys num_shards_ key_sharder_ p keys)
                    lookup_sets) = M0).
  { apply max_length_of_ext.
    unfold ShardedLookup.SerializeShardedRequests.
    rewrite !BucketKeys_closed_form, <- !list_fmap_compose.
    by apply list_fmap_ext. }
  unfold ShardedLookup.ShardKeys, ShardedLookup.ComputePadding. cbv zeta.
  rewrite HM. unfold ShardedLookup.SerializeShardedRequests.
  rewrite (BucketKeys_closed_form p), <- !list_fmap_compose.
  by apply list_fmap_ext.
Qed.

(** X1.  [BucketKeys] returns one bucket per shard, and the bucket of shard
    [i] holds exactly the requested keys whose shard number is [i], in the
    iteration order of the key set, with an empty serialized request.  So
    every requested key is in the bucket of its shard and in no other, and
    a shard without keys still has its (empty) bucket.  The member
    [padding] of the buckets is not initialised; [ShardKeys] writes it in
    [ComputePadding] before anything reads it, so whatever it holds, the
    result of [ShardKeys] is the same. *)
Theorem BucketKeys_by_shard (keys : gset string) :
  (λ li, (sli_keys li, serialized_request li)) <$> BucketKeys keys
  = (λ i, (keys_of_shard key_sharder_ num_shards_ i (elements keys),
           EmptyString))
    <$> seq 0 (Z.to_nat num_shards_)
  ∧
  ∀ request_context lookup_sets (other_padding : Z),
    ShardedLookup.ShardKeys num_shards_ key_sharder_ SerializeAsString
      other_padding request_context keys lookup_sets
    = ShardKeys request_context keys lookup_sets.
Proof.
  split.
  - rewrite BucketKeys_closed_form, <- list_fmap_compose.
    by apply list_fmap_ext.
  - intros request_context lookup_sets other_padding.
    by rewrite !ShardKeys_closed_form.
Qed.



End Placement.

(** ** Traces of the fan-out *)

Lemma error_metrics_app t1 t2 :
  error_metrics (t1 ++ t2) = error_metrics t1 ++ error_metrics t2.
Proof. apply omap_app. Qed.

Lemma remote_calls_app t1 t2 :
  remote_calls (t1 ++ t2) = remote_calls t1 ++ remote_calls t2.
Proof. apply omap_app. Qed.


Lemma reports_remote_calls t : Forall is_report t → remote_calls t = [].
Proof.
  induction 1 as [|e t He _ IH]; [done|].
  destruct e; try done; exact IH.
Qed.


Lemma foldM_reports {A B} (f : A → B → M A) (a : A) (l : list B) :
  (∀ a b, Forall is_report (f a b).2) → Forall is_report (foldM f a l).2.
Proof.
  intros Hf. revert a. induction l as [|b l IH]; intros a; simpl.
  - constructor.
  - rewrite bind_snd. apply Forall_app. split; [apply Hf|apply IH].
Qed.

Lemma process_responses_reports inputs responses response :
  Forall is_report
    (ShardedLookup.process_responses inputs responses response).2.
Proof.
  revert responses response.
  induction inputs as [|li inputs IH]; intros [|r responses] response;
    try (simpl; constructor).
  cbn [ShardedLookup.process_responses]. destruct r as [r|e].
  - apply IH.
  - rewrite bind_snd. apply Forall_app. split; [|apply IH].
    repeat constructor.
Qed.

Lemma CollectKeySets_reports t key_sets r :
  Forall is_report (ShardedLookup.CollectKeySets t key_sets r).2.
Proof.
  unfold ShardedLookup.CollectKeySets. apply foldM_reports.
  intros a [k res]. destruct (decide _); [constructor|].
  rewrite bind_snd. destruct (a !! k); repeat constructor.
Qed.

Lemma collect_responses_reports t responses key_sets :
  Forall is_report (ShardedLookup.collect_responses t responses key_sets).2.
Proof.
  revert key_sets. induction responses as [|r responses IH]; intros key_sets.
  - constructor.
  - cbn [ShardedLookup.collect_responses]. destruct r as [r|e].
    + rewrite bind_snd. apply Forall_app. split; [|apply IH].
      apply CollectKeySets_reports.
    + rewrite bind_snd. repeat constructor.
Qed.

Section FanOut.

Context (local_lookup_ : Lookup)
        (num_shards_ current_shard_num_ : Z)
        (shard_manager_ : ShardManager)
        (key_sharder_ : KeySharder).
Context (SerializeAsString : InternalLookupRequest → string).
Context (indeterminate_padding : Z).

Abbreviation ShardKeys :=
  (ShardedLookup.ShardKeys num_shards_ key_sharder_ SerializeAsString
     indeterminate_padding).
Abbreviation GetLocalLookupResponse :=
  (ShardedLookup.GetLocalLookupResponse local_lookup_).
Abbreviation GetLookupFutures_from :=
  (ShardedLookup.GetLookupFutures_from current_shard_num_ shard_manager_).
Abbreviation GetLookupFutures :=
  (ShardedLookup.GetLookupFutures current_shard_num_ shard_manager_).
Abbreviation GetShardedKeyValueSet :=
  (ShardedLookup.GetShardedKeyValueSet local_lookup_ num_shards_
     current_shard_num_ shard_manager_ key_sharder_ SerializeAsString
     indeterminate_padding).
Abbreviation GetKeyValueSets :=
  (ShardedLookup.GetKeyValueSets local_lookup_ num_shards_
     current_shard_num_ shard_manager_ key_sharder_ SerializeAsString
     indeterminate_padding).
Abbreviation GetKeyValues :=
  (ShardedLookup.GetKeyValues local_lookup_ num_shards_
     current_shard_num_ shard_manager_ key_sharder_ SerializeAsString
     indeterminate_padding).
Abbreviation RunQuery :=
  (ShardedLookup.RunQuery local_lookup_ num_shards_
     current_shard_num_ shard_manager_ key_sharder_ SerializeAsString
     indeterminate_padding).

Lemma GetLocalLookupResponse_trace c request_context key_list :
  (GetLocalLookupResponse c request_context key_list).2
  = match key_list with [] => [] | _ => [LocalLookup c key_list] end.
Proof. by destruct key_list. Qed.

(** One round of the loop of [GetLookupFutures]: its trace and its result. *)
Lemma GetLookupFutures_from_cons_trace request_context first li inputs f :
  (GetLookupFutures_from request_context first (li :: inputs) f).2
  = AccumulateKeyCountByShard
      (to_int32 (Z.of_nat (length (sli_keys li)))) first
    :: (if decide (first = current_shard_num_) then
          (f (sli_keys li)).2
          ++ (GetLookupFutures_from request_context (first + 1) inputs f).2
        else
          ShardManagerGet first
          :: match Get shard_manager_ first with
             | None => [LogUdfRequestErrorMetric kLookupClientMissing]
             | Some _ =>
                 RemoteGetValues first (serialized_request li) (padding li)
                 :: (GetLookupFutures_from request_context (first + 1)
                       inputs f).2
             end).
Proof.
  cbn [ShardedLookup.GetLookupFutures_from]. rewrite bind_snd. simpl.
  f_equal. destruct (decide (first = current_shard_num_)).
  - rewrite !bind_snd. simpl. by rewrite app_nil_r.
  - rewrite bind_snd. simpl. f_equal.
    destruct (Get shard_manager_ first).
    + rewrite !bind_snd. simpl. by rewrite app_nil_r.
    + by rewrite bind_snd.
Qed.

Lemma GetLookupFutures_from_cons_result request_context first li inputs f :
  (GetLookupFutures_from request_context first (li :: inputs) f).1
  = let rest := (GetLookupFutures_from request_context (first + 1) inputs f).1 in
    if decide (first = current_shard_num_) then
      match rest with
      | Value responses => Value ((f (sli_keys li)).1 :: responses)
      | Failed e => Failed e
      end
    else
      match Get shard_manager_ first with
      | None => Failed client_unavailable
      | Some client =>
          match rest with
          | Value responses =>
              Value (GetValues client request_context (serialized_request li)
                       (padding li) :: responses)
          | Failed e => Failed e
          end
      end.
Proof.
  cbn [ShardedLookup.GetLookupFutures_from]. rewrite bind_fst. simpl.
  destruct (decide (first = current_shard_num_)).
  - by rewrite !bind_fst.
  - rewrite bind_fst. simpl. destruct (Get shard_manager_ first).
    + by rewrite !bind_fst.
    + by rewrite bind_fst.
Qed.

(** When every remote shard that the loop visits has a client, the loop
    succeeds and its remote calls are the expected ones. *)
Lemma GetLookupFutures_from_remote_calls request_context c first inputs :
  (∀ s, first ≤ s < first + Z.of_nat (length inputs) →
        s ≠ current_shard_num_ → is_Some (Get shard_manager_ s)) →
  (∃ responses,
     (GetLookupFutures_from request_context first inputs
        (GetLocalLookupResponse c request_context)).1 = Value responses) ∧
  remote_calls
    (GetLookupFutures_from request_context first inputs
       (GetLocalLookupResponse c request_context)).2
  = expected_remote_calls current_shard_num_ first inputs.
Proof.
  revert first. induction inputs as [|li inputs IH]; intros first Hc.
  - split; [by eexists|done].
  - destruct (IH (first + 1)) as [[responses Hr] Ht].
    { intros s Hs. apply Hc. simpl in Hs |- *. lia. }
    rewrite GetLookupFutures_from_cons_result,
      GetLookupFutures_from_cons_trace.
    cbn [expected_remote_calls]. cbv zeta. rewrite Hr.
    destruct (decide (first = current_shard_num_)) as [Heq|Hne].
    + split; [by eexists|].
      change (remote_calls (?e :: ?t)) with (remote_calls t).
      rewrite remote_calls_app, Ht, GetLocalLookupResponse_trace.
      by destruct (sli_keys li).
    + destruct (Hc first) as [client Hclient]; [simpl; lia|done|].
      rewrite Hclient. split; [by eexists|].
      simpl. by rewrite <- Ht.
Qed.



(** The error metrics of the loop: [kLookupClientMissing] once if it fails,
    none if it succeeds. *)
Lemma GetLookupFutures_from_error_metrics request_context c first inputs :
  error_metrics
    (GetLookupFutures_from request_context first inputs
       (GetLocalLookupResponse c request_context)).2
  = match (GetLookupFutures_from request_context first inputs
             (GetLocalLookupResponse c request_context)).1 with
    | Value _ => []
    | Failed _ => [kLookupClientMissing]
    end.
Proof.
  revert first. induction inputs as [|li inputs IH]; intros first; [done|].
  rewrite GetLookupFutures_from_cons_result,
    GetLookupFutures_from_cons_trace. cbv zeta.
  destruct (decide (first = current_shard_num_)) as [Heq|Hne].
  - change (error_metrics (?e :: ?t)) with (error_metrics t).
    rewrite error_metrics_app, IH, GetLocalLookupResponse_trace.
    destruct (sli_keys li);
      by destruct (GetLookupFutures_from _ _ _ _).1.
  - destruct (Get shard_manager_ first); [|done].
    change (error_metrics (?e1 :: ?e2 :: ?e3 :: ?t)) with (error_metrics t).
    rewrite IH. by destruct (GetLookupFutures_from _ _ _ _).1.
Qed.

End FanOut.

(** ** Collecting key sets *)


Section KeySets.

Context (t : SetElementType).

Abbreviation value_set_of := (ShardedLookup.value_set_of t).
Abbreviation CollectKeySets := (ShardedLookup.CollectKeySets t).
Abbreviation collect_responses := (ShardedLookup.collect_responses t).

(** The value of one round of the loop of [CollectKeySets]. *)
Lemma CollectKeySets_fst (key_sets : gmap string (gset (elem t))) r :
  (CollectKeySets key_sets r).1
  = foldl
      (λ key_sets (kv : string * SingleLookupResult),
         if decide (value_set_of kv.2 = ∅) then key_sets
         else <[kv.1 := value_set_of kv.2]> key_sets)
      key_sets (map_to_list (kv_pairs r)).
Proof.
  unfold ShardedLookup.CollectKeySets. apply foldM_fst.
  intros a [k res]. simpl. destruct (decide _); [done|].
  by rewrite bind_fst.
Qed.

Lemma collect_fold_lookup (l : list (string * SingleLookupResult))
    (key_sets : gmap string (gset (elem t))) (k : string) :
  NoDup l.*1 →
  foldl
    (λ key_sets (kv : string * SingleLookupResult),
       if decide (value_set_of kv.2 = ∅) then key_sets
       else <[kv.1 := value_set_of kv.2]> key_sets)
    key_sets l !! k
  = match (list_to_map l : gmap string SingleLookupResult) !! k with
    | Some res =>
        if decide (value_set_of res = ∅) then key_sets !! k
        else Some (value_set_of res)
    | None => key_sets !! k
    end.
Proof.
  revert key_sets. induction l as [|[k0 res0] l IH]; intros key_sets Hnd.
  - simpl. by rewrite lookup_empty.
  - simpl in Hnd. apply NoDup_cons in Hnd as [Hk0 Hnd].
    cbn [foldl]. rewrite IH by done. rewrite list_to_map_cons. simpl.
    destruct (decide (k = k0)) as [->|Hne].
    + rewrite lookup_insert_eq.
      rewrite (proj1 (not_elem_of_list_to_map _ _) Hk0).
      destruct (decide (value_set_of res0 = ∅)); [done|].
      by rewrite lookup_insert_eq.
    + rewrite lookup_insert_ne by done.
      destruct (decide (value_set_of res0 = ∅)); [done|].
      by rewrite lookup_insert_ne by done.
Qed.

Lemma CollectKeySets_lookup (key_sets : gmap string (gset (elem t))) r k :
  (CollectKeySets key_sets r).1 !! k
  = match kv_pairs r !! k with
    | Some res =>
        if decide (value_set_of res = ∅) then key_sets !! k
        else Some (value_set_of res)
    | None => key_sets !! k
    end.
Proof.
  rewrite CollectKeySets_fst, collect_fold_lookup
    by apply NoDup_fst_map_to_list.
  by rewrite list_to_map_to_list.
Qed.


(** Only non-empty sets are stored. *)
Lemma CollectKeySets_nonempty (key_sets : gmap string (gset (elem t))) r :
  (∀ k s, key_sets !! k = Some s → s ≠ ∅) →
  ∀ k s, (CollectKeySets key_sets r).1 !! k = Some s → s ≠ ∅.
Proof.
  intros Hne k s. rewrite CollectKeySets_lookup.
  destruct (kv_pairs r !! k) as [res|]; [|apply Hne].
  destruct (decide (value_set_of res = ∅)); [apply Hne|].
  intros [= <-]. done.
Qed.

End KeySets.

(** ** The lookups end to end *)



Section Lookups.

Context (local_lookup_ : Lookup)
        (num_shards_ current_shard_num_ : Z)
        (shard_manager_ : ShardManager)
        (key_sharder_ : KeySharder).
Context (SerializeAsString : InternalLookupRequest → string).
Context (indeterminate_padding : Z).

Abbreviation ShardKeys :=
  (ShardedLookup.ShardKeys num_shards_ key_sharder_ SerializeAsString
     indeterminate_padding).
Abbreviation GetLocalLookupResponse :=
  (ShardedLookup.GetLocalLookupResponse local_lookup_).
Abbreviation GetLookupFutures :=
  (ShardedLookup.GetLookupFutures current_shard_num_ shard_manager_).
Abbreviation GetShardedKeyValueSet :=
  (ShardedLookup.GetShardedKeyValueSet local_lookup_ num_shards_
     current_shard_num_ shard_manager_ key_sharder_ SerializeAsString
     indeterminate_padding).
Abbreviation GetKeyValueSets :=
  (ShardedLookup.GetKeyValueSets local_lookup_ num_shards_
     current_shard_num_ shard_manager_ key_sharder_ SerializeAsString
     indeterminate_padding).
Abbreviation GetKeyValues :=
  (ShardedLookup.GetKeyValues local_lookup_ num_shards_
     current_shard_num_ shard_manager_ key_sharder_ SerializeAsString
     indeterminate_padding).
Abbreviation RunQuery :=
  (ShardedLookup.RunQuery local_lookup_ num_shards_
     current_shard_num_ shard_manager_ key_sharder_ SerializeAsString
     indeterminate_padding).

(** The trace of [GetKeyValues]: the fan-out, the metrics of the failed
    shards, the latency. *)
Lemma GetKeyValues_trace request_context keys :
  keys ≠ ∅ →
  let dispatch :=
    GetLookupFutures request_context (ShardKeys request_context keys false)
      (GetLocalLookupResponse case_kValue request_context) in
  (GetKeyValues request_context keys).2
  = dispatch.2
    ++ match dispatch.1 with
       | Failed _ => []
       | Value responses =>
           (ShardedLookup.process_responses
              (ShardKeys request_context keys false) responses ∅).2
       end
    ++ [RecordLatency kShardedLookupGetKeyValuesLatencyInMicros].
Proof.
  intros Hk. cbv zeta. unfold ShardedLookup.GetKeyValues.
  rewrite with_latency_snd. unfold ShardedLookup.ProcessShardedKeys.
  rewrite decide_False by done. rewrite bind_snd, <- app_assoc.
  do 2 f_equal.
  destruct (GetLookupFutures _ _ _).1 as [responses|e]; [|done].
  rewrite bind_snd. simpl. by rewrite app_nil_r.
Qed.

Lemma GetShardedKeyValueSet_trace t request_context keys :
  let dispatch :=
    GetLookupFutures request_context (ShardKeys request_context keys true)
      (GetLocalLookupResponse (ShardedLookup.local_case t) request_context) in
  (GetShardedKeyValueSet t request_context keys).2
  = dispatch.2
    ++ match dispatch.1 with
       | Failed _ => [LogUdfRequestErrorMetric kLookupClientMissing]
       | Value responses =>
           (ShardedLookup.collect_responses t responses ∅).2
       end.
Proof.
  cbv zeta. unfold ShardedLookup.GetShardedKeyValueSet.
  rewrite bind_snd. f_equal.
  destruct (GetLookupFutures _ _ _).1 as [responses|e]; [done|].
  by rewrite bind_snd.
Qed.

Lemma GetShardedKeyValueSet_result t request_context keys :
  (GetShardedKeyValueSet t request_context keys).1
  = match (GetLookupFutures request_context
             (ShardKeys request_context keys true)
             (GetLocalLookupResponse (ShardedLookup.local_case t)
                request_context)).1 with
    | Failed e => Failed e
    | Value responses => (ShardedLookup.collect_responses t responses ∅).1
    end.
Proof.
  unfold ShardedLookup.GetShardedKeyValueSet. rewrite bind_fst.
  destruct (GetLookupFutures _ _ _).1 as [responses|e]; [done|].
  by rewrite bind_fst.
Qed.

(** The trace of [GetKeyValueSets]: key-set retrieval, then reports only. *)
Lemma GetKeyValueSets_trace t request_context keys :
  keys ≠ ∅ →
  ∃ reports,
    (GetKeyValueSets t request_context keys).2
    = (GetShardedKeyValueSet t request_context keys).2 ++ reports ∧
    Forall is_report reports ∧
    (∀ e, (GetShardedKeyValueSet t request_context keys).1 = Failed e →
       reports
       = [ LogUdfRequestErrorMetric kShardedGetKeyValueSetKeySetRetrievalFailure;
           RecordLatency kShardedLookupGetKeyValueSetLatencyInMicros ]).
Proof.
  intros Hk. unfold ShardedLookup.GetKeyValueSets.
  rewrite with_latency_snd, decide_False by done.
  rewrite bind_snd, <- app_assoc.
  destruct (GetShardedKeyValueSet t request_context keys).1
    as [key_sets|e0].
  - eexists. split; [reflexivity|]. split; [|done].
    apply Forall_app. split; [|repeat constructor].
    rewrite bind_snd. simpl. rewrite app_nil_r.
    apply foldM_reports. intros a b.
    destruct (key_sets !! b); [constructor|].
    rewrite bind_snd. repeat constructor.
  - eexists. split; [reflexivity|]. split.
    + rewrite bind_snd. repeat constructor.
    + intros e _. by rewrite bind_snd.
Qed.


Lemma expected_remote_calls_length current first inputs :
  length (expected_remote_calls current first inputs)
  = (length inputs
     - if decide (first ≤ current < first + Z.of_nat (length inputs))%Z
       then 1 else 0)%nat.
Proof.
  revert first. induction inputs as [|li inputs IH]; intros first.
  - simpl. by destruct (decide _).
  - cbn [expected_remote_calls]. rewrite length_app, IH. cbn [length].
    destruct (decide (first = current)),
      (decide (first + 1 ≤ current < first + 1 + Z.of_nat (length inputs))),
      (decide (first ≤ current < first + Z.of_nat (S (length inputs))));
      simpl; lia.
Qed.

Lemma elem_of_expected_remote_calls current first inputs shard request pad :
  (shard, request, pad) ∈ expected_remote_calls current first inputs →
  ∃ li, li ∈ inputs ∧ request = serialized_request li ∧ pad = padding li.
Proof.
  revert first. induction inputs as [|li inputs IH]; intros first H.
  - by apply elem_of_nil in H.
  - cbn [expected_remote_calls] in H. apply elem_of_app in H as [H|H].
    + destruct (decide (first = current)); [by apply elem_of_nil in H|].
      apply list_elem_of_singleton in H as [= -> -> ->].
      exists li. split; [left|done].
    + destruct (IH _ H) as (li' & Hin & Hr & Hp).
      exists li'. split; [by right|done].
Qed.

(** The remote calls of the lookups when every remote shard has a client. *)
Lemma lookup_remote_calls request_context keys :
  keys ≠ ∅ →
  (∀ s, 0 ≤ s < num_shards_ → s ≠ current_shard_num_ →
        is_Some (Get shard_manager_ s)) →
  remote_calls (GetKeyValues request_context keys).2
  = expected_remote_calls current_shard_num_ 0
      (ShardKeys request_context keys false) ∧
  ∀ t,
    remote_calls (GetKeyValueSets t request_context keys).2
    = expected_remote_calls current_shard_num_ 0
        (ShardKeys request_context keys true).
Proof.
  intros Hk Hc.
  assert (Hd : ∀ c lookup_sets,
            remote_calls
              (GetLookupFutures request_context
                 (ShardKeys request_context keys lookup_sets)
                 (GetLocalLookupResponse c request_context)).2
            = expected_remote_calls current_shard_num_ 0
                (ShardKeys request_context keys lookup_sets)).
  { intros c lookup_sets.
    apply (GetLookupFutures_from_remote_calls local_lookup_).
    intros s Hs. apply Hc. rewrite ShardKeys_length in Hs. lia. }
  split.
  - rewrite GetKeyValues_trace by done. cbv zeta.
    rewrite !remote_calls_app, Hd.
    rewrite (reports_remote_calls (match _ with Value _ => _ | Failed _ => _ end)).
    2:{ destruct (GetLookupFutures _ _ _).1; [|constructor].
        apply process_responses_reports. }
    by rewrite app_nil_r.
  - intros t.
    destruct (GetKeyValueSets_trace t request_context keys Hk)
      as (reports & -> & Hrep & _).
    rewrite remote_calls_app, (reports_remote_calls reports) by done.
    rewrite GetShardedKeyValueSet_trace. cbv zeta.
    rewrite remote_calls_app, Hd.
    rewrite (reports_remote_calls (match _ with Value _ => _ | Failed _ => _ end)).
    2:{ destruct (GetLookupFutures _ _ _).1; [|repeat constructor].
        apply collect_responses_reports. }
    by rewrite !app_nil_r.
Qed.

(** X2.  When the shard manager has a client for every remote shard, a
    lookup over a non-empty key set calls every remote shard exactly once,
    in shard order, with the serialized request and the padding that
    [ShardKeys] computed for its bucket; a shard whose bucket is empty is
    called like any other, and the engine's own shard is never called
    remotely.  With the engine's shard among the [num_shards_] shards this
    makes [num_shards_ - 1] remote calls. *)
Theorem lookups_call_every_remote_shard request_context keys :
  keys ≠ ∅ →
  (∀ s, 0 ≤ s < num_shards_ → s ≠ current_shard_num_ →
        is_Some (Get shard_manager_ s)) →
  remote_calls (GetKeyValues request_context keys).2
  = expected_remote_calls current_shard_num_ 0
      (ShardKeys request_context keys false) ∧
  (∀ t,
     remote_calls (GetKeyValueSets t request_context keys).2
     = expected_remote_calls current_shard_num_ 0
         (ShardKeys request_context keys true)) ∧
  (∀ lookup_sets,
     length (expected_remote_calls current_shard_num_ 0
               (ShardKeys request_context keys lookup_sets))
     = (Z.to_nat num_shards_
        - if decide (0 ≤ current_shard_num_ < num_shards_)%Z
          then 1 else 0)%nat).
Proof.
  intros Hk Hc.
  destruct (lookup_remote_calls request_context keys Hk Hc) as [Hv Hs].
  split; [done|]. split; [done|].
  intros lookup_sets.
  rewrite expected_remote_calls_length, ShardKeys_length.
  destruct (decide (0 ≤ current_shard_num_ < num_shards_)),
    (decide (0 ≤ current_shard_num_ < 0 + Z.of_nat (Z.to_nat num_shards_)));
    lia.
Qed.



(** X6.  [RunQuery] on a query that parses fetches the key sets of the
    query's keys before it evaluates anything; if the shard manager has no
    client for a remote shard this fails, also for a query without keys,
    and [RunQuery] returns the error [Internal] "Internal lookup client is
    unavailable.".  The failure is counted three times: twice as
    [kLookupClientMissing] (by the fan-out and by [GetShardedKeyValueSet])
    and once as [kShardedRunQueryKeySetRetrievalFailure]; the query is not
    evaluated, so none of its metrics appears. *)
Theorem RunQuery_missing_client (driver : Driver) request_context query root
    (missing : Z) :
  query ≠ "" →
  Parse driver query = Some root →
  0 ≤ missing < num_shards_ →
  missing ≠ current_shard_num_ →
  Get shard_manager_ missing = None →
  (RunQuery driver request_context query).1
  = Failed {| code := kInternal;
              message := "Internal lookup client is unavailable." |} ∧
  error_metrics (RunQuery driver request_context query).2
  = [ kLookupClientMissing; kLookupClientMissing;
      kShardedRunQueryKeySetRetrievalFailure ].
Proof.
  intros Hq Hp Hr Hne Hg.
  pose proof (GetLookupFutures_missing num_shards_ current_shard_num_
                shard_manager_ key_sharder_ SerializeAsString
                indeterminate_padding request_context
                (Keys driver root) true
                (GetLocalLookupResponse case_kKeysetValues request_context)
                missing Hr Hne Hg) as Hd.
  pose proof (GetShardedKeyValueSet_result elem_string request_context
                (Keys driver root)) as Hres.
  pose proof (GetShardedKeyValueSet_trace elem_string request_context
                (Keys driver root)) as Htr.
  cbv zeta in Htr. simpl ShardedLookup.local_case in Hres, Htr.
  rewrite Hd in Hres, Htr.
  unfold ShardedLookup.RunQuery.
  rewrite with_latency_fst, with_latency_snd, decide_False, Hp by done.
  rewrite bind_fst, bind_snd, Hres, Htr. split; [by rewrite bind_fst|].
  rewrite bind_snd. simpl. rewrite !error_metrics_app.
  unfold ShardedLookup.GetLookupFutures.
  rewrite GetLookupFutures_from_error_metrics.
  unfold ShardedLookup.GetLookupFutures in Hd. by rewrite Hd.
Qed.

(** X7.  A missing client is counted differently by the two kinds of
    lookup.  [GetKeyValues] reports [kLookupClientMissing] once and nothing
    else.  The set lookups report it twice, since [GetShardedKeyValueSet]
    logs it again for the error that [GetLookupFutures] has logged already,
    and then [kShardedGetKeyValueSetKeySetRetrievalFailure]. *)
Theorem missing_client_metrics request_context keys (missing : Z) :
  keys ≠ ∅ →
  0 ≤ missing < num_shards_ →
  missing ≠ current_shard_num_ →
  Get shard_manager_ missing = None →
  error_metrics (GetKeyValues request_context keys).2
  = [kLookupClientMissing] ∧
  ∀ t,
    error_metrics (GetKeyValueSets t request_context keys).2
    = [ kLookupClientMissing; kLookupClientMissing;
        kShardedGetKeyValueSetKeySetRetrievalFailure ].
Proof.
  intros Hk Hr Hne Hg.
  assert (Hd : ∀ c lookup_sets,
            (GetLookupFutures request_context
               (ShardKeys request_context keys lookup_sets)
               (GetLocalLookupResponse c request_context)).1
            = Failed client_unavailable).
  { intros c lookup_sets.
    by apply (GetLookupFutures_missing num_shards_ current_shard_num_
                shard_manager_ key_sharder_ SerializeAsString
                indeterminate_padding request_context
                keys lookup_sets _ missing). }
  assert (Hm : ∀ c lookup_sets,
            error_metrics
              (GetLookupFutures request_context
                 (ShardKeys request_context keys lookup_sets)
                 (GetLocalLookupResponse c request_context)).2
            = [kLookupClientMissing]).
  { intros c lookup_sets. specialize (Hd c lookup_sets).
    unfold ShardedLookup.GetLookupFutures in *.
    by rewrite GetLookupFutures_from_error_metrics, Hd. }
  split.
  - rewrite GetKeyValues_trace by done. cbv zeta.
    by rewrite Hd, !error_metrics_app, Hm.
  - intros t.
    destruct (GetKeyValueSets_trace t request_context keys Hk)
      as (reports & -> & _ & Hrep).
    rewrite (Hrep client_unavailable)
      by (by rewrite GetShardedKeyValueSet_result, Hd).
    rewrite GetShardedKeyValueSet_trace. cbv zeta.
    by rewrite Hd, !error_metrics_app, Hm.
Qed.

Lemma expected_remote_calls_padded request_context keys lookup_sets :
  Forall
    (λ li0,
       string_size (SerializeAsString
               (ShardedLookup.bucket_request request_context lookup_sets li0))
       ≤ INT32_MAX)
    (ShardedLookup.BucketKeys num_shards_ key_sharder_
              indeterminate_padding keys) →
  ∀ shard request pad,
    (shard, request, pad)
    ∈ expected_remote_calls current_shard_num_ 0
        (ShardKeys request_context keys lookup_sets) →
    string_size request + pad
    = ShardedLookup.max_length_of
        (ShardedLookup.SerializeShardedRequests SerializeAsString
           request_context
           (ShardedLookup.BucketKeys num_shards_ key_sharder_
              indeterminate_padding keys)
           lookup_sets) ∧
    0 ≤ pad.
Proof.
  intros Hsize shard request pad Hin.
  apply elem_of_expected_remote_calls in Hin as (li & Hli & -> & ->).
  unfold ShardedLookup.ShardKeys in Hli.
  apply ComputePadding_spec in Hli; [done| |].
  - intros Hnil. unfold ShardedLookup.ShardKeys in Hli.
    rewrite Hnil in Hli. by apply elem_of_nil in Hli.
  - intros li1 Hli1. unfold ShardedLookup.SerializeShardedRequests in Hli1.
    apply list_elem_of_fmap in Hli1 as (li0 & -> & Hli0).
    rewrite Forall_forall in Hsize. by apply Hsize.
Qed.

(** The longest serialized sub-request of a fan-out, read off the result
    of [ShardKeys]. *)
Lemma max_length_of_ShardKeys request_context keys lookup_sets :
  ShardedLookup.max_length_of (ShardKeys request_context keys lookup_sets)
  = ShardedLookup.max_length_of
      (ShardedLookup.SerializeShardedRequests SerializeAsString
         request_context
         (ShardedLookup.BucketKeys num_shards_ key_sharder_
            indeterminate_padding keys)
         lookup_sets).
Proof.
  apply max_length_of_ext. unfold ShardedLookup.ShardKeys.
  apply ComputePadding_serialized.
Qed.

Lemma ShardKeys_longest request_context keys lookup_sets :
  0 < num_shards_ →
  Forall
    (λ li0,
       string_size (SerializeAsString
               (ShardedLookup.bucket_request request_context lookup_sets li0))
       ≤ INT32_MAX)
    (ShardedLookup.BucketKeys num_shards_ key_sharder_
       indeterminate_padding keys) →
  (∀ li, li ∈ ShardKeys request_context keys lookup_sets →
         string_size (serialized_request li)
         ≤ ShardedLookup.max_length_of
             (ShardKeys request_context keys lookup_sets)) ∧
  (∃ li, li ∈ ShardKeys request_context keys lookup_sets ∧
         string_size (serialized_request li)
         = ShardedLookup.max_length_of
             (ShardKeys request_context keys lookup_sets)).
Proof.
  intros Hn Hsize.
  assert (Hne : ShardKeys request_context keys lookup_sets ≠ []).
  { intros Hnil. apply (f_equal length) in Hnil.
    rewrite ShardKeys_length in Hnil. simpl in Hnil. lia. }
  destruct (max_length_of_spec (ShardKeys request_context keys lookup_sets) Hne)
    as (_ & Hle & Hmax); [|done].
  intros li Hli.
  apply ShardKeys_elem in Hli as (li0 & Hli0 & _ & ->).
  rewrite Forall_forall in Hsize. by apply Hsize.
Qed.

(** X21.  What a remote shard receives has the same length for every
    shard: when every remote shard has a client and the serialized
    sub-requests are within protobuf's size limit, every remote call of a
    lookup carries a request and a padding whose lengths add up to the
    length of the longest serialized sub-request of the fan-out (the one
    for the engine's own shard included), and no padding is negative.
    This length is [max_length_of] of the result of [ShardKeys]: no
    sub-request of the fan-out is longer and one of them has exactly this
    length.  So the length of a remote call does not tell how many of the
    keys went to its shard. *)
Theorem remote_calls_have_equal_length request_context keys :
  keys ≠ ∅ →
  0 < num_shards_ →
  (∀ s, 0 ≤ s < num_shards_ → s ≠ current_shard_num_ →
        is_Some (Get shard_manager_ s)) →
  (∀ lookup_sets,
     Forall
       (λ li0,
          string_size (SerializeAsString
                  (ShardedLookup.bucket_request request_context lookup_sets li0))
          ≤ INT32_MAX)
       (ShardedLookup.BucketKeys num_shards_ key_sharder_
              indeterminate_padding keys)) →
  let longest (lookup_sets : bool) :=
    ShardedLookup.max_length_of (ShardKeys request_context keys lookup_sets) in
  (∀ lookup_sets,
     (∀ li, li ∈ ShardKeys request_context keys lookup_sets →
            string_size (serialized_request li) ≤ longest lookup_sets) ∧
     (∃ li, li ∈ ShardKeys request_context keys lookup_sets ∧
            string_size (serialized_request li) = longest lookup_sets)) ∧
  (∀ shard request pad,
     (shard, request, pad) ∈ remote_calls (GetKeyValues request_context keys).2 →
     string_size request + pad = longest false ∧ 0 ≤ pad) ∧
  (∀ t shard request pad,
     (shard, request, pad)
     ∈ remote_calls (GetKeyValueSets t request_context keys).2 →
     string_size request + pad = longest true ∧ 0 ≤ pad).
Proof.
  intros Hk Hn Hc Hsize. cbv zeta.
  destruct (lookup_remote_calls request_context keys Hk Hc) as [Hv Hs].
  split; [|split].
  - intros lookup_sets. by apply ShardKeys_longest.
  - intros shard request pad. rewrite Hv, max_length_of_ShardKeys.
    apply (expected_remote_calls_padded request_context keys false (Hsize false)).
  - intros t shard request pad. rewrite Hs, max_length_of_ShardKeys.
    apply (expected_remote_calls_padded request_context keys true (Hsize true)).
Qed.

Lemma process_responses_error_metrics inputs responses response :
  length responses = length inputs →
  error_metrics (ShardedLookup.process_responses inputs responses response).2
  = replicate (length (filter (λ r, ok r = false) responses))
      kShardedKeyValueRequestFailure.
Proof.
  revert responses response.
  induction inputs as [|li inputs IH]; intros [|r responses] response Hlen;
    try done.
  cbn [ShardedLookup.process_responses]. rewrite filter_cons.
  injection Hlen as Hlen. destruct r as [r|e].
  - rewrite decide_False by done. by apply IH.
  - rewrite decide_True by done. rewrite bind_snd, error_metrics_app.
    cbn [length replicate]. simpl. f_equal. by apply IH.
Qed.

(** X22.  After a fan-out that succeeded, [GetKeyValues] reports
    [kShardedKeyValueRequestFailure] once for every shard whose sub-request
    failed and no other error metric; with no failed shard it reports
    none. *)
Theorem GetKeyValues_failure_metrics request_context keys responses :
  keys ≠ ∅ →
  (GetLookupFutures request_context (ShardKeys request_context keys false)
     (GetLocalLookupResponse case_kValue request_context)).1
  = Value responses →
  error_metrics (GetKeyValues request_context keys).2
  = replicate (length (filter (λ r, ok r = false) responses))
      kShardedKeyValueRequestFailure.
Proof.
  intros Hk Hd. rewrite GetKeyValues_trace by done. cbv zeta.
  rewrite Hd, !error_metrics_app.
  unfold ShardedLookup.GetLookupFutures in *.
  rewrite GetLookupFutures_from_error_metrics, Hd.
  rewrite process_responses_error_metrics
    by (by apply GetLookupFutures_from_length in Hd).
  simpl. by rewrite app_nil_r.
Qed.

End Lookups.


(** The theorem on the lengths at scenario S4, with a client for each of
    the four shards: every remote call has 22 bytes of request and
    padding. *)
Lemma remote_calls_have_equal_length_witness :
  Forall
    (λ call : Z * string * Z,
       string_size call.1.2 + call.2 = 22 ∧ 0 ≤ call.2)
    (remote_calls
       (ShardedLookup.GetKeyValues Fixture.s1_local 4 0
          (Fixture.manager_of
             (replicate 4
                (Some (Fixture.const_client (Value empty_response)))))
          Fixture.test_sharder Fixture.wire_SerializeAsString
          Fixture.stale_padding Fixture.test_context
          Fixture.padding_keys).2).
Proof.
  apply Forall_forall. intros [[shard request] pad]. cbn [fst snd].
  revert shard request pad.
  destruct (remote_calls_have_equal_length Fixture.s1_local 4 0
              (Fixture.manager_of
                 (replicate 4
                    (Some (Fixture.const_client (Value empty_response)))))
              Fixture.test_sharder Fixture.wire_SerializeAsString
              Fixture.stale_padding Fixture.test_context Fixture.padding_keys)
    as (_ & Hv & _).
  - set_solver.
  - lia.
  - intros s Hs Hne.
    assert (s = 1 ∨ s = 2 ∨ s = 3) as [->|[->| ->]] by lia; by eexists.
  - intros [|]; by apply (bool_decide_unpack _); vm_compute.
  - assert (Hl : ShardedLookup.max_length_of
                   (ShardedLookup.ShardKeys 4 Fixture.test_sharder
                      Fixture.wire_SerializeAsString Fixture.stale_padding
                      Fixture.test_context Fixture.padding_keys false) = 22)
      by (vm_compute; reflexivity).
    rewrite Hl in Hv. exact Hv.
Defined.

(** The theorem on the failure metrics at scenario S3: the peer's
    sub-request fails. *)
Lemma GetKeyValues_failure_metrics_witness :
  error_metrics
    (ShardedLookup.GetKeyValues Fixture.s1_local 2 0 Fixture.s3_manager
       Fixture.test_sharder Fixture.wire_SerializeAsString Fixture.stale_padding
       Fixture.test_context Fixture.s1_keys).2
  = [kShardedKeyValueRequestFailure].
Proof.
  rewrite (GetKeyValues_failure_metrics Fixture.s1_local 2 0 Fixture.s3_manager
             Fixture.test_sharder Fixture.wire_SerializeAsString Fixture.stale_padding
             Fixture.test_context Fixture.s1_keys
             [ Value (Fixture.response_of [("key4", kValue "value4")]);
               Failed Fixture.deadline_exceeded ]).
  - reflexivity.
  - set_solver.
  - vm_compute. reflexivity.
Defined.

(** The fan-out theorem at scenario S1: the one remote shard is called
    once. *)
Lemma lookups_call_every_remote_shard_witness :
  remote_calls
    (ShardedLookup.GetKeyValues Fixture.s1_local 2 0 Fixture.s1_manager
       Fixture.test_sharder Fixture.wire_SerializeAsString Fixture.stale_padding
       Fixture.test_context Fixture.s1_keys).2
  = expected_remote_calls 0 0
      (ShardedLookup.ShardKeys 2 Fixture.test_sharder
         Fixture.wire_SerializeAsString Fixture.stale_padding Fixture.test_context Fixture.s1_keys
         false) ∧
  length
    (expected_remote_calls 0 0
       (ShardedLookup.ShardKeys 2 Fixture.test_sharder
          Fixture.wire_SerializeAsString Fixture.stale_padding Fixture.test_context Fixture.s1_keys
          false)) = 1%nat.
Proof.
  destruct (lookups_call_every_remote_shard Fixture.s1_local 2 0
              Fixture.s1_manager Fixture.test_sharder
              Fixture.wire_SerializeAsString Fixture.stale_padding Fixture.test_context
              Fixture.s1_keys) as (Hcalls & _ & Hlen).
  - set_solver.
  - intros s Hs Hne. assert (s = 1) as -> by lia. by eexists.
  - split; [exact Hcalls|exact (Hlen false)].
Defined.


(** The theorem on [RunQuery] without a client for the peer shard. *)
Lemma RunQuery_missing_client_witness :
  (ShardedLookup.RunQuery Query.s7_local 2 0 Fixture.no_peer_manager
     Query.s7_sharder Fixture.wire_SerializeAsString Fixture.stale_padding Query.driver
     Fixture.test_context "A | B").1
  = Failed {| code := kInternal;
              message := "Internal lookup client is unavailable." |} ∧
  error_metrics
    (ShardedLookup.RunQuery Query.s7_local 2 0 Fixture.no_peer_manager
       Query.s7_sharder Fixture.wire_SerializeAsString Fixture.stale_padding Query.driver
       Fixture.test_context "A | B").2
  = [ kLookupClientMissing; kLookupClientMissing;
      kShardedRunQueryKeySetRetrievalFailure ].
Proof.
  eapply (RunQuery_missing_client Query.s7_local 2 0 Fixture.no_peer_manager
            Query.s7_sharder Fixture.wire_SerializeAsString Fixture.stale_padding Query.driver
            Fixture.test_context "A | B" _ 1).
  - discriminate.
  - vm_compute. reflexivity.
  - lia.
  - lia.
  - reflexivity.
Defined.

(** The theorem on the metrics at scenario S1 without a client for the peer
    shard. *)
Lemma missing_client_metrics_witness :
  error_metrics
    (ShardedLookup.GetKeyValues Fixture.s1_local 2 0 Fixture.no_peer_manager
       Fixture.test_sharder Fixture.wire_SerializeAsString Fixture.stale_padding
       Fixture.test_context Fixture.s1_keys).2
  = [kLookupClientMissing] ∧
  error_metrics
    (ShardedLookup.GetKeyValueSets Fixture.s1_local 2 0
       Fixture.no_peer_manager Fixture.test_sharder
       Fixture.wire_SerializeAsString Fixture.stale_padding elem_uint32 Fixture.test_context
       Fixture.s1_keys).2
  = [ kLookupClientMissing; kLookupClientMissing;
      kShardedGetKeyValueSetKeySetRetrievalFailure ].
Proof.
  destruct (missing_client_metrics Fixture.s1_local 2 0
              Fixture.no_peer_manager Fixture.test_sharder
              Fixture.wire_SerializeAsString Fixture.stale_padding Fixture.test_context
              Fixture.s1_keys 1) as [Hv Hs].
  - set_solver.
  - lia.
  - lia.
  - reflexivity.
  - split; [exact Hv|exact (Hs elem_uint32)].
Defined.

(** ** Properties of the V1 request handler *)

Lemma StrSplit_nonempty text d : GetValuesHandler.StrSplit text d ≠ [].
Proof.
  destruct text as [|c rest]; simpl; [done|].
  destruct (decide (c = d)); [done|].
  by destruct (GetValuesHandler.StrSplit rest d).
Qed.

Lemma StrSplit_join text d :
  String.concat (String d EmptyString) (GetValuesHandler.StrSplit text d) = text.
Proof.
  induction text as [|c rest IH]; simpl; [done|].
  pose proof (StrSplit_nonempty rest d) as Hne.
  destruct (GetValuesHandler.StrSplit rest d) as [|piece pieces]; [done|].
  destruct (decide (c = d)) as [->|Hcd].
  - rewrite <- IH. by destruct pieces.
  - rewrite <- IH. by destruct pieces.
Qed.

Lemma StrSplit_pieces text d :
  Forall (λ piece, d ∉ list_ascii_of_string piece)
         (GetValuesHandler.StrSplit text d).
Proof.
  induction text as [|c rest IH]; simpl.
  - repeat constructor. apply not_elem_of_nil.
  - destruct (decide (c = d)) as [->|Hcd].
    + constructor; [apply not_elem_of_nil|done].
    + destruct (GetValuesHandler.StrSplit rest d) as [|piece pieces].
      * repeat constructor. simpl. apply not_elem_of_cons.
        split; [done|apply not_elem_of_nil].
      * apply Forall_cons in IH as [Hp Hps]. constructor; [|done].
        simpl. apply not_elem_of_cons. by split.
Qed.

Lemma foldl_app_concat {A B} (f : A → list B) (acc : list B) (l : list A) :
  foldl (λ acc x, acc ++ f x) acc l = acc ++ concat (f <$> l).
Proof.
  revert acc. induction l as [|x l IH]; intros acc; simpl.
  - by rewrite app_nil_r.
  - by rewrite IH, app_assoc.
Qed.

Lemma insert_fold_lookup {V W} (f : V → W) (l : list (string * V))
    (m : gmap string W) (k : string) :
  NoDup l.*1 →
  foldl (λ fields '(k, v), <[k := f v]> fields) m l !! k
  = match (list_to_map l : gmap string V) !! k with
    | Some v => Some (f v)
    | None => m !! k
    end.
Proof.
  revert m. induction l as [|[k0 v0] l IH]; intros m Hnd.
  - simpl. by rewrite lookup_empty.
  - simpl in Hnd. apply NoDup_cons in Hnd as [Hk0 Hnd].
    cbn [foldl]. rewrite IH by done. rewrite list_to_map_cons.
    destruct (decide (k = k0)) as [->|Hne].
    + rewrite lookup_insert_eq.
      rewrite (proj1 (not_elem_of_list_to_map _ _) Hk0).
      by rewrite lookup_insert_eq.
    + rewrite lookup_insert_ne by done.
      by rewrite lookup_insert_ne by done.
Qed.

Section HandlerV1.

Import GetValuesHandler.

Context {Value : Type} (string_value : string → Value).
Context (cache_ : list string → gmap string string) (dsp_mode_ : bool).
Context (kQueryArgDelimiter : Ascii.ascii).
Context (DeserializeBHttpToProto : string → StatusOr GetValuesRequest)
        (SerializeProtoToBHttp :
           GetValuesResponse (Value := Value) → Z → StatusOr string).

Abbreviation ValidateRequest := (GetValuesHandler.ValidateRequest dsp_mode_).
Abbreviation GetKeys := (GetValuesHandler.GetKeys kQueryArgDelimiter).
Abbreviation ProcessKeys :=
  (GetValuesHandler.ProcessKeys string_value cache_ kQueryArgDelimiter).
Abbreviation GetValues :=
  (GetValuesHandler.GetValues string_value cache_ dsp_mode_
     kQueryArgDelimiter).
Abbreviation BinaryHttpGetValues :=
  (GetValuesHandler.BinaryHttpGetValues string_value cache_ dsp_mode_
     kQueryArgDelimiter DeserializeBHttpToProto SerializeProtoToBHttp).

(** X8.  [ValidateRequest] accepts exactly the requests that carry
    [kv_internal] keys (whatever else they carry) and, of the others, in DSP
    mode those with keys and without render URLs and ad component render
    URLs, in SSP mode those with render URLs and without keys and subkey.
    A rejection has the code [INVALID_ARGUMENT]; its text is passed as the
    third argument of [grpc::Status], so the status has an empty
    [error_message] and the text in [error_details]. *)
Theorem ValidateRequest_accepts (request : GetValuesRequest) :
  (ok (ValidateRequest request) = true ↔
   kv_internal request ≠ [] ∨
   if dsp_mode_ then
     keys request ≠ [] ∧ ad_component_render_urls request = []
     ∧ render_urls request = []
   else
     render_urls request ≠ [] ∧ keys request = [] ∧ subkey request = EmptyString)
  ∧
  (ok (ValidateRequest request) = false →
   error_code (ValidateRequest request) = INVALID_ARGUMENT ∧
   error_message (ValidateRequest request) = EmptyString ∧
   error_details (ValidateRequest request) ≠ EmptyString).
Proof.
  unfold GetValuesHandler.ValidateRequest, ValidateDSPRequest,
    ValidateSSPRequest.
  destruct (decide (kv_internal request ≠ [])) as [Hi|Hi].
  { split; [|done]. split; [by left|done]. }
  destruct dsp_mode_.
  - destruct (decide (keys request = [])) as [Hk|Hk];
      [|destruct (decide (ad_component_render_urls request ≠ [])) as [Ha|Ha];
        [|destruct (decide (render_urls request ≠ [])) as [Hr|Hr]]];
      simpl; (split; [split|]); try done.
    + intros [?|(? & ? & ?)]; done.
    + intros [?|(? & ? & ?)]; done.
    + intros [?|(? & ? & ?)]; done.
    + intros _. right. split; [done|].
      split; by apply dec_stable.
  - destruct (decide (render_urls request = [])) as [Hr|Hr];
      [|destruct (decide (keys request ≠ [])) as [Hk|Hk];
        [|destruct (decide (subkey request ≠ EmptyString)) as [Hs|Hs]]];
      simpl; (split; [split|]); try done.
    + intros [?|(? & ? & ?)]; done.
    + intros [?|(? & ? & ?)]; done.
    + intros [?|(? & ? & ?)]; done.
    + intros _. right. split; [done|].
      split; by apply dec_stable.
Qed.

(** X9.  [GetKeys] splits every request key at the delimiter and
    concatenates the pieces in order.  Splitting loses nothing: joining the
    pieces of a key with the delimiter gives the key back.  No lookup key
    contains the delimiter, and every request key, the empty one included,
    contributes at least one lookup key. *)
Theorem GetKeys_splits (keys : list string) :
  GetKeys keys = concat ((λ key, StrSplit key kQueryArgDelimiter) <$> keys) ∧
  (∀ key,
     String.concat (String kQueryArgDelimiter EmptyString)
                   (StrSplit key kQueryArgDelimiter) = key) ∧
  Forall (λ lookup_key, kQueryArgDelimiter ∉ list_ascii_of_string lookup_key)
         (GetKeys keys) ∧
  (length keys ≤ length (GetKeys keys))%nat.
Proof.
  assert (Hc : GetKeys keys
               = concat ((λ key, StrSplit key kQueryArgDelimiter) <$> keys)).
  { unfold GetValuesHandler.GetKeys.
    by rewrite (foldl_app_concat (λ key, StrSplit key kQueryArgDelimiter)). }
  split; [done|]. split; [intros key; apply StrSplit_join|].
  rewrite Hc. clear Hc. split.
  - induction keys as [|key keys IH]; simpl; [constructor|].
    apply Forall_app. split; [apply StrSplit_pieces|done].
  - induction keys as [|key keys IH]; [done|].
    rewrite fmap_cons. cbn [concat length]. rewrite length_app.
    pose proof (StrSplit_nonempty key kQueryArgDelimiter).
    destruct (StrSplit key kQueryArgDelimiter); [done|]. cbn [length]. lia.
Qed.

(** X10.  [ProcessKeys] does nothing for an empty list of keys: the cache
    is not read and no event is counted.  Otherwise it reads the cache once,
    for the split keys, and counts one event: [CacheKeyMiss] if the cache
    returned no pair at all, [CacheKeyHit] if it returned at least one, also
    when other keys were missing.  Each returned pair is written into the
    result as a string value, replacing a field of the same name; all other
    fields of the result stay. *)
Theorem ProcessKeys_reads_cache_once (keys : list string)
    (result_struct : gmap string Value) :
  ProcessKeys [] result_struct = (result_struct, []) ∧
  (keys ≠ [] →
   (ProcessKeys keys result_struct).2
   = [ GetKeyValuePairs (GetKeys keys);
       IncrementEventCounter
         (if decide (cache_ (GetKeys keys) = ∅) then "CacheKeyMiss"
          else "CacheKeyHit") ] ∧
   ∀ k,
     (ProcessKeys keys result_struct).1 !! k
     = match cache_ (GetKeys keys) !! k with
       | Some v => Some (string_value v)
       | None => result_struct !! k
       end).
Proof.
  split; [done|]. intros Hk.
  destruct keys as [|key keys]; [done|].
  unfold GetValuesHandler.ProcessKeys. cbv zeta. cbn [fst snd].
  split.
  - by destruct (decide _).
  - intros k. rewrite (insert_fold_lookup string_value)
      by apply NoDup_fst_map_to_list.
    by rewrite list_to_map_to_list.
Qed.

Lemma GetValues_rejected (request : GetValuesRequest)
    (response : GetValuesResponse (Value := Value)) :
  ok (ValidateRequest request) = false →
  GetValues request response = (ValidateRequest request, response, []).
Proof.
  intros Hok. unfold GetValuesHandler.GetValues. cbv zeta. by rewrite Hok.
Qed.


(** X12.  Over Binary HTTP a request that fails validation is not answered
    with its gRPC error: [BinaryHttpGetValues] serializes an empty response
    with the HTTP status 500 and returns [OK], so the reason of the
    rejection reaches the client neither as a status nor in the body.  The
    gRPC status is [INTERNAL] only if the serialization itself fails.
    Nothing is looked up. *)
Theorem BinaryHttpGetValues_hides_rejection
    (bhttp_request : BinaryHttpGetValuesRequest) (bhttp_response : HttpBody)
    (request : GetValuesRequest) :
  DeserializeBHttpToProto (data (raw_body bhttp_request)) = absl.Value request →
  ok (ValidateRequest request) = false →
  BinaryHttpGetValues bhttp_request bhttp_response
  = match SerializeProtoToBHttp cleared 500 with
    | absl.Value serialized =>
        (Status_OK,
         {| content_type := content_type bhttp_response; data := serialized |},
         [])
    | Failed e =>
        ({| error_code := INTERNAL; error_message := message e;
            error_details := EmptyString |}, bhttp_response, [])
    end.
Proof.
  intros Hd Hv. unfold GetValuesHandler.BinaryHttpGetValues. rewrite Hd.
  rewrite (GetValues_rejected request cleared Hv), Hv. done.
Qed.

Lemma GetValues_accepted_status (request : GetValuesRequest)
    (response : GetValuesResponse (Value := Value)) :
  ok (ValidateRequest request) = true →
  (GetValues request response).1.1 = Status_OK.
Proof.
  intros Hok. unfold GetValuesHandler.GetValues. cbv zeta. rewrite Hok.
  cbn [negb].
  destruct (decide (kv_internal request ≠ [])) as [Hi|Hi], dsp_mode_;
    repeat (match goal with
            | |- context [GetValuesHandler.ProcessKeys ?a ?b ?c ?d ?e] =>
                destruct (GetValuesHandler.ProcessKeys a b c d e)
            end;
            cbn [response_keys response_render_urls
                 response_ad_component_render_urls response_kv_internal]);
    done.
Qed.

(** X13.  The gRPC status of [BinaryHttpGetValues] is decided by the two
    conversions alone.  If the request body cannot be deserialized, or the
    response cannot be serialized, it returns [INTERNAL] with the message
    of that failure and no details, and leaves [bhttp_response] as it was.
    Otherwise it returns [OK] and has set the data of [bhttp_response],
    and nothing else, to the serialized response: the response of
    [GetValues] with the HTTP status 200 when the request passes
    validation, an empty response with 500 when it does not.  So the
    [INVALID_ARGUMENT] of the validation is never returned. *)
Theorem BinaryHttpGetValues_status
    (bhttp_request : BinaryHttpGetValuesRequest) (bhttp_response : HttpBody) :
  let result := BinaryHttpGetValues bhttp_request bhttp_response in
  let serialized :=
    match DeserializeBHttpToProto (data (raw_body bhttp_request)) with
    | Failed e => Failed e
    | absl.Value request =>
        if ok (ValidateRequest request) then
          SerializeProtoToBHttp (GetValues request cleared).1.2 200
        else SerializeProtoToBHttp cleared 500
    end in
  match serialized with
  | absl.Value body =>
      result.1
      = (Status_OK,
         {| content_type := content_type bhttp_response; data := body |})
  | Failed e =>
      result.1
      = ({| error_code := INTERNAL; error_message := message e;
            error_details := EmptyString |}, bhttp_response)
  end ∧
  error_code result.1.1 ≠ INVALID_ARGUMENT.
Proof.
  cbv zeta. unfold GetValuesHandler.BinaryHttpGetValues.
  destruct (DeserializeBHttpToProto _) as [request|e]; [|done].
  destruct (ok (ValidateRequest request)) eqn:Hok.
  - pose proof (GetValues_accepted_status request cleared Hok) as Hst.
    destruct (GetValues request cleared) as [[status response] calls].
    cbn [fst snd] in Hst |- *. subst status. cbn [negb ok error_code Status_OK].
    by destruct (SerializeProtoToBHttp response 200).
  - rewrite (GetValues_rejected request cleared Hok), Hok. cbn [negb].
    by destruct (SerializeProtoToBHttp cleared 500).
Qed.

Lemma ValidateRequest_ok_inv (request : GetValuesRequest) :
  ok (ValidateRequest request) = true →
  kv_internal request ≠ [] ∨
  if dsp_mode_ then
    keys request ≠ [] ∧ ad_component_render_urls request = []
    ∧ render_urls request = []
  else
    render_urls request ≠ [] ∧ keys request = [] ∧ subkey request = EmptyString.
Proof.
  unfold GetValuesHandler.ValidateRequest, ValidateDSPRequest,
    ValidateSSPRequest.
  destruct (decide (kv_internal request ≠ [])) as [Hi|Hi]; [by left|].
  intros Hok. right. destruct dsp_mode_.
  - destruct (decide (keys request = [])); [done|].
    destruct (decide (ad_component_render_urls request ≠ [])); [done|].
    destruct (decide (render_urls request ≠ [])); [done|].
    split; [done|]. split; by apply dec_stable.
  - destruct (decide (render_urls request = [])); [done|].
    destruct (decide (keys request ≠ [])); [done|].
    destruct (decide (subkey request ≠ EmptyString)); [done|].
    split; [done|]. split; by apply dec_stable.
Qed.

Lemma ProcessKeys_fresh (keys : list string) :
  keys ≠ [] →
  ProcessKeys keys ∅
  = ((string_value <$> cache_ (GetKeys keys) : gmap string Value),
     [ GetKeyValuePairs (GetKeys keys);
       IncrementEventCounter
         (if decide (cache_ (GetKeys keys) = ∅) then "CacheKeyMiss"
          else "CacheKeyHit") ]).
Proof.
  intros Hk. destruct keys as [|key keys]; [done|].
  unfold GetValuesHandler.ProcessKeys. cbv zeta. f_equal.
  apply (map_eq (M := gmap string)). intros k.
  rewrite (insert_fold_lookup string_value) by apply NoDup_fst_map_to_list.
  rewrite list_to_map_to_list, lookup_fmap.
  by destruct (cache_ _ !! k).
Qed.

(** X25.  What [GetValues] answers to a request of a client (one without
    [kv_internal] keys) that passes validation, on a new response message.
    In DSP mode the field [keys] of the response holds exactly the pairs
    that the cache returns for the split keys of the request, as string
    values, and no other field is present; the cache is read once and one
    hit or miss is counted.  In SSP mode the same holds for [render_urls];
    [ad_component_render_urls] is present as well and holds the pairs of
    the split ad component render URLs, with a cache read and a count of
    its own, or nothing at all when the request names none. *)
Theorem GetValues_on_new_response (request : GetValuesRequest) :
  kv_internal request = [] →
  ok (ValidateRequest request) = true →
  let lookup (names : list string) :=
    ((string_value <$> cache_ (GetKeys names) : gmap string Value),
     [ GetKeyValuePairs (GetKeys names);
       IncrementEventCounter
         (if decide (cache_ (GetKeys names) = ∅) then "CacheKeyMiss"
          else "CacheKeyHit") ]) in
  GetValues request cleared
  = if dsp_mode_ then
      (Status_OK,
       {| response_keys := Some (lookup (keys request)).1;
          response_render_urls := None;
          response_ad_component_render_urls := None;
          response_kv_internal := None |},
       (lookup (keys request)).2)
    else
      (Status_OK,
       {| response_keys := None;
          response_render_urls := Some (lookup (render_urls request)).1;
          response_ad_component_render_urls :=
            Some (if decide (ad_component_render_urls request = []) then ∅
                  else (lookup (ad_component_render_urls request)).1);
          response_kv_internal := None |},
       (lookup (render_urls request)).2
       ++ (if decide (ad_component_render_urls request = []) then []
           else (lookup (ad_component_render_urls request)).2)).
Proof.
  intros Hi Hok. cbv zeta.
  pose proof (ValidateRequest_ok_inv request Hok) as Hmode.
  unfold GetValuesHandler.GetValues. cbv zeta. rewrite Hok. cbn [negb].
  rewrite decide_False by (rewrite Hi; intros H; by apply H).
  destruct dsp_mode_.
  - destruct Hmode as [?|(Hk & _ & _)]; [done|].
    cbn [response_keys default cleared]. by rewrite ProcessKeys_fresh.
  - destruct Hmode as [?|(Hr & _ & _)]; [done|].
    cbn [response_render_urls response_ad_component_render_urls default
         cleared].
    rewrite ProcessKeys_fresh by done.
    destruct (decide (ad_component_render_urls request = [])) as [->|Ha].
    + done.
    + by rewrite ProcessKeys_fresh.
Qed.

End HandlerV1.

(** The theorem on a new response for a DSP handler whose cache holds the
    key "a": the request key "a,b" is split, and the response has the one
    pair. *)
Lemma GetValues_on_new_response_witness :
  GetValuesHandler.GetValues (λ v : string, v)
    (λ key_list, if decide ("a" ∈ key_list) then {[ "a" := "1" ]} else ∅)
    true (Ascii.ascii_of_nat 44)
    {| GetValuesHandler.keys := ["a,b"];
       GetValuesHandler.subkey := EmptyString;
       GetValuesHandler.render_urls := [];
       GetValuesHandler.ad_component_render_urls := [];
       GetValuesHandler.kv_internal := [] |}
    GetValuesHandler.cleared
  = (GetValuesHandler.Status_OK,
     {| GetValuesHandler.response_keys := Some {[ "a" := "1" ]};
        GetValuesHandler.response_render_urls := None;
        GetValuesHandler.response_ad_component_render_urls := None;
        GetValuesHandler.response_kv_internal := None |},
     [ GetValuesHandler.GetKeyValuePairs ["a"; "b"];
       GetValuesHandler.IncrementEventCounter "CacheKeyHit" ]).
Proof.
  rewrite (GetValues_on_new_response (λ v : string, v)
             (λ key_list, if decide ("a" ∈ key_list) then {[ "a" := "1" ]}
                          else ∅)
             true (Ascii.ascii_of_nat 44)).
  - vm_compute. reflexivity.
  - reflexivity.
  - reflexivity.
Defined.

(** The theorem on Binary HTTP for a DSP handler and a request without
    keys. *)
Lemma BinaryHttpGetValues_hides_rejection_witness :
  GetValuesHandler.BinaryHttpGetValues (λ v : string, v) (λ _, ∅) true (Ascii.ascii_of_nat 44)
    (λ _, Value {| GetValuesHandler.keys := [];
                   GetValuesHandler.subkey := EmptyString;
                   GetValuesHandler.render_urls := ["url"];
                   GetValuesHandler.ad_component_render_urls := [];
                   GetValuesHandler.kv_internal := [] |})
    (λ _ status_code, if decide (status_code = 500) then Value "empty 500"
                      else Value "full 200")
    {| GetValuesHandler.raw_body :=
         {| GetValuesHandler.content_type := "message/bhttp";
            GetValuesHandler.data := "request" |} |}
    {| GetValuesHandler.content_type := EmptyString;
       GetValuesHandler.data := EmptyString |}
  = (GetValuesHandler.Status_OK,
     {| GetValuesHandler.content_type := EmptyString;
        GetValuesHandler.data := "empty 500" |}, []).
Proof.
  exact (BinaryHttpGetValues_hides_rejection (λ v : string, v) (λ _, ∅) true
           (Ascii.ascii_of_nat 44)
           (λ _, Value {| GetValuesHandler.keys := [];
                          GetValuesHandler.subkey := EmptyString;
                          GetValuesHandler.render_urls := ["url"];
                          GetValuesHandler.ad_component_render_urls := [];
                          GetValuesHandler.kv_internal := [] |})
           (λ _ status_code,
              if decide (status_code = 500) then Value "empty 500"
              else Value "full 200")
           {| GetValuesHandler.raw_body :=
                {| GetValuesHandler.content_type := "message/bhttp";
                   GetValuesHandler.data := "request" |} |}
           {| GetValuesHandler.content_type := EmptyString;
              GetValuesHandler.data := EmptyString |}
           _ eq_refl eq_refl).
Defined.

(** ** Properties of the getValues hook *)

Section HookProperties.

Import GetValuesHook.

Context (lookup_client_supplier_ : nat → option LookupClient).
Context (dump : json → string)
        (MessageToJsonString : InternalLookupResponse → string).

Abbreviation call := (GetValuesHook.call lookup_client_supplier_ dump
                        MessageToJsonString).
Abbreviation calls := (GetValuesHook.calls lookup_client_supplier_ dump
                         MessageToJsonString).

(** Once the hook has a client, every call goes to it and the hook stays
    as it is. *)
Lemma calls_with_client (hook : GetValuesHookImpl) lookup_client inputs :
  lookup_client_ hook = Some lookup_client →
  calls hook inputs
  = ((λ input, (call hook input).1) <$> inputs, hook).
Proof.
  intros Hc. induction inputs as [|input inputs IH]; [done|].
  cbn [GetValuesHook.calls fmap list_fmap].
  assert (Hcall : (call hook input).2 = hook).
  { unfold GetValuesHook.call. by rewrite !Hc. }
  destruct (call hook input) as [output hook'] eqn:E.
  simpl in Hcall. subst hook'. by rewrite IH.
Qed.

(** X14.  The hook asks the supplier for a lookup client on its first call
    and never again: over any non-empty sequence of calls, starting from the
    hook as [Create] returns it, the supplier is invoked exactly once, all
    calls go to the client of that invocation, and each call returns the
    JSON of the client's answer: the response message, or for a failed
    lookup the object with the members "code" (the number of the status
    code) and "message".  Before the first call the supplier has not been
    invoked. *)
Theorem hook_supplies_client_once lookup_client (inputs : list (list string)) :
  lookup_client_supplier_ 0%nat = Some lookup_client →
  inputs ≠ [] →
  supplier_calls Create = 0%nat ∧
  calls Create inputs
  = ((λ input,
        Some
          match GetValues lookup_client input with
          | Failed e =>
              dump (json_object
                      [ ("code", json_number (raw_code (code e)));
                        ("message", json_string (message e)) ])
          | Value response => MessageToJsonString response
          end) <$> inputs,
     {| lookup_client_ := Some lookup_client; supplier_calls := 1 |}).
Proof.
  intros Hs Hne. split; [done|].
  destruct inputs as [|input inputs]; [done|].
  cbn [GetValuesHook.calls].
  unfold GetValuesHook.call at 1. cbn [lookup_client_ supplier_calls Create].
  rewrite Hs.
  rewrite (calls_with_client _ lookup_client) by done.
  cbn [fmap list_fmap]. do 2 f_equal.
Qed.

End HookProperties.

(** The theorem on the hook for a client that fails on the key "k2". *)
Lemma hook_supplies_client_once_witness :
  (GetValuesHook.calls
     (λ _, Some {| GetValuesHook.GetValues := λ input,
                     if decide (input = ["k2"])
                     then Failed {| code := kInternal; message := "down" |}
                     else Value empty_response |})
     (λ _, "status") (λ _, "response")
     GetValuesHook.Create [["k1"]; ["k2"]; ["k3"]]).1
  = [Some "response"; Some "status"; Some "response"].
Proof.
  destruct (hook_supplies_client_once
              (λ _, Some {| GetValuesHook.GetValues := λ input,
                              if decide (input = ["k2"])
                              then Failed {| code := kInternal;
                                             message := "down" |}
                              else Value empty_response |})
              (λ _, "status") (λ _, "response")
              {| GetValuesHook.GetValues := λ input,
                   if decide (input = ["k2"])
                   then Failed {| code := kInternal; message := "down" |}
                   else Value empty_response |}
              [["k1"]; ["k2"]; ["k3"]] eq_refl) as [_ H].
  - discriminate.
  - rewrite H. reflexivity.
Defined.

(** ** Properties of the parameter names *)

Lemma append_inj_l (s a b : string) :
  String.append s a = String.append s b → a = b.
Proof.
  induction s as [|c s IH]; simpl; [done|]. intros [= H]. by apply IH.
Qed.

Lemma append_sep_inj (sep : Ascii.ascii) (a1 a2 b1 b2 : string) :
  sep ∉ list_ascii_of_string a1 →
  sep ∉ list_ascii_of_string a2 →
  String.append a1 (String sep b1) = String.append a2 (String sep b2) →
  a1 = a2 ∧ b1 = b2.
Proof.
  revert a2. induction a1 as [|c a1 IH]; intros [|c2 a2] H1 H2; simpl.
  - by intros [= ->].
  - intros [= <- _]. exfalso. apply H2. simpl. left.
  - intros [= -> _]. exfalso. apply H1. simpl. left.
  - intros [= -> Heq]. simpl in H1, H2.
    apply not_elem_of_cons in H1 as [_ H1].
    apply not_elem_of_cons in H2 as [_ H2].
    destruct (IH a2 H1 H2 Heq) as [-> ->]. done.
Qed.

(** X15.  [GetParamName] joins the service name, the environment and the
    suffix with "-".  For one environment different suffixes give different
    parameter names.  Across environments this holds as long as the
    environment names contain no "-"; with a "-" in an environment name
    two different pairs of environment and suffix can name the same
    parameter. *)
Theorem GetParamName_injective (kServiceName : string) :
  (∀ environment_ s1 s2,
     ParameterFetcher.GetParamName kServiceName environment_ s1
     = ParameterFetcher.GetParamName kServiceName environment_ s2 →
     s1 = s2) ∧
  (∀ e1 e2 s1 s2,
     Ascii.ascii_of_nat 45 ∉ list_ascii_of_string e1 →
     Ascii.ascii_of_nat 45 ∉ list_ascii_of_string e2 →
     ParameterFetcher.GetParamName kServiceName e1 s1
     = ParameterFetcher.GetParamName kServiceName e2 s2 →
     e1 = e2 ∧ s1 = s2) ∧
  ParameterFetcher.GetParamName kServiceName "a-b" "c"
  = ParameterFetcher.GetParamName kServiceName "a" "b-c".
Proof.
  unfold ParameterFetcher.GetParamName. cbn [String.concat].
  split; [|split].
  - intros e s1 s2 H. apply append_inj_l in H.
    change (String (Ascii.ascii_of_nat 45)
              (String.append e (String (Ascii.ascii_of_nat 45) s1))
            = String (Ascii.ascii_of_nat 45)
                (String.append e (String (Ascii.ascii_of_nat 45) s2))) in H.
    injection H as H. apply append_inj_l in H. by injection H.
  - intros e1 e2 s1 s2 H1 H2 H. apply append_inj_l in H.
    change (String (Ascii.ascii_of_nat 45)
              (String.append e1 (String (Ascii.ascii_of_nat 45) s1))
            = String (Ascii.ascii_of_nat 45)
                (String.append e2 (String (Ascii.ascii_of_nat 45) s2))) in H.
    injection H as H. by apply (append_sep_inj (Ascii.ascii_of_nat 45)).
  - done.
Qed.

(** ** Properties of the UDF delta file tester *)

Lemma default_last_cons {A} (x y : A) (l : list A) :
  default x (last (y :: l)) = default y (last l).
Proof.
  revert x y. induction l as [|z l IH]; intros x y; [done|].
  rewrite last_cons_cons. by rewrite (IH x z), (IH y z).
Qed.

Section TesterProperties.

Import UdfDeltaFileTester.

Context (kUdfHandlerNameKey kUdfCodeSnippetKey : string).

Abbreviation record_callback :=
  (UdfDeltaFileTester.record_callback kUdfHandlerNameKey kUdfCodeSnippetKey).
Abbreviation ReadCodeConfigFromFile :=
  (UdfDeltaFileTester.ReadCodeConfigFromFile kUdfHandlerNameKey
     kUdfCodeSnippetKey).

Lemma record_callback_fold (rs : list DeltaFileRecordStruct)
    (code_config : CodeConfig) :
  udf_handler_name (foldl record_callback code_config rs)
  = default (udf_handler_name code_config) (last_update kUdfHandlerNameKey rs)
  ∧
  js (foldl record_callback code_config rs)
  = default (js code_config) (last_update kUdfCodeSnippetKey rs).
Proof.
  revert code_config. induction rs as [|r rs IH]; intros code_config; [done|].
  cbn [foldl]. destruct (IH (record_callback code_config r)) as [-> ->].
  unfold last_update, UdfDeltaFileTester.record_callback.
  cbn [omap list_omap].
  destruct (mutation_type r); [|done..].
  split.
  - destruct (decide (key r = kUdfHandlerNameKey)).
    + rewrite default_last_cons. by destruct (decide _).
    + by destruct (decide _).
  - destruct (decide (key r = kUdfCodeSnippetKey)).
    + rewrite default_last_cons. by destruct (decide _).
    + by destruct (decide _).
Qed.

(** X16.  [ReadCodeConfigFromFile] takes the handler name and the code
    snippet from the [Update] records under the two keys; records of any
    other mutation type and under other keys are ignored, and of several
    updates of a key the last one wins; a member without update keeps the
    value it had.  With the file read to its end the result is [OkStatus]
    if both members are non-empty then; if the handler name is empty the
    error names [udf_handler_name], also when the code is missing too;
    otherwise an empty code gives the error that names [udf_code_snippet].
    When reading fails the reader's error is returned, and [code_config]
    holds what the records before the failure made of it. *)
Theorem ReadCodeConfigFromFile_last_update (delta_file : DeltaFile)
    (code_config : CodeConfig) :
  let result := ReadCodeConfigFromFile delta_file code_config in
  let handler :=
    default (udf_handler_name code_config)
            (last_update kUdfHandlerNameKey (records delta_file)) in
  let snippet :=
    default (js code_config)
            (last_update kUdfCodeSnippetKey (records delta_file)) in
  result.2 = {| js := snippet; udf_handler_name := handler |} ∧
  result.1
  = match read_status delta_file with
    | NotOk e => NotOk e
    | OkStatus =>
        if decide (handler = EmptyString) then
          NotOk {| code := kInvalidArgument;
                   message := "Missing `udf_handler_name` key in delta file." |}
        else if decide (snippet = EmptyString) then
          NotOk {| code := kInvalidArgument;
                   message := "Missing `udf_code_snippet` key in delta file." |}
        else OkStatus
    end.
Proof.
  cbv zeta. unfold UdfDeltaFileTester.ReadCodeConfigFromFile. cbv zeta.
  destruct (record_callback_fold (records delta_file) code_config) as [Hh Hj].
  fold record_callback. rewrite <- Hh, <- Hj.
  set (c := foldl record_callback code_config (records delta_file)).
  assert (Hc : c = {| js := js c; udf_handler_name := udf_handler_name c |})
    by by destruct c.
  destruct (read_status delta_file); [|done].
  destruct (decide (udf_handler_name c = EmptyString)); [done|].
  by destruct (decide (js c = EmptyString)).
Qed.

(** X17.  [ParseUdfResult] cannot report a malformed UDF output as a
    status.  It parses with the default arguments of
    [nlohmann::json::parse], under which malformed text raises an exception
    and a value that is returned is never a discarded one; so the function
    returns [OkStatus] or does not return at all, and its
    [InvalidArgument] branch is never taken. *)
Theorem ParseUdfResult_never_invalid_argument {Json : Type}
    (json_parse : string → option Json) (is_discarded : Json → bool)
    (result : string) :
  (∀ text value, json_parse text = Some value → is_discarded value = false) →
  ParseUdfResult json_parse is_discarded result
  = if json_parse result then Returns OkStatus else Throws.
Proof.
  intros Hparse. unfold ParseUdfResult.
  destruct (json_parse result) as [value|] eqn:E; [|done].
  by rewrite (Hparse _ _ E).
Qed.

End TesterProperties.

(** The theorem on [ParseUdfResult] for a parser that accepts the text
    "{}" only. *)
Lemma ParseUdfResult_never_invalid_argument_witness :
  UdfDeltaFileTester.ParseUdfResult
    (λ text, if decide (text = "{}") then Some tt else None) (λ _, false)
    "{"
  = UdfDeltaFileTester.Throws.
Proof.
  rewrite (ParseUdfResult_never_invalid_argument
             (λ text, if decide (text = "{}") then Some tt else None)
             (λ _, false) "{").
  - reflexivity.
  - intros text value _. reflexivity.
Defined.

(** ** Properties of the telemetry definitions *)

(** X18.  The partitions of the status counters are strictly increasing in
    the order of [std::string_view], as the comment on them requires; they
    cover [absl::StatusCodeToString]: the partition under which
    [LogStatusSafeMetricsFn] counts a status is one of them for every
    status, and every partition other than the empty string is the name of
    a status code.  The boundaries of the latency histograms are strictly
    increasing too. *)
Theorem status_partitions_cover_codes :
  Telemetry.increasing String.ltb Telemetry.kAbslStatusStrings = true ∧
  Telemetry.increasing Z.ltb Telemetry.kLatencyInMicroSecondsBoundaries = true ∧
  (∀ status count,
     Forall (λ partition : string * Z,
               partition.1 ∈ Telemetry.kAbslStatusStrings)
            (Telemetry.LogStatusSafeMetricsFn status count)) ∧
  (∀ name,
     name ∈ Telemetry.kAbslStatusStrings →
     name = EmptyString ∨
     ∃ status, Telemetry.StatusCodeToString (Telemetry.code_of status) = name).
Proof.
  split; [vm_compute; reflexivity|]. split; [vm_compute; reflexivity|]. split.
  - intros status count. constructor; [|constructor]. simpl.
    destruct status as [|[c m]]; [|destruct c]; simpl;
      unfold Telemetry.kAbslStatusStrings;
      repeat (first [by left | right]).
  - intros name H. unfold Telemetry.kAbslStatusStrings in H.
    repeat (apply elem_of_cons in H as [->|H]); [by left|..];
      try (right;
           first
             [ by exists OkStatus
             | by exists (NotOk {| code := kCancelled; message := "" |})
             | by exists (NotOk {| code := kUnknown; message := "" |})
             | by exists (NotOk {| code := kInvalidArgument; message := "" |})
             | by exists (NotOk {| code := kDeadlineExceeded; message := "" |})
             | by exists (NotOk {| code := kNotFound; message := "" |})
             | by exists (NotOk {| code := kAlreadyExists; message := "" |})
             | by exists (NotOk {| code := kPermissionDenied; message := "" |})
             | by exists (NotOk {| code := kResourceExhausted; message := "" |})
             | by exists (NotOk {| code := kFailedPrecondition; message := "" |})
             | by exists (NotOk {| code := kAborted; message := "" |})
             | by exists (NotOk {| code := kOutOfRange; message := "" |})
             | by exists (NotOk {| code := kUnimplemented; message := "" |})
             | by exists (NotOk {| code := kInternal; message := "" |})
             | by exists (NotOk {| code := kUnavailable; message := "" |})
             | by exists (NotOk {| code := kDataLoss; message := "" |})
             | by exists (NotOk {| code := kUnauthenticated; message := "" |}) ]).
    by apply elem_of_nil in H.
Qed.

(** ** Properties of the instance client on GCP *)

Section InstanceClient.

Import GcpInstanceClient.

Context (instance_client_ : InstanceClientInterface)
        (GetErrorMessage : Z → string).

Abbreviation GetResourceName :=
  (GcpInstanceClient.GetResourceName instance_client_ GetErrorMessage).
Abbreviation GetInstanceDetails :=
  (GcpInstanceClient.GetInstanceDetails instance_client_ GetErrorMessage).
Abbreviation GetEnvironmentTag :=
  (GcpInstanceClient.GetEnvironmentTag instance_client_ GetErrorMessage).
Abbreviation GetInstanceId :=
  (GcpInstanceClient.GetInstanceId instance_client_ GetErrorMessage).
Abbreviation DescribeInstances :=
  (GcpInstanceClient.DescribeInstances instance_client_ GetErrorMessage).
Abbreviation DescribeInstanceGroupInstances :=
  (GcpInstanceClient.DescribeInstanceGroupInstances instance_client_
     GetErrorMessage).

Lemma GetInstanceId_value client id client' :
  GetInstanceId client = Some (Value id, client') →
  id ≠ EmptyString ∧ instance_id_ client' = id.
Proof.
  unfold GcpInstanceClient.GetInstanceId. cbv zeta.
  destruct (decide (instance_id_ client = EmptyString)) as [He|Hne].
  - destruct (GetInstanceDetails client) as [[[|e] c]|]; [|done..].
    destruct (decide (instance_id_ c = EmptyString)); [done|].
    by intros [= <- <-].
  - by intros [= <- <-].
Qed.

Lemma GetEnvironmentTag_value client environment client' :
  GetEnvironmentTag client = Some (Value environment, client') →
  environment ≠ EmptyString ∧ environment_ client' = environment.
Proof.
  unfold GcpInstanceClient.GetEnvironmentTag. cbv zeta.
  destruct (decide (environment_ client = EmptyString)) as [He|Hne].
  - destruct (GetInstanceDetails client) as [[[|e] c]|]; [|done..].
    destruct (decide (environment_ c = EmptyString)); [done|].
    by intros [= <- <-].
  - by intros [= <- <-].
Qed.

(** X19.  [GetEnvironmentTag] and [GetInstanceId] never return an empty
    string: a value they return is the non-empty member they cache, and a
    client that has returned one returns the same again without
    [GetInstanceDetails], hence without asking the SDK, whatever the SDK
    would answer by then.  When [GetInstanceDetails] reports success and
    the member is still empty, both fail with [Unavailable] and the message
    "Environment label not found.", [GetInstanceId] too. *)
Theorem instance_details_are_cached (client : State) :
  (∀ environment client',
     GetEnvironmentTag client = Some (Value environment, client') →
     environment ≠ EmptyString ∧ environment_ client' = environment ∧
     ∀ other_client other_messages,
       GcpInstanceClient.GetEnvironmentTag other_client other_messages client'
       = Some (Value environment, client')) ∧
  (∀ id client',
     GetInstanceId client = Some (Value id, client') →
     id ≠ EmptyString ∧ instance_id_ client' = id ∧
     ∀ other_client other_messages,
       GcpInstanceClient.GetInstanceId other_client other_messages client'
       = Some (Value id, client')) ∧
  (∀ client',
     GetInstanceDetails client = Some (OkStatus, client') →
     (environment_ client = EmptyString → environment_ client' = EmptyString →
      GetEnvironmentTag client
      = Some (Failed {| code := kUnavailable;
                        message := "Environment label not found." |}, client'))
     ∧
     (instance_id_ client = EmptyString → instance_id_ client' = EmptyString →
      GetInstanceId client
      = Some (Failed {| code := kUnavailable;
                        message := "Environment label not found." |}, client'))).
Proof.
  split; [|split].
  - intros environment client' H.
    destruct (GetEnvironmentTag_value _ _ _ H) as [Hne He].
    split; [done|]. split; [done|]. intros other_client other_messages.
    unfold GcpInstanceClient.GetEnvironmentTag. cbv zeta.
    rewrite !decide_False by (by rewrite He). by rewrite He.
  - intros id client' H.
    destruct (GetInstanceId_value _ _ _ H) as [Hne Hid].
    split; [done|]. split; [done|]. intros other_client other_messages.
    unfold GcpInstanceClient.GetInstanceId. cbv zeta.
    rewrite !decide_False by (by rewrite Hid). by rewrite Hid.
  - intros client' Hd. split; intros He He'.
    + unfold GcpInstanceClient.GetEnvironmentTag. cbv zeta.
      by rewrite decide_True, Hd, decide_True by done.
    + unfold GcpInstanceClient.GetInstanceId. cbv zeta.
      by rewrite decide_True, Hd, decide_True by done.
Qed.

(** X20.  When [DescribeInstances] or [DescribeInstanceGroupInstances]
    returns instances, the result is one instance: the machine itself, by
    its non-empty cached instance id.  The instance ids and the instance
    groups that the caller asks for play no role. *)
Theorem DescribeInstances_returns_self (instance_ids instance_groups : gset string)
    (client client' : State) (instances : list InstanceInfo) :
  DescribeInstances instance_ids client = Some (Value instances, client')
  ∨ DescribeInstanceGroupInstances instance_groups client
    = Some (Value instances, client') →
  ∃ self,
    instances = [{| id := self |}] ∧ self ≠ EmptyString ∧
    instance_id_ client' = self.
Proof.
  assert (Hd : ∀ ids c,
            DescribeInstances ids c = Some (Value instances, client') →
            ∃ self,
              instances = [{| id := self |}] ∧ self ≠ EmptyString ∧
              instance_id_ client' = self).
  { intros ids c. unfold GcpInstanceClient.DescribeInstances.
    destruct (GetInstanceId c) as [[[self|e] c1]|] eqn:E; [|done..].
    intros [= <- <-]. exists self.
    by destruct (GetInstanceId_value _ _ _ E). }
  intros [H|H]; [by apply (Hd instance_ids client)|].
  unfold GcpInstanceClient.DescribeInstanceGroupInstances in H.
  destruct (GetInstanceId client) as [[r c1]|]; [|done].
  by apply (Hd ∅ c1).
Qed.

(** X23.  [GetInstanceDetails] waits for the callback of
    [GetInstanceDetailsByResourceName] before it looks at what the call
    returned: once it has a resource name, it does not return when the SDK
    never invokes the callback, also when the call itself has failed.
    [GetResourceName] looks first: when its call fails it returns the
    [Internal] error of the SDK without waiting. *)
Theorem GetInstanceDetails_waits_for_callback (client : State)
    (resource_name : string) :
  GetResourceName = Some (Value resource_name) →
  called_back
    (GetInstanceDetailsByResourceName instance_client_ resource_name) = None →
  GetInstanceDetails client = None ∧
  GetEnvironmentTag {| instance_id_ := instance_id_ client;
                       environment_ := EmptyString |} = None ∧
  ∀ other_client : InstanceClientInterface,
    Successful (returned (GetCurrentInstanceResourceName other_client)) = false →
    GcpInstanceClient.GetResourceName other_client GetErrorMessage
    = Some (Failed
              {| code := kInternal;
                 message :=
                   GetErrorMessage
                     (status_code
                        (returned (GetCurrentInstanceResourceName other_client)))
              |}).
Proof.
  intros Hname Hcb.
  assert (Hd : ∀ c, GetInstanceDetails c = None).
  { intros c. unfold GcpInstanceClient.GetInstanceDetails.
    rewrite Hname. cbv zeta. by rewrite Hcb. }
  split; [apply Hd|]. split.
  - unfold GcpInstanceClient.GetEnvironmentTag. cbv zeta.
    cbn [environment_]. rewrite decide_True by done. by rewrite Hd.
  - intros other Hfail. unfold GcpInstanceClient.GetResourceName. cbv zeta.
    by rewrite Hfail.
Qed.

(** X24.  A failure that the SDK reports through the callback of
    [GetInstanceDetailsByResourceName] is lost: when the call itself
    succeeds, [GetInstanceDetails] returns [OkStatus] and leaves the client
    as it was.  A client without environment then answers
    [GetEnvironmentTag] with [Unavailable] "Environment label not found.",
    and a client without instance id answers [GetInstanceId] with the same
    error, instead of the error of the SDK. *)
Theorem GetInstanceDetails_masks_callback_failure (client : State)
    (resource_name : string) callback_result response :
  GetResourceName = Some (Value resource_name) →
  Successful
    (returned (GetInstanceDetailsByResourceName instance_client_ resource_name))
  = true →
  called_back
    (GetInstanceDetailsByResourceName instance_client_ resource_name)
  = Some (callback_result, response) →
  Successful callback_result = false →
  GetInstanceDetails client = Some (OkStatus, client) ∧
  (environment_ client = EmptyString →
   GetEnvironmentTag client
   = Some (Failed {| code := kUnavailable;
                     message := "Environment label not found." |}, client)) ∧
  (instance_id_ client = EmptyString →
   GetInstanceId client
   = Some (Failed {| code := kUnavailable;
                     message := "Environment label not found." |}, client)).
Proof.
  intros Hname Hret Hcb Hfail.
  assert (Hd : GetInstanceDetails client = Some (OkStatus, client)).
  { unfold GcpInstanceClient.GetInstanceDetails.
    rewrite Hname. cbv zeta. by rewrite Hcb, Hfail, Hret. }
  split; [done|]. split; intros He.
  - unfold GcpInstanceClient.GetEnvironmentTag. cbv zeta.
    by rewrite decide_True, Hd, decide_True by done.
  - unfold GcpInstanceClient.GetInstanceId. cbv zeta.
    by rewrite decide_True, Hd, decide_True by done.
Qed.

End InstanceClient.

(** An SDK for the examples: it knows the resource name, and answers the
    request for the details as given. *)
Lemma DescribeInstances_returns_self_witness :
  ∃ self,
    [{| GcpInstanceClient.id := "i-1" |}] = [{| GcpInstanceClient.id := self |}] ∧
    self ≠ EmptyString ∧
    GcpInstanceClient.instance_id_
      {| GcpInstanceClient.instance_id_ := "i-1";
         GcpInstanceClient.environment_ := "prod" |} = self.
Proof.
  apply (DescribeInstances_returns_self
           {| GcpInstanceClient.GetCurrentInstanceResourceName :=
                {| GcpInstanceClient.returned :=
                     {| GcpInstanceClient.Successful := true;
                        GcpInstanceClient.status_code := 1 |};
                   GcpInstanceClient.called_back :=
                     Some ({| GcpInstanceClient.Successful := true;
                              GcpInstanceClient.status_code := 1 |},
                           "instances/i-1") |};
              GcpInstanceClient.GetInstanceDetailsByResourceName := λ _,
                {| GcpInstanceClient.returned :=
                     {| GcpInstanceClient.Successful := true;
                        GcpInstanceClient.status_code := 1 |};
                   GcpInstanceClient.called_back :=
                     Some ({| GcpInstanceClient.Successful := true;
                              GcpInstanceClient.status_code := 1 |},
                           {| GcpInstanceClient.instance_id := "i-1";
                              GcpInstanceClient.labels :=
                                {[ "environment" := "prod" ]} |}) |} |}
           (λ _, "error") {[ "i-2" ]} ∅
           {| GcpInstanceClient.instance_id_ := EmptyString;
              GcpInstanceClient.environment_ := EmptyString |}).
  left. vm_compute. reflexivity.
Defined.

(** The theorem on waiting for an SDK whose request for the details fails
    at once and never calls back. *)
Lemma GetInstanceDetails_waits_for_callback_witness :
  GcpInstanceClient.GetInstanceDetails
    {| GcpInstanceClient.GetCurrentInstanceResourceName :=
         {| GcpInstanceClient.returned :=
              {| GcpInstanceClient.Successful := true;
                 GcpInstanceClient.status_code := 1 |};
            GcpInstanceClient.called_back :=
              Some ({| GcpInstanceClient.Successful := true;
                       GcpInstanceClient.status_code := 1 |},
                    "instances/i-1") |};
       GcpInstanceClient.GetInstanceDetailsByResourceName := λ _,
         {| GcpInstanceClient.returned :=
              {| GcpInstanceClient.Successful := false;
                 GcpInstanceClient.status_code := 2 |};
            GcpInstanceClient.called_back := None |} |}
    (λ _, "error")
    {| GcpInstanceClient.instance_id_ := EmptyString;
       GcpInstanceClient.environment_ := EmptyString |}
  = None.
Proof.
  eapply (GetInstanceDetails_waits_for_callback
            {| GcpInstanceClient.GetCurrentInstanceResourceName :=
                 {| GcpInstanceClient.returned :=
                      {| GcpInstanceClient.Successful := true;
                         GcpInstanceClient.status_code := 1 |};
                    GcpInstanceClient.called_back :=
                      Some ({| GcpInstanceClient.Successful := true;
                               GcpInstanceClient.status_code := 1 |},
                            "instances/i-1") |};
               GcpInstanceClient.GetInstanceDetailsByResourceName := λ _,
                 {| GcpInstanceClient.returned :=
                      {| GcpInstanceClient.Successful := false;
                         GcpInstanceClient.status_code := 2 |};
                    GcpInstanceClient.called_back := None |} |}
            (λ _, "error")).
  - reflexivity.
  - reflexivity.
Defined.

(** The theorem on the lost failure for an SDK whose callback reports a
    failure. *)
Lemma GetInstanceDetails_masks_callback_failure_witness :
  GcpInstanceClient.GetEnvironmentTag
    {| GcpInstanceClient.GetCurrentInstanceResourceName :=
         {| GcpInstanceClient.returned :=
              {| GcpInstanceClient.Successful := true;
                 GcpInstanceClient.status_code := 1 |};
            GcpInstanceClient.called_back :=
              Some ({| GcpInstanceClient.Successful := true;
                       GcpInstanceClient.status_code := 1 |},
                    "instances/i-1") |};
       GcpInstanceClient.GetInstanceDetailsByResourceName := λ _,
         {| GcpInstanceClient.returned :=
              {| GcpInstanceClient.Successful := true;
                 GcpInstanceClient.status_code := 1 |};
            GcpInstanceClient.called_back :=
              Some ({| GcpInstanceClient.Successful := false;
                       GcpInstanceClient.status_code := 7 |},
                    {| GcpInstanceClient.instance_id := EmptyString;
                       GcpInstanceClient.labels := ∅ |}) |} |}
    (λ _, "permission denied")
    {| GcpInstanceClient.instance_id_ := EmptyString;
       GcpInstanceClient.environment_ := EmptyString |}
  = Some (Failed {| code := kUnavailable;
                    message := "Environment label not found." |},
          {| GcpInstanceClient.instance_id_ := EmptyString;
             GcpInstanceClient.environment_ := EmptyString |}).
Proof.
  eapply (GetInstanceDetails_masks_callback_failure
            {| GcpInstanceClient.GetCurrentInstanceResourceName :=
                 {| GcpInstanceClient.returned :=
                      {| GcpInstanceClient.Successful := true;
                         GcpInstanceClient.status_code := 1 |};
                    GcpInstanceClient.called_back :=
                      Some ({| GcpInstanceClient.Successful := true;
                               GcpInstanceClient.status_code := 1 |},
                            "instances/i-1") |};
               GcpInstanceClient.GetInstanceDetailsByResourceName := λ _,
                 {| GcpInstanceClient.returned :=
                      {| GcpInstanceClient.Successful := true;
                         GcpInstanceClient.status_code := 1 |};
                    GcpInstanceClient.called_back :=
                      Some ({| GcpInstanceClient.Successful := false;
                               GcpInstanceClient.status_code := 7 |},
                            {| GcpInstanceClient.instance_id := EmptyString;
                               GcpInstanceClient.labels := ∅ |}) |} |}
            (λ _, "permission denied")).
  - reflexivity.
  - reflexivity.
  - reflexivity.
  - reflexivity.
  - reflexivity.
Defined.
